(** * meet-clockify-sync: the reconciliation pass, verified over a shallow embedding

    The development follows the TypeScript sources:
    - [JS]          the JavaScript primitives the code relies on (truthiness,
                    [String.prototype.includes], [Math.min], [Math.max],
                    number-to-string conversion, settled promises);
    - [Common]      [src/utils/common.ts];
    - [GoogleMeet]  [src/services/google-meet-service.ts] (session collection,
                    aggregation, paging) and the types of
                    [src/types/google-meet.ts];
    - [Clockify]    [src/services/clockify-service.ts] and
                    [src/types/clockify.ts];
    - [SyncWorker]  [src/workers/sync-worker.ts] ([processSyncJob]);
    - [SyncScript]  [src/scripts/index.ts] ([syncMeetToClockify]);
    - [ClockifyPaging]  the paging loop of [getTimeEntriesForDateRange];
    - [Investigate], [Cleanup]  the investigation and the cleanup script;
    - [Endpoint], [Cli]  the [/sync] endpoint that runs the pass, and the
                    entry point of the command line;
    - [TokenStorage], [Auth]  the stored tokens and the credentials of the
                    Meet service.

    Conventions.  Strings are [string].  An instant is the [getTime()] of a
    valid [Date], integral milliseconds since the epoch ([Z]): the
    timestamps of the provider are taken to be well formed.  A thrown
    [Error] is represented by its message.  Asynchronous code is a function
    of a store that holds the state of the Clockify service, the request
    objects passed by reference, and the trace of remote calls and pauses.
    The two remote systems are records of answers: the answer of the time
    tracker to a request may depend on the trace so far.  The paged reads
    ([getTimeEntriesForDateRange] inside a pass, the Meet API calls inside
    [getConferenceRecords]) enter as completed calls. *)

From Stdlib Require Import ZArith String Ascii List Bool Lia DecimalString.
From stdpp Require Import base option gmap strings.

Local Open Scope Z_scope.
Local Open Scope string_scope.

(* ===================================================================== *)
(** ** JavaScript primitives *)
(* ===================================================================== *)

Module JS.

(** [s.startsWith(t)] *)
Fixpoint startsWith (s t : string) {struct t} : bool :=
  match t, s with
  | EmptyString, _ => true
  | String b t', String a s' => if Ascii.eqb a b then startsWith s' t' else false
  | String _ _, EmptyString => false
  end.

(** [s.includes(t)]: literal search of [t] at every position of [s]. *)
Fixpoint includes (s t : string) : bool :=
  if startsWith s t then true
  else match s with
       | EmptyString => false
       | String _ s' => includes s' t
       end.

(** The literal-substring relation [includes] decides. *)
Definition substring_of (t s : string) : Prop :=
  exists pre post : string, s = pre +:+ t +:+ post.

(** Truthiness of a string value: every string but the empty one. *)
Definition truthy (s : string) : bool :=
  match s with EmptyString => false | String _ _ => true end.

(** Truthiness of [string | null | undefined]. *)
Definition truthy_opt (o : option string) : bool :=
  match o with Some s => truthy s | None => false end.

(** [x || ''] on [string | null | undefined]. *)
Definition or_empty (o : option string) : string :=
  match o with Some s => if truthy s then s else "" | None => "" end.

(** [x || null] on [string | null | undefined]. *)
Definition or_null (o : option string) : option string :=
  match o with Some s => if truthy s then Some s else None | None => None end.

(** [String(n)] for an integral number [n]. *)
Definition String_of_Z (n : Z) : string :=
  NilZero.string_of_int (Z.to_int n).

(** [Math.min(...xs)] and [Math.max(...xs)] for a non-empty argument list
    given as head and tail. *)
Definition Math_min (x : Z) (xs : list Z) : Z := fold_left Z.min xs x.
Definition Math_max (x : Z) (xs : list Z) : Z := fold_left Z.max xs x.

(** A completed [await]: the promise resolved with a value or rejected with
    an [Error], kept as its message. *)
Inductive Outcome (A : Type) : Type :=
| Return (a : A)
| Throw (message : string).
Arguments Return {A} a.
Arguments Throw {A} message.

(** The built-ins whose result depends on the host (locale, time zone, Unicode
    tables); the sources only pass their results along. *)
Class Runtime : Type := {
  (** [new Date(s).getTime()] for a timestamp string of the provider *)
  Date_parse : string -> Z;
  (** [d.toISOString()] *)
  toISOString : Z -> string;
  (** [d.toLocaleTimeString()] *)
  toLocaleTimeString : Z -> string;
  (** [s.toLowerCase()] *)
  toLowerCase : string -> string;
  (** [d.setDate(d.getDate() - n)]: the instant [n] calendar days before [d] *)
  minusDays : Z -> Z -> Z
}.

(** [s.split(c)[0]]: the part of [s] before the first [c]. *)
Fixpoint split_head (c : ascii) (s : string) : string :=
  match s with
  | EmptyString => EmptyString
  | String a s' => if Ascii.eqb a c then EmptyString else String a (split_head c s')
  end.

End JS.

Import JS.

(* ===================================================================== *)
(** ** src/utils/common.ts *)
(* ===================================================================== *)

Module Common.

Record Duration : Type := { hours : Z; minutes : Z }.

(** [formatDuration(seconds)]: [Math.floor] is floor division, [%] is the
    remainder that takes the sign of the dividend. *)
Definition formatDuration (seconds : Z) : Duration :=
  {| hours := seconds / 3600;
     minutes := (Z.rem seconds 3600) / 60 |}.

(** [getErrorMessage(error)]: every value thrown in the modelled code is an
    [Error], represented by its message. *)
Definition getErrorMessage (error : string) : string := error.

End Common.

(* ===================================================================== *)
(** ** src/types/google-meet.ts and src/services/google-meet-service.ts *)
(* ===================================================================== *)

Module GoogleMeet.

(** A participant session as the Meet API returns it: every field may be
    missing. *)
Record ApiParticipantSession : Type := {
  api_session_name : option string;
  api_session_startTime : option string;
  api_session_endTime : option string
}.

(** [ParticipantSession] of src/types/google-meet.ts. *)
Record ParticipantSession : Type := {
  session_name : string;
  session_startTime : string;
  session_endTime : option string      (* [string | null] *)
}.

Record SignedinUser : Type := {
  user : option string;
  displayName : option string
}.

Record ApiParticipant : Type := {
  participant_name : option string;
  signedinUser : option SignedinUser
}.

Record Space : Type := {
  space_meetingCode : option string;
  space_meetingUri : option string
}.

Record ApiConferenceRecord : Type := {
  record_name : option string;
  record_startTime : option string;
  record_space : option Space
}.

(** [MeetingSession] of src/types/google-meet.ts; [startTime] and [endTime]
    are [Date]s, kept as their [getTime()]. *)
Record MeetingSession : Type := {
  meetingId : string;
  meetingCode : string;
  meetingUri : string;
  startTime : Z;
  endTime : Z;
  duration : Z
}.

Record ListConferenceRecordsResponse : Type := {
  conferenceRecords : option (list ApiConferenceRecord);
  nextPageToken : option string
}.

(** The Meet API as the service sees it: the completed result of each call. *)
Record Api : Type := {
  initializeAuth : Outcome unit;
  conferenceRecords_list : option string -> Outcome ListConferenceRecordsResponse;
  participants_list : string -> Outcome (option (list ApiParticipant));
  participantSessions_list : string -> Outcome (option (list ApiParticipantSession))
}.

Section Service.
Context `{Runtime}.
Variable GOOGLE_USER_EMAIL : string.
Variable api : Api.

(** Lines 253-262: the sessions of one participant kept for the user. *)
Definition collectSessions (sessions : list ApiParticipantSession)
  : list ParticipantSession :=
  flat_map (fun session =>
    match api_session_name session, api_session_startTime session with
    | Some n, Some st =>
        if truthy n && truthy st
        then [ {| session_name := n;
                  session_startTime := st;
                  session_endTime := or_null (api_session_endTime session) |} ]
        else []
    | _, _ => []
    end) sessions.

(** Lines 236-242. *)
Definition isCurrentUser (participant : ApiParticipant) : bool :=
  let emailUsername := toLowerCase (split_head "@"%char GOOGLE_USER_EMAIL) in
  let displayName :=
    toLowerCase (or_empty (match signedinUser participant with
                           | Some u => displayName u
                           | None => None
                           end)) in
  match signedinUser participant with
  | Some {| user := Some u |} => includes u GOOGLE_USER_EMAIL
  | _ => false
  end
  || includes displayName emailUsername
  || includes displayName (toLowerCase GOOGLE_USER_EMAIL).

(** Lines 228-266: the loop over the participants of one conference. *)
Fixpoint collectParticipants (participants : list ApiParticipant)
    (userSessions : list ParticipantSession)
  : Outcome (list ParticipantSession) :=
  match participants with
  | [] => Return userSessions
  | participant :: rest =>
      match participant_name participant with
      | Some pname =>
          if negb (truthy pname) then collectParticipants rest userSessions
          else if negb (isCurrentUser participant)
          then collectParticipants rest userSessions
          else
            match participantSessions_list api pname with
            | Throw e => Throw e
            | Return sessionsResponse =>
                collectParticipants rest
                  (userSessions ++
                   match sessionsResponse with
                   | Some sessions => collectSessions sessions
                   | None => []
                   end)
            end
      | None => collectParticipants rest userSessions
      end
  end.

(** [getUserParticipantSessions(conferenceName)]; [auth] tells whether
    [state.auth] is set. *)
Definition getUserParticipantSessions (auth : bool) (conferenceName : string)
  : Outcome (list ParticipantSession) :=
  match (if auth then Return tt else initializeAuth api) with
  | Throw e => Throw e
  | Return _ =>
      match participants_list api conferenceName with
      | Throw e => Throw e
      | Return None => Return []
      | Return (Some participants) => collectParticipants participants []
      end
  end.

(** Lines 160-165: the sessions with both instants, as pairs
    [(start, end)] of [getTime()] values. *)
Definition sessionTimes (userSessions : list ParticipantSession) : list (Z * Z) :=
  List.map
    (fun s => (Date_parse (session_startTime s),
               match session_endTime s with
               | Some e => Date_parse e
               | None => 0
               end))
    (List.filter
       (fun s => truthy (session_startTime s) && truthy_opt (session_endTime s))
       userSessions).

(** Lines 158-187: the aggregation of the user's sessions of one conference
    record into one meeting, or nothing. *)
Definition aggregate (name : string) (space : option Space)
    (userSessions : list ParticipantSession) : option MeetingSession :=
  if (0 <? length userSessions)%nat then
    match sessionTimes userSessions with
    | [] => None
    | t :: ts =>
        let earliestStart := Math_min (fst t) (List.map fst ts) in
        let latestEnd := Math_max (snd t) (List.map snd ts) in
        let totalDuration := (latestEnd - earliestStart) / 1000 in
        Some {| meetingId := name;
                meetingCode := or_empty (match space with
                                         | Some sp => space_meetingCode sp
                                         | None => None
                                         end);
                meetingUri := or_empty (match space with
                                        | Some sp => space_meetingUri sp
                                        | None => None
                                        end);
                startTime := earliestStart;
                endTime := latestEnd;
                duration := totalDuration |}
    end
  else None.

(** Lines 151-188: the loop over the conference records of one page. *)
Fixpoint processRecords (records : list ApiConferenceRecord)
    (meetings : list MeetingSession) : Outcome (list MeetingSession) :=
  match records with
  | [] => Return meetings
  | record :: rest =>
      match record_name record with
      | Some name =>
          if negb (truthy name) || negb (truthy_opt (record_startTime record))
          then processRecords rest meetings
          else
            match getUserParticipantSessions true name with
            | Throw e => Throw e
            | Return userSessions =>
                processRecords rest
                  (meetings ++
                   match aggregate name (record_space record) userSessions with
                   | Some m => [m]
                   | None => []
                   end)
            end
      | None => processRecords rest meetings
      end
  end.

(** Lines 143-197: the [do ... while (pageToken)] loop.  The provider may
    keep returning page tokens, so the loop is bounded by [fuel]; [None]
    stands for a loop that has not finished within it. *)
Fixpoint listPages (fuel : nat) (pageToken : option string)
    (meetings : list MeetingSession) : option (Outcome (list MeetingSession)) :=
  match fuel with
  | O => None
  | S fuel' =>
      match conferenceRecords_list api pageToken with
      | Throw e => Some (Throw e)
      | Return response =>
          match processRecords
                  (match conferenceRecords response with
                   | Some records => records
                   | None => []
                   end) meetings with
          | Throw e => Some (Throw e)
          | Return meetings' =>
              let pageToken' := or_null (nextPageToken response) in
              if truthy_opt pageToken'
              then listPages fuel' pageToken' meetings'
              else Some (Return meetings')
          end
      end
  end.

(** [getConferenceRecords(startDate, endDate)]; the two dates only enter the
    filter sent to the provider, whose answers are [api]. *)
Definition getConferenceRecords (fuel : nat) (auth : bool)
  : option (Outcome (list MeetingSession)) :=
  match (if auth then Return tt else initializeAuth api) with
  | Throw e => Some (Throw e)
  | Return _ => listPages fuel None []
  end.

End Service.

End GoogleMeet.

(* ===================================================================== *)
(** ** src/types/clockify.ts and src/services/clockify-service.ts *)
(* ===================================================================== *)

Module Clockify.

(** [ClockifyUser], [ClockifyWorkspace] and [ClockifyProject], with the
    fields the service reads or prints. *)
Record ClockifyUser : Type := {
  user_id : string;
  user_email : string;
  user_name : string
}.

Record ClockifyWorkspace : Type := {
  workspace_id : string;
  workspace_name : string
}.

Record ClockifyProject : Type := {
  project_id : string;
  project_name : string
}.

Record TimeInterval : Type := {
  interval_start : string;
  interval_end : string;
  interval_duration : string
}.

(** [ClockifyTimeEntry]: an entry the time tracker holds. *)
Record ClockifyTimeEntry : Type := {
  entry_id : string;
  entry_description : string;
  entry_projectId : string;
  entry_workspaceId : string;
  entry_userId : string;
  entry_billable : bool;
  timeInterval : TimeInterval
}.

(** [CreateTimeEntryRequest]; [projectId] is optional. *)
Record CreateTimeEntryRequest : Type := {
  start : string;
  end_ : string;
  billable : bool;
  description : string;
  projectId : option string
}.

Definition set_projectId (p : string) (entry : CreateTimeEntryRequest)
  : CreateTimeEntryRequest :=
  {| start := start entry; end_ := end_ entry; billable := billable entry;
     description := description entry; projectId := Some p |}.

(** The part of the validated environment the modelled code reads.
    [DRY_RUN] is the truthiness of [env.DRY_RUN]. *)
Record Environment : Type := {
  GOOGLE_USER_EMAIL : string;
  SYNC_DAYS : Z;
  CLOCKIFY_API_TOKEN : string;
  CLOCKIFY_API_BASE : string;
  CLOCKIFY_API_DELAY : Z;
  MEET_PROJECT_NAME : string;
  DRY_RUN : bool
}.

(** [ClockifyState]: the mutable state the service closes over. *)
Record ClockifyState : Type := {
  apiToken : string;
  workspaceId : option string;
  userId : option string;
  leagueProjectId : option string
}.

(** What a run does that is visible from outside. *)
Inductive Event : Type :=
| MeetInitialize
| GetConferenceRecords (startDate endDate : Z)
| GetUser
| GetWorkspaces
| GetProjects (workspace : string)
| PostProject (workspace name : string)
| GetTimeEntries (workspace user startDate endDate : string)
| CallCreateTimeEntry (entry : CreateTimeEntryRequest)
| PostTimeEntry (workspace : string) (body : CreateTimeEntryRequest) (ok : bool)
| Sleep (ms : Z).

(** A completed [fetch]: it rejects, or resolves with a response whose body
    parses as [A] or not. *)
Inductive HttpResult (A : Type) : Type :=
| NetworkError (message : string)
| Response (ok : bool) (statusText : string) (text : string) (json : Outcome A).
Arguments NetworkError {A} message.
Arguments Response {A} ok statusText text json.

Definition response_ok {A : Type} (r : HttpResult A) : bool :=
  match r with
  | NetworkError _ => false
  | Response ok _ _ _ => ok
  end.

(** The time tracker as the service sees it.  Every answer may depend on
    what happened before (the events so far, latest first).
    [time_entries] is the completed, already paged result of
    [getTimeEntriesForDateRange]. *)
Record Remote : Type := {
  get_user : list Event -> HttpResult ClockifyUser;
  get_workspaces : list Event -> HttpResult (list ClockifyWorkspace);
  get_projects : list Event -> string -> HttpResult (list ClockifyProject);
  post_project : list Event -> string -> string -> HttpResult ClockifyProject;
  time_entries : list Event -> string -> string -> string -> string
                 -> Outcome (list ClockifyTimeEntry);
  post_time_entry : list Event -> string -> CreateTimeEntryRequest
                    -> HttpResult ClockifyTimeEntry
}.

(** The store of a run: the service state, the request objects passed by
    reference, and the events so far (latest first). *)
Record Store : Type := {
  service : ClockifyState;
  heap : gmap nat CreateTimeEntryRequest;
  events : list Event
}.

(** Asynchronous code over the store: a completed call returns or throws,
    and leaves a store either way. *)
Definition M (A : Type) : Type := Store -> Outcome A * Store.

Definition ret {A : Type} (a : A) : M A := fun s => (Return a, s).
Definition throw {A : Type} (message : string) : M A := fun s => (Throw message, s).
Definition bind {A B : Type} (m : M A) (k : A -> M B) : M B :=
  fun s => match m s with
           | (Return a, s') => k a s'
           | (Throw e, s') => (Throw e, s')
           end.
(** [try { m } catch (error) { h error }] *)
Definition try_catch {A : Type} (m : M A) (h : string -> M A) : M A :=
  fun s => match m s with
           | (Return a, s') => (Return a, s')
           | (Throw e, s') => h e s'
           end.

Declare Scope js_scope.
Delimit Scope js_scope with js.
Notation "x <- m ;; k" := (bind m (fun x => k))
  (at level 100, m at next level, right associativity) : js_scope.
Notation "m ;;; k" := (bind m (fun _ => k))
  (at level 100, right associativity) : js_scope.
Local Open Scope js_scope.

Definition get_state : M ClockifyState := fun s => (Return (service s), s).
Definition set_state (f : ClockifyState -> ClockifyState) : M unit :=
  fun s => (Return tt, {| service := f (service s); heap := heap s; events := events s |}).
(** The store after one more event. *)
Definition record (e : Event) (s : Store) : Store :=
  {| service := service s; heap := heap s; events := e :: events s |}.
Definition emit (e : Event) : M unit := fun s => (Return tt, record e s).
Definition history : M (list Event) := fun s => (Return (events s), s).
Definition sleep (ms : Z) : M unit := emit (Sleep ms).

(** An object literal: a new object in the store. *)
Definition new_object (entry : CreateTimeEntryRequest) : M nat :=
  fun s => let l := fresh (dom (heap s)) in
           (Return l, {| service := service s; heap := <[l := entry]> (heap s);
                         events := events s |}).
(** Reading an object through a reference; every reference the modelled code
    holds is live, the other case is there for totality. *)
Definition read_object (l : nat) : M CreateTimeEntryRequest :=
  fun s => match heap s !! l with
           | Some entry => (Return entry, s)
           | None => (Throw "TypeError: not an object", s)
           end.
Definition update_object (l : nat) (f : CreateTimeEntryRequest -> CreateTimeEntryRequest)
  : M unit :=
  fun s => (Return tt, {| service := service s; heap := alter f l (heap s);
                          events := events s |}).

Definition set_userId (v : string) (st : ClockifyState) : ClockifyState :=
  {| apiToken := apiToken st; workspaceId := workspaceId st;
     userId := Some v; leagueProjectId := leagueProjectId st |}.
Definition set_workspaceId (v : string) (st : ClockifyState) : ClockifyState :=
  {| apiToken := apiToken st; workspaceId := Some v;
     userId := userId st; leagueProjectId := leagueProjectId st |}.
Definition set_leagueProjectId (v : string) (st : ClockifyState) : ClockifyState :=
  {| apiToken := apiToken st; workspaceId := workspaceId st;
     userId := userId st; leagueProjectId := Some v |}.

(** [createClockifyService(apiToken)]: the initial state. *)
Definition createClockifyService (token : string) : ClockifyState :=
  {| apiToken := token; workspaceId := None; userId := None; leagueProjectId := None |}.

Section Service.
Context `{Runtime}.
Variable env : Environment.
Variable remote : Remote.

(** [await p] for a promise that settles as [p]; also [response.json()]. *)
Definition await {A : Type} (p : Outcome A) : M A :=
  match p with Return a => ret a | Throw e => throw e end.

(** [getOrCreateLeagueProject()] *)
Definition getOrCreateLeagueProject : M unit :=
  st <- get_state ;;
  match workspaceId st with
  | Some ws =>
      if negb (truthy ws) then throw "Workspace ID not set"
      else
        h <- history ;;
        emit (GetProjects ws) ;;;
        match get_projects remote h ws with
        | NetworkError e => throw e
        | Response ok statusText _ json =>
            if negb ok then throw ("Failed to get projects: " +:+ statusText)
            else
              projects <- await json ;;
              match List.find
                      (fun p => String.eqb (toLowerCase (project_name p))
                                           (toLowerCase (MEET_PROJECT_NAME env)))
                      projects with
              | Some meetProject => set_state (set_leagueProjectId (project_id meetProject))
              | None =>
                  sleep (CLOCKIFY_API_DELAY env) ;;;
                  h' <- history ;;
                  emit (PostProject ws (MEET_PROJECT_NAME env)) ;;;
                  match post_project remote h' ws (MEET_PROJECT_NAME env) with
                  | NetworkError e => throw e
                  | Response ok' statusText' errorText json' =>
                      if negb ok'
                      then throw ("Failed to create project: " +:+ statusText'
                                  +:+ " - " +:+ errorText)
                      else
                        newProject <- await json' ;;
                        set_state (set_leagueProjectId (project_id newProject))
                  end
              end
        end
  | None => throw "Workspace ID not set"
  end.

(** [initialize()] *)
Definition initialize : M unit :=
  h <- history ;;
  emit GetUser ;;;
  match get_user remote h with
  | NetworkError e => throw e
  | Response ok statusText _ json =>
      if negb ok then throw ("Failed to get Clockify user info: " +:+ statusText)
      else
        user <- await json ;;
        set_state (set_userId (user_id user)) ;;;
        sleep (CLOCKIFY_API_DELAY env) ;;;
        h' <- history ;;
        emit GetWorkspaces ;;;
        match get_workspaces remote h' with
        | NetworkError e => throw e
        | Response ok' statusText' _ json' =>
            if negb ok'
            then throw ("Failed to get Clockify workspaces: " +:+ statusText')
            else
              workspaces <- await json' ;;
              match workspaces with
              | [] => throw "No Clockify workspaces found"
              | w :: _ =>
                  set_state (set_workspaceId (workspace_id w)) ;;;
                  sleep (CLOCKIFY_API_DELAY env) ;;;
                  getOrCreateLeagueProject
              end
        end
  end.

(** [getTimeEntriesForDateRange(startDate, endDate)]: the guard of lines
    128-130, then the paged fetch, taken as one completed call. *)
Definition getTimeEntriesForDateRange (startDate endDate : string)
  : M (list ClockifyTimeEntry) :=
  st <- get_state ;;
  if negb (truthy_opt (workspaceId st)) || negb (truthy_opt (userId st))
  then throw "Clockify client not initialized"
  else
    h <- history ;;
    emit (GetTimeEntries (or_empty (workspaceId st)) (or_empty (userId st))
                         startDate endDate) ;;;
    await (time_entries remote h (or_empty (workspaceId st)) (or_empty (userId st))
                          startDate endDate).

(** [createTimeEntry(entry)]; [entry] is a reference to the caller's object. *)
Definition createTimeEntry (entry : nat) : M ClockifyTimeEntry :=
  arg <- read_object entry ;;
  emit (CallCreateTimeEntry arg) ;;;
  st <- get_state ;;
  if negb (truthy_opt (workspaceId st)) then throw "Clockify client not initialized"
  else
    (if truthy_opt (leagueProjectId st)
     then update_object entry (set_projectId (or_empty (leagueProjectId st)))
     else ret tt) ;;;
    body <- read_object entry ;;
    h <- history ;;
    let response := post_time_entry remote h (or_empty (workspaceId st)) body in
    emit (PostTimeEntry (or_empty (workspaceId st)) body (response_ok response)) ;;;
    match response with
    | NetworkError e => throw e
    | Response ok statusText errorText json =>
        if negb ok
        then throw ("Failed to create time entry: " +:+ statusText
                    +:+ " - " +:+ errorText)
        else await json
    end.

(** [isMatchSynced(matchId, existingEntries)] *)
Definition isMatchSynced (matchId : string) (existingEntries : list ClockifyTimeEntry)
  : bool :=
  existsb (fun entry => includes (entry_description entry)
                                 ("[Match:" +:+ matchId +:+ "]"))
          existingEntries.

End Service.

End Clockify.

Import Clockify.
Local Open Scope js_scope.

(** The two collaborators of a pass whose answers are not computed here:
    the clock, and the attendance source with the completed result of each
    of its calls. *)
Record World : Type := {
  now : Z;
  meet_initialize : Outcome unit;
  meet_getConferenceRecords : Z -> Z -> Outcome (list GoogleMeet.MeetingSession);
  clockify : Remote
}.

(** The counters of the loop of a pass. *)
Record Counters : Type := {
  syncedCount : nat;
  skippedCount : nat;
  failedCount : nat
}.

Definition zeroCounters : Counters :=
  {| syncedCount := 0; skippedCount := 0; failedCount := 0 |}.
Definition incr_synced (c : Counters) : Counters :=
  {| syncedCount := S (syncedCount c); skippedCount := skippedCount c;
     failedCount := failedCount c |}.
Definition incr_skipped (c : Counters) : Counters :=
  {| syncedCount := syncedCount c; skippedCount := S (skippedCount c);
     failedCount := failedCount c |}.
Definition incr_failed (c : Counters) : Counters :=
  {| syncedCount := syncedCount c; skippedCount := skippedCount c;
     failedCount := S (failedCount c) |}.

(** [x.toISOString().split('T')[0]] *)
Definition isoDate `{Runtime} (d : Z) : string := split_head "T"%char (toISOString d).

(** Lines 118-121 of the worker, 113-115 of the script. *)
Definition rateLimitCooldown (errorMessage : string) : M unit :=
  if includes errorMessage "429" || includes errorMessage "Too Many Requests"
  then sleep 200
  else ret tt.

(* ===================================================================== *)
(** ** src/workers/sync-worker.ts *)
(* ===================================================================== *)

Module SyncWorker.

Import GoogleMeet.

Record Stats : Type := {
  meetings_found : nat;
  synced : nat;
  skipped : nat;
  failed : nat;
  total_in_clockify : option nat       (* absent from the early return *)
}.

Record JobResult : Type := {
  status : string;
  message : string;
  stats : Stats;
  dry_run : option bool                (* absent from the early return *)
}.

Section Job.
Context `{Runtime}.
Variable env : Environment.
Variable world : World.

(** Line 78. *)
Definition meetingIdentifier (meeting : MeetingSession) : string :=
  "[Meet:" +:+ meetingId meeting +:+ "]".

(** Lines 79-81: [existingEntries.some(...)] for the tag of line 78. *)
Definition alreadySynced (existingEntries : list ClockifyTimeEntry)
    (meetingIdentifier : string) : bool :=
  existsb (fun entry => includes (entry_description entry) meetingIdentifier)
          existingEntries.

(** Lines 89-95. *)
Definition describe (meeting : MeetingSession) : string :=
  let duration := Common.formatDuration (duration meeting) in
  let meetingDisplay :=
    if truthy (meetingCode meeting)
    then "Meet: " +:+ meetingCode meeting
    else "Google Meet (" +:+ toLocaleTimeString (startTime meeting) +:+ ")" in
  "🎥 " +:+ meetingDisplay +:+ " | " +:+ String_of_Z (Common.hours duration) +:+ "h "
  +:+ String_of_Z (Common.minutes duration) +:+ "m " +:+ meetingIdentifier meeting.

(** Lines 102-107: the candidate handed to [createTimeEntry]. *)
Definition candidate (meeting : MeetingSession) : CreateTimeEntryRequest :=
  {| start := toISOString (startTime meeting);
     end_ := toISOString (endTime meeting);
     billable := false;
     description := describe meeting;
     projectId := None |}.

(** Lines 77-122: one iteration of the loop. *)
Definition syncMeeting (existingEntries : list ClockifyTimeEntry)
    (meeting : MeetingSession) (c : Counters) : M Counters :=
  if alreadySynced existingEntries (meetingIdentifier meeting) then ret (incr_skipped c)
  else
    try_catch
      (if DRY_RUN env then ret (incr_synced c)
       else
         entry <- new_object (candidate meeting) ;;
         createTimeEntry (clockify world) entry ;;;
         sleep (CLOCKIFY_API_DELAY env) ;;;
         ret (incr_synced c))
      (fun error =>
         let errorMessage := Common.getErrorMessage error in
         rateLimitCooldown errorMessage ;;;
         ret (incr_failed c)).

(** Lines 76-123: [for (const meeting of meetings)]. *)
Fixpoint syncMeetings (existingEntries : list ClockifyTimeEntry)
    (meetings : list MeetingSession) (c : Counters) : M Counters :=
  match meetings with
  | [] => ret c
  | meeting :: rest =>
      c' <- syncMeeting existingEntries meeting c ;;
      syncMeetings existingEntries rest c'
  end.

(** Lines 21-28: the two services are created and initialised; [env] is
    the result of [validateEnvironment]. *)
Definition initializeServices : M unit :=
  set_state (fun _ => createClockifyService (CLOCKIFY_API_TOKEN env)) ;;;
  emit MeetInitialize ;;;
  await (meet_initialize world) ;;;
  initialize env (clockify world).

(** Lines 31-33: the window of the pass. *)
Definition endDate : Z := now world.
Definition startDate : Z := minusDays (now world) (SYNC_DAYS env).

(** Line 40: [meetService.getConferenceRecords(startDate, endDate)]. *)
Definition fetchMeetings : M (list MeetingSession) :=
  emit (GetConferenceRecords startDate endDate) ;;;
  await (meet_getConferenceRecords world startDate endDate).

(** Lines 59-62: [clockifyService.getTimeEntriesForDateRange(...)]. *)
Definition fetchExistingEntries : M (list ClockifyTimeEntry) :=
  getTimeEntriesForDateRange (clockify world) (isoDate startDate) (isoDate endDate).

(** Lines 46-55: the result of a pass without meetings. *)
Definition noMeetingsResult : JobResult :=
  {| status := "success";
     message := "No meetings found";
     stats := {| meetings_found := 0; synced := 0; skipped := 0; failed := 0;
                 total_in_clockify := None |};
     dry_run := None |}.

(** Lines 64-149: the loop over the meetings and the result built from its
    counters. *)
Definition reconcile (existingEntries : list ClockifyTimeEntry)
    (meetings : list MeetingSession) : M JobResult :=
  let existingMeetEntries :=
    List.filter (fun entry => includes (entry_description entry) "[Meet:")
                existingEntries in
  c <- syncMeetings existingEntries meetings zeroCounters ;;
  ret {| status := "success";
         message := "Sync completed";
         stats := {| meetings_found := length meetings;
                     synced := syncedCount c;
                     skipped := skippedCount c;
                     failed := failedCount c;
                     total_in_clockify :=
                       Some (length existingMeetEntries + syncedCount c)%nat |};
         dry_run := Some (DRY_RUN env) |}.

(** [processSyncJob(job)]. *)
Definition processSyncJob : M JobResult :=
  initializeServices ;;;
  meetings <- fetchMeetings ;;
  if (length meetings =? 0)%nat then ret noMeetingsResult
  else
    existingEntries <- fetchExistingEntries ;;
    reconcile existingEntries meetings.

End Job.

End SyncWorker.

(* ===================================================================== *)
(** ** src/scripts/index.ts *)
(* ===================================================================== *)

Module SyncScript.

Import GoogleMeet.

Section Script.
Context `{Runtime}.
Variable env : Environment.
Variable world : World.

(** Line 79. *)
Definition meetingIdentifier (meeting : MeetingSession) : string :=
  "[Meet:" +:+ meetingId meeting +:+ ":" +:+ toISOString (startTime meeting) +:+ "]".

(** Lines 80-82. *)
Definition alreadySynced (existingEntries : list ClockifyTimeEntry)
    (meetingIdentifier : string) : bool :=
  existsb (fun entry => includes (entry_description entry) meetingIdentifier)
          existingEntries.

(** Lines 90-94. *)
Definition describe (meeting : MeetingSession) : string :=
  let duration := Common.formatDuration (duration meeting) in
  let meetingCodeDisplay :=
    if truthy (meetingCode meeting)
    then "Code: " +:+ meetingCode meeting
    else "Meeting" in
  "🎥 " +:+ meetingCodeDisplay +:+ " | " +:+ String_of_Z (Common.hours duration) +:+ "h "
  +:+ String_of_Z (Common.minutes duration) +:+ "m " +:+ meetingIdentifier meeting.

Definition candidate (meeting : MeetingSession) : CreateTimeEntryRequest :=
  {| start := toISOString (startTime meeting);
     end_ := toISOString (endTime meeting);
     billable := false;
     description := describe meeting;
     projectId := None |}.

(** Lines 74-116: one iteration of the loop. *)
Definition syncMeeting (existingEntries : list ClockifyTimeEntry)
    (meeting : MeetingSession) (c : Counters) : M Counters :=
  if alreadySynced existingEntries (meetingIdentifier meeting) then ret (incr_skipped c)
  else
    try_catch
      (entry <- new_object (candidate meeting) ;;
       createTimeEntry (clockify world) entry ;;;
       sleep (CLOCKIFY_API_DELAY env) ;;;
       ret (incr_synced c))
      (fun error =>
         let errorMessage := Common.getErrorMessage error in
         rateLimitCooldown errorMessage ;;;
         ret (incr_failed c)).

Fixpoint syncMeetings (existingEntries : list ClockifyTimeEntry)
    (meetings : list MeetingSession) (c : Counters) : M Counters :=
  match meetings with
  | [] => ret c
  | meeting :: rest =>
      c' <- syncMeeting existingEntries meeting c ;;
      syncMeetings existingEntries rest c'
  end.

(** [syncMeetToClockify(meetService, clockifyService)].  The function returns
    nothing; the model returns the counters it prints, or nothing when it
    leaves early.  The outer [catch] rethrows. *)
Definition syncMeetToClockify : M (option Counters) :=
  emit MeetInitialize ;;;
  await (meet_initialize world) ;;;
  initialize env (clockify world) ;;;
  let endDate := now world in
  let startDate := minusDays (now world) (SYNC_DAYS env) in
  emit (GetConferenceRecords startDate endDate) ;;;
  meetings <- await (meet_getConferenceRecords world startDate endDate) ;;
  if (length meetings =? 0)%nat then ret None
  else
    existingEntries <- getTimeEntriesForDateRange (clockify world)
                         (isoDate startDate) (isoDate endDate) ;;
    c <- syncMeetings existingEntries meetings zeroCounters ;;
    ret (Some c).

End Script.

End SyncScript.

(* ===================================================================== *)
(** ** A host for the examples *)
(* ===================================================================== *)

(** A concrete [Runtime]: UTC, timestamps of the form
    [YYYY-MM-DDTHH:MM:SSZ], a 24-hour locale, ASCII case folding. *)
Module Host.

Local Open Scope Z_scope.

Definition digit (a : ascii) : Z := Z.of_N (N_of_ascii a) - 48.

Fixpoint digits (acc : Z) (s : string) : Z :=
  match s with
  | EmptyString => acc
  | String a s' => digits (10 * acc + digit a) s'
  end.

Definition field (s : string) (from len : nat) : Z := digits 0 (String.substring from len s).

(** Days since 1970-01-01 of a civil date. *)
Definition days_from_civil (y m d : Z) : Z :=
  let y' := if m <=? 2 then y - 1 else y in
  let era := y' / 400 in
  let yoe := y' - era * 400 in
  let mp := if 2 <? m then m - 3 else m + 9 in
  let doy := (153 * mp + 2) / 5 + d - 1 in
  let doe := yoe * 365 + yoe / 4 - yoe / 100 + doy in
  era * 146097 + doe - 719468.

(** The civil date of a day number: [(year, month, day)]. *)
Definition civil_from_days (z : Z) : Z * Z * Z :=
  let z' := z + 719468 in
  let era := z' / 146097 in
  let doe := z' - era * 146097 in
  let yoe := (doe - doe / 1460 + doe / 36524 - doe / 146096) / 365 in
  let doy := doe - (365 * yoe + yoe / 4 - yoe / 100) in
  let mp := (5 * doy + 2) / 153 in
  let d := doy - (153 * mp + 2) / 5 + 1 in
  let m := if mp <? 10 then mp + 3 else mp - 9 in
  (yoe + era * 400 + (if m <=? 2 then 1 else 0), m, d).

Definition parse (s : string) : Z :=
  (days_from_civil (field s 0 4) (field s 5 2) (field s 8 2) * 86400
   + field s 11 2 * 3600 + field s 14 2 * 60 + field s 17 2) * 1000.

Definition pad (width : nat) (n : Z) : string :=
  let s := String_of_Z n in
  String.concat "" (repeat "0" (width - String.length s)) +:+ s.

Definition time_of_day (ms : Z) : string :=
  let secs := (ms / 1000) mod 86400 in
  pad 2 (secs / 3600) +:+ ":" +:+ pad 2 ((secs mod 3600) / 60) +:+ ":" +:+ pad 2 (secs mod 60).

Definition iso (ms : Z) : string :=
  let '(y, m, d) := civil_from_days (ms / 86400000) in
  pad 4 y +:+ "-" +:+ pad 2 m +:+ "-" +:+ pad 2 d +:+ "T" +:+ time_of_day ms
  +:+ "." +:+ pad 3 (ms mod 1000) +:+ "Z".

Definition lower_ascii (a : ascii) : ascii :=
  let n := N_of_ascii a in
  if ((65 <=? n) && (n <=? 90))%N then ascii_of_N (n + 32) else a.

Fixpoint lower (s : string) : string :=
  match s with
  | EmptyString => EmptyString
  | String a s' => String (lower_ascii a) (lower s')
  end.

#[export] Instance runtime : Runtime := {|
  Date_parse := parse;
  toISOString := iso;
  toLocaleTimeString := time_of_day;
  toLowerCase := lower;
  minusDays := fun d n => d - n * 86400000
|}.

End Host.

(* ===================================================================== *)
(** ** Concrete inputs for the examples *)
(* ===================================================================== *)

Module Fixture.

Import GoogleMeet.

Definition env_live : Environment :=
  {| GOOGLE_USER_EMAIL := "ann@example.com";
     SYNC_DAYS := 7;
     CLOCKIFY_API_TOKEN := "token";
     CLOCKIFY_API_BASE := "https://api.clockify.me/api";
     CLOCKIFY_API_DELAY := 50;
     MEET_PROJECT_NAME := "Google Meet";
     DRY_RUN := false |}.

Definition env_dry : Environment :=
  {| GOOGLE_USER_EMAIL := "ann@example.com";
     SYNC_DAYS := 7;
     CLOCKIFY_API_TOKEN := "token";
     CLOCKIFY_API_BASE := "https://api.clockify.me/api";
     CLOCKIFY_API_DELAY := 50;
     MEET_PROJECT_NAME := "Google Meet";
     DRY_RUN := true |}.

(** A meeting of 2025-10-18, 10:00 to 10:40 UTC. *)
Definition meeting (id code : string) : MeetingSession :=
  {| meetingId := id; meetingCode := code; meetingUri := "";
     startTime := 1760781600000; endTime := 1760784000000; duration := 2400 |}.

Definition meeting_a : MeetingSession := meeting "conferenceRecords/a" "abc-defg-hij".
Definition meeting_b : MeetingSession := meeting "conferenceRecords/b" "".
Definition meeting_c : MeetingSession := meeting "conferenceRecords/c" "xyz-uvwx-rst".

(** The same meeting as [meeting_a], aggregated from 09:55 on. *)
Definition meeting_a_earlier : MeetingSession :=
  {| meetingId := "conferenceRecords/a"; meetingCode := "abc-defg-hij"; meetingUri := "";
     startTime := 1760781300000; endTime := 1760784000000; duration := 2700 |}.

(** An entry of the tracker with the description [d]. *)
Definition entry_with (d : string) : ClockifyTimeEntry :=
  {| entry_id := "entry"; entry_description := d; entry_projectId := "project-1";
     entry_workspaceId := "workspace-1"; entry_userId := "user-1";
     entry_billable := false;
     timeInterval := {| interval_start := "2025-10-18T10:00:00Z";
                        interval_end := "2025-10-18T10:40:00Z";
                        interval_duration := "PT40M" |} |}.

Definition ok_json {A : Type} (a : A) : HttpResult A := Response true "OK" "" (Return a).

(** How many entries have been submitted so far. *)
Definition submissions (h : list Event) : nat :=
  length (List.filter (fun ev => match ev with PostTimeEntry _ _ _ => true | _ => false end) h).

(** A time tracker with one workspace and the Meet project, holding
    [entries], that answers the submissions for which [accept] holds (by
    the number of earlier submissions) and rejects the others. *)
Definition tracker (entries : list ClockifyTimeEntry) (accept : nat -> bool) : Remote :=
  {| get_user := fun _ =>
       ok_json {| user_id := "user-1"; user_email := "ann@example.com"; user_name := "Ann" |};
     get_workspaces := fun _ =>
       ok_json [ {| workspace_id := "workspace-1"; workspace_name := "Main" |} ];
     get_projects := fun _ _ =>
       ok_json [ {| project_id := "project-1"; project_name := "google meet" |} ];
     post_project := fun _ _ name =>
       ok_json {| project_id := "project-2"; project_name := name |};
     time_entries := fun _ _ _ _ _ => Return entries;
     post_time_entry := fun h _ body =>
       if accept (submissions h)
       then ok_json (entry_with (description body))
       else Response false "Internal Server Error" "try again" (Throw "no body") |}.

Definition world_of (meetings : Outcome (list MeetingSession)) (remote : Remote) : World :=
  {| now := 1760781600000 + 7200000;
     meet_initialize := Return tt;
     meet_getConferenceRecords := fun _ _ => meetings;
     clockify := remote |}.

(** The store before a pass, and the store of an initialised service. *)
Definition store0 : Store :=
  {| service := createClockifyService "token"; heap := ∅; events := [] |}.

Definition store_ready : Store :=
  {| service := {| apiToken := "token"; workspaceId := Some "workspace-1";
                   userId := Some "user-1"; leagueProjectId := Some "project-1" |};
     heap := ∅; events := [] |}.

Definition always (_ : nat) : bool := true.
Definition never (_ : nat) : bool := false.
Definition all_but_second (n : nat) : bool := negb (n =? 1)%nat.

(** Two sessions of one meeting, 10:00-10:20 and 10:25-10:40, and a session
    that has not ended. *)
Definition session (n st : string) (en : option string) : ParticipantSession :=
  {| session_name := n; session_startTime := st; session_endTime := en |}.

Definition two_sessions : list ParticipantSession :=
  [ session "s1" "2025-10-18T10:00:00Z" (Some "2025-10-18T10:20:00Z");
    session "s2" "2025-10-18T10:25:00Z" (Some "2025-10-18T10:40:00Z") ].

Definition api_session (n st : string) (en : option string) : ApiParticipantSession :=
  {| api_session_name := Some n; api_session_startTime := Some st;
     api_session_endTime := en |}.

Definition conference (n : string) : ApiConferenceRecord :=
  {| record_name := Some n; record_startTime := Some "2025-10-18T10:00:00Z";
     record_space := Some {| space_meetingCode := Some "abc-defg-hij";
                             space_meetingUri := None |} |}.

(** An attendance source with one page of two conference records: in
    [conferenceRecords/open] the user has one session, still open; in
    [conferenceRecords/a] the two sessions above. *)
Definition meet_api : Api :=
  {| initializeAuth := Return tt;
     conferenceRecords_list := fun _ =>
       Return {| conferenceRecords :=
                   Some [conference "conferenceRecords/open";
                         conference "conferenceRecords/a"];
                 nextPageToken := None |};
     participants_list := fun c =>
       Return (Some [ {| participant_name := Some (c +:+ "/participants/1");
                         signedinUser := Some {| user := Some "users/123";
                                                 displayName := Some "Ann Example" |} |} ]);
     participantSessions_list := fun p =>
       if String.eqb p "conferenceRecords/open/participants/1"
       then Return (Some [api_session "s0" "2025-10-18T11:00:00Z" None])
       else Return (Some [api_session "s1" "2025-10-18T10:00:00Z"
                            (Some "2025-10-18T10:20:00Z");
                          api_session "s2" "2025-10-18T10:25:00Z"
                            (Some "2025-10-18T10:40:00Z")]) |}.

(** A request whose caller chose a project of its own. *)
Definition request_with_project : CreateTimeEntryRequest :=
  {| start := "2025-10-18T10:00:00.000Z"; end_ := "2025-10-18T10:40:00.000Z";
     billable := false; description := "by hand"; projectId := Some "project-9" |}.

End Fixture.

(* ===================================================================== *)
(** ** Vocabulary of the statements *)
(* ===================================================================== *)

Local Open Scope list_scope.

(** [x] is the least element of [l]. *)
Definition is_min (x : Z) (l : list Z) : Prop := In x l /\ forall y, In y l -> x <= y.
(** [x] is the greatest element of [l]. *)
Definition is_max (x : Z) (l : list Z) : Prop := In x l /\ forall y, In y l -> y <= x.

(** How often a trace enters [createTimeEntry]. *)
Definition creations (t : list Event) : nat :=
  length (List.filter (fun ev => match ev with CallCreateTimeEntry _ => true | _ => false end) t).

(** Whether a trace touches the time tracker's entries at all. *)
Definition touches_entries (ev : Event) : bool :=
  match ev with
  | GetTimeEntries _ _ _ _ | CallCreateTimeEntry _ | PostTimeEntry _ _ _ => true
  | _ => false
  end.

(** The sum of the three counters. *)
Definition counted (c : Counters) : nat :=
  (syncedCount c + skippedCount c + failedCount c)%nat.

(** The meetings of a list without sync evidence in [existingEntries]. *)
Definition pending `{Runtime} (existingEntries : list ClockifyTimeEntry)
    (meetings : list GoogleMeet.MeetingSession) : list GoogleMeet.MeetingSession :=
  List.filter (fun m => negb (SyncWorker.alreadySynced existingEntries
                                (SyncWorker.meetingIdentifier m))) meetings.

(** The body [createTimeEntry] submits for the argument [arg]: lines 172-174. *)
Definition submitted (st : ClockifyState) (arg : CreateTimeEntryRequest)
  : CreateTimeEntryRequest :=
  if truthy_opt (leagueProjectId st)
  then set_projectId (or_empty (leagueProjectId st)) arg
  else arg.

(** Every entry a trace submits carries the project [pid]. *)
Definition attached_to (pid : string) (t : list Event) : Prop :=
  forall ws body ok, In (PostTimeEntry ws body ok) t -> projectId body = Some pid.

(** Entering [createTimeEntry] or submitting an entry. *)
Definition is_creation (ev : Event) : bool :=
  match ev with
  | CallCreateTimeEntry _ | PostTimeEntry _ _ _ => true
  | _ => false
  end.

(** A trace without any event for which [p] holds. *)
Definition free_of (p : Event -> bool) (t : list Event) : Prop :=
  forall ev, In ev t -> p ev = false.

(** A computation that only adds events for which [p] fails. *)
Definition quiet {A : Type} (p : Event -> bool) (m : M A) : Prop :=
  forall s, exists t, events (snd (m s)) = t ++ events s /\ free_of p t.

(** The creation attempt of one iteration: lines 102-107, the candidate is
    built and handed to [createTimeEntry]. *)
Definition attempt `{Runtime} (world : World) (m : GoogleMeet.MeetingSession)
  : M ClockifyTimeEntry :=
  bind (new_object (SyncWorker.candidate m)) (createTimeEntry (clockify world)).


(* ===================================================================== *)
(** ** Further vocabulary *)
(* ===================================================================== *)

(** The entries a trace submits, the first submission first. *)
Definition posted (t : list Event) : list CreateTimeEntryRequest :=
  flat_map (fun ev => match ev with PostTimeEntry _ body _ => [body] | _ => [] end)
           (rev t).

(** The time a trace spends in [sleep], in milliseconds. *)
Definition paused (t : list Event) : Z :=
  fold_right (fun ev acc => match ev with Sleep ms => ms + acc | _ => acc end) 0 t.

(** The meeting fetch or anything on time entries. *)
Definition is_fetch (ev : Event) : bool :=
  match ev with
  | GetConferenceRecords _ _ => true
  | _ => touches_entries ev
  end.

(** The sessions [getUserParticipantSessions] keeps of one participant, when
    the provider answers: lines 229-263. *)
Definition own_sessions `{Runtime} (GOOGLE_USER_EMAIL : string) (api : GoogleMeet.Api)
    (participant : GoogleMeet.ApiParticipant) : list GoogleMeet.ParticipantSession :=
  match GoogleMeet.participant_name participant with
  | Some pname =>
      if truthy pname && GoogleMeet.isCurrentUser GOOGLE_USER_EMAIL participant
      then match GoogleMeet.participantSessions_list api pname with
           | Return (Some sessions) => GoogleMeet.collectSessions sessions
           | _ => []
           end
      else []
  | None => []
  end.

(** The participants whose sessions are requested. *)
Definition is_own `{Runtime} (GOOGLE_USER_EMAIL : string)
    (participant : GoogleMeet.ApiParticipant) : bool :=
  match GoogleMeet.participant_name participant with
  | Some pname => truthy pname && GoogleMeet.isCurrentUser GOOGLE_USER_EMAIL participant
  | None => false
  end.

(** The meetings of a list without sync evidence for the script's tag. *)
Definition script_pending `{Runtime} (existingEntries : list ClockifyTimeEntry)
    (meetings : list GoogleMeet.MeetingSession) : list GoogleMeet.MeetingSession :=
  List.filter (fun m => negb (SyncScript.alreadySynced existingEntries
                                (SyncScript.meetingIdentifier m))) meetings.

(** The string [s] has no character [c]. *)
Fixpoint lacks (c : ascii) (s : string) : bool :=
  match s with
  | EmptyString => true
  | String a s' => negb (Ascii.eqb a c) && lacks c s'
  end.

(** A conference record whose sessions are requested: lines 152-155. *)
Definition is_eligible (record : GoogleMeet.ApiConferenceRecord) : bool :=
  match GoogleMeet.record_name record with
  | Some name => truthy name && truthy_opt (GoogleMeet.record_startTime record)
  | None => false
  end.

(** The meeting a conference record contributes, when the provider answers:
    lines 152-187. *)
Definition record_meetings `{Runtime} (GOOGLE_USER_EMAIL : string) (api : GoogleMeet.Api)
    (record : GoogleMeet.ApiConferenceRecord) : list GoogleMeet.MeetingSession :=
  match GoogleMeet.record_name record with
  | Some name =>
      if is_eligible record
      then match GoogleMeet.getUserParticipantSessions GOOGLE_USER_EMAIL api true name with
           | Return sessions =>
               match GoogleMeet.aggregate name (GoogleMeet.record_space record) sessions with
               | Some m => [m]
               | None => []
               end
           | Throw _ => []
           end
      else []
  | None => []
  end.

(** The sessions of an eligible record are fetched without an error. *)
Definition sessions_fetched `{Runtime} (GOOGLE_USER_EMAIL : string) (api : GoogleMeet.Api)
    (record : GoogleMeet.ApiConferenceRecord) : Prop :=
  forall name,
    GoogleMeet.record_name record = Some name -> is_eligible record = true ->
    exists sessions,
      GoogleMeet.getUserParticipantSessions GOOGLE_USER_EMAIL api true name
      = Return sessions.

(** The pages the provider serves from [pageToken] on, when the chain of
    page tokens ends within [n] pages and every listing succeeds. *)
Fixpoint pages_from (api : GoogleMeet.Api) (n : nat) (pageToken : option string)
  : option (list (list GoogleMeet.ApiConferenceRecord)) :=
  match n with
  | O => None
  | S n' =>
      match GoogleMeet.conferenceRecords_list api pageToken with
      | Throw _ => None
      | Return response =>
          let records := match GoogleMeet.conferenceRecords response with
                         | Some records => records
                         | None => []
                         end in
          if truthy_opt (or_null (GoogleMeet.nextPageToken response))
          then match pages_from api n' (or_null (GoogleMeet.nextPageToken response)) with
               | Some pages => Some (records :: pages)
               | None => None
               end
          else Some [records]
      end
  end.

(** The second store has the request objects, the user, the workspace and
    the token of the first. *)
Definition same_client (s s' : Store) : Prop :=
  heap s' = heap s
  /\ userId (service s') = userId (service s)
  /\ workspaceId (service s') = workspaceId (service s)
  /\ apiToken (service s') = apiToken (service s).

(** A computation that keeps them. *)
Definition keeps_client {A : Type} (m : M A) : Prop :=
  forall s, same_client s (snd (m s)).

(** The filter of the specification, in its words: the sessions of a meeting
    "with both a start and a non-null end instant", each as the pair of its
    two instants, in the order of the sessions.  An empty string is no
    instant. *)
Definition start_instant `{Runtime} (session : GoogleMeet.ParticipantSession) : option Z :=
  match GoogleMeet.session_startTime session with
  | EmptyString => None
  | String _ _ as startTime => Some (Date_parse startTime)
  end.

Definition end_instant `{Runtime} (session : GoogleMeet.ParticipantSession) : option Z :=
  match GoogleMeet.session_endTime session with
  | Some (String _ _ as endTime) => Some (Date_parse endTime)
  | Some EmptyString | None => None
  end.

Definition filtered_sessions `{Runtime} (sessions : list GoogleMeet.ParticipantSession)
  : list (Z * Z) :=
  flat_map (fun session =>
              match start_instant session, end_instant session with
              | Some a, Some b => [(a, b)]
              | _, _ => []
              end) sessions.

(** [steps] in order, with [gap] between every two of them and nowhere
    else. *)
Fixpoint separated {A : Type} (gap : A) (steps : list A) : list A :=
  match steps with
  | [] => []
  | step :: rest =>
      match rest with
      | [] => [step]
      | _ :: _ => step :: gap :: separated gap rest
      end
  end.

(* ===================================================================== *)
(** ** src/services/clockify-service.ts: the paged read of the time entries *)
(* ===================================================================== *)

Module ClockifyPaging.

(** [pageSize], line 134. *)
Definition pageSize : nat := 1000.

(** The answers of the time tracker to the page requests of lines 137-147:
    by the events so far, the workspace, the user, the [start] and [end]
    parameters and the page number. *)
Definition PageAnswers : Type :=
  list Event -> string -> string -> string -> string -> Z
  -> HttpResult (list ClockifyTimeEntry).

Section Paging.
Variable answers : PageAnswers.
Variable workspace user startDate endDate : string.

(** Lines 136-162: [while (true)].  The tracker may keep answering with full
    pages, so the loop is bounded by [fuel]; [None] stands for a loop that
    has not finished within it. *)
Fixpoint fetchPages (fuel : nat) (page : Z) (allEntries : list ClockifyTimeEntry)
    (s : Store) : option (Outcome (list ClockifyTimeEntry) * Store) :=
  match fuel with
  | O => None
  | S fuel' =>
      let s1 := record (GetTimeEntries workspace user startDate endDate) s in
      match answers (events s) workspace user
                    (startDate +:+ "T00:00:00Z") (endDate +:+ "T23:59:59Z") page with
      | NetworkError e => Some (Throw e, s1)
      | Response ok statusText _ json =>
          if negb ok
          then Some (Throw ("Failed to get time entries: " +:+ statusText), s1)
          else
            match json with
            | Throw e => Some (Throw e, s1)
            | Return entries =>
                if (length entries <? pageSize)%nat
                then Some (Return (allEntries ++ entries), s1)
                else fetchPages fuel' (page + 1) (allEntries ++ entries)
                                (record (Sleep 20) s1)
            end
      end
  end.

End Paging.

(** [getTimeEntriesForDateRange(startDate, endDate)], lines 124-165. *)
Definition getTimeEntriesForDateRange (answers : PageAnswers) (fuel : nat)
    (startDate endDate : string) (s : Store)
  : option (Outcome (list ClockifyTimeEntry) * Store) :=
  if negb (truthy_opt (workspaceId (service s))) || negb (truthy_opt (userId (service s)))
  then Some (Throw "Clockify client not initialized", s)
  else fetchPages answers (or_empty (workspaceId (service s)))
                  (or_empty (userId (service s))) startDate endDate fuel 1 [] s.

End ClockifyPaging.

(** The tracker answers the first page requests with the pages [chunks], one
    after the other, whatever happened before. *)
Definition serves (answers : ClockifyPaging.PageAnswers)
    (workspace user startDate endDate : string)
    (chunks : list (list ClockifyTimeEntry)) : Prop :=
  forall (i : nat) (chunk : list ClockifyTimeEntry) (h : list Event),
    nth_error chunks i = Some chunk ->
    exists statusText text,
      answers h workspace user (startDate +:+ "T00:00:00Z") (endDate +:+ "T23:59:59Z")
              (Z.of_nat i + 1)
      = Response true statusText text (Return chunk).

(** The requests of a trace for time entries. *)
Definition entry_requests (t : list Event) : nat :=
  length (List.filter (fun ev => match ev with GetTimeEntries _ _ _ _ => true | _ => false end) t).

(* ===================================================================== *)
(** ** The investigation script (src/unnamed/part_004): grouping the entries by their tag *)
(* ===================================================================== *)

Module Investigate.

(** The characters of [s] before the first [']'], when [s] has one: the run
    [[^\]]+] takes, followed by the closing bracket of the pattern. *)
Fixpoint until_bracket (s : string) : option string :=
  match s with
  | EmptyString => None
  | String a s' =>
      if Ascii.eqb a "]"%char then Some EmptyString
      else match until_bracket s' with
           | Some id => Some (String a id)
           | None => None
           end
  end.

(** [s] without the prefix [p], when it starts with it. *)
Fixpoint after_prefix (p s : string) {struct p} : option string :=
  match p, s with
  | EmptyString, _ => Some s
  | String b p', String a s' => if Ascii.eqb a b then after_prefix p' s' else None
  | String _ _, EmptyString => None
  end.

(** A match of [/\[Meet:([^\]]+)\]/] that starts at the first character of
    [s]: its group 1.  The class takes every character up to the first
    closing bracket, and at least one. *)
Definition match_here (s : string) : option string :=
  match after_prefix "[Meet:" s with
  | Some rest =>
      match until_bracket rest with
      | Some id => if truthy id then Some id else None
      | None => None
      end
  | None => None
  end.

(** [description.match(/\[Meet:([^\]]+)\]/)], line 37: group 1 of the
    leftmost match, [None] for [null]. *)
Fixpoint match_meet (s : string) : option string :=
  match match_here s with
  | Some id => Some id
  | None =>
      match s with
      | EmptyString => None
      | String _ s' => match_meet s'
      end
  end.

(** A [Map<string, entries>] in its insertion order. *)
Definition Groups : Type := list (string * list ClockifyTimeEntry).

(** Lines 40-43: the entry is appended to the group of [meetingId], which is
    added at the end when it is new. *)
Fixpoint push (meetingId : string) (entry : ClockifyTimeEntry) (groups : Groups) : Groups :=
  match groups with
  | [] => [(meetingId, [entry])]
  | (key, entries) :: rest =>
      if String.eqb key meetingId then (key, entries ++ [entry]) :: rest
      else (key, entries) :: push meetingId entry rest
  end.

(** Lines 36-45: one step of the loop over the tagged entries. *)
Definition groupEntry (groups : Groups) (entry : ClockifyTimeEntry) : Groups :=
  match match_meet (entry_description entry) with
  | Some meetingId => push meetingId entry groups
  | None => groups
  end.

(** Line 25. *)
Definition meetEntries (entries : list ClockifyTimeEntry) : list ClockifyTimeEntry :=
  List.filter (fun entry => includes (entry_description entry) "[Meet:") entries.

(** Lines 34-45: [groupedByMeeting] after the loop. *)
Definition groupedByMeeting (entries : list ClockifyTimeEntry) : Groups :=
  fold_left groupEntry (meetEntries entries) [].

(** Lines 47-48: the two numbers the script prints. *)
Definition uniqueMeetings (entries : list ClockifyTimeEntry) : Z :=
  Z.of_nat (length (groupedByMeeting entries)).
Definition duplicateEntries (entries : list ClockifyTimeEntry) : Z :=
  Z.of_nat (length (meetEntries entries)) - Z.of_nat (length (groupedByMeeting entries)).

End Investigate.

(** The entries of a list whose description has no parsable tag. *)
Definition unparsed (entries : list ClockifyTimeEntry) : list ClockifyTimeEntry :=
  List.filter (fun entry => match Investigate.match_meet (entry_description entry) with
                            | Some _ => false
                            | None => true
                            end) entries.

(** The number of entries in all groups. *)
Definition grouped (groups : Investigate.Groups) : nat :=
  fold_right (fun g n => (length (snd g) + n)%nat) 0%nat groups.

(** What the loop keeps true of the groups: the keys are distinct, no group
    is empty, and the tag of every entry of a group reads as its key. *)
Definition well_grouped (from : list ClockifyTimeEntry) (groups : Investigate.Groups) : Prop :=
  List.NoDup (map fst groups)
  /\ forall key entries,
       In (key, entries) groups ->
       entries <> []
       /\ forall entry, In entry entries ->
            In entry from /\ Investigate.match_meet (entry_description entry) = Some key.


(* ===================================================================== *)
(** ** The cleanup script (src/unnamed/part_003) *)
(* ===================================================================== *)

Module Cleanup.

(** What the script does beyond the calls of the Clockify service: the
    [DELETE] requests of [deleteTimeEntry] and the pauses between them, the
    latest first. *)
Inductive Step : Type :=
| Delete (workspaceId entryId apiToken : string)
| Pause (ms : Z).

(** The answers of the time tracker to the [DELETE] requests: by the steps so
    far, the workspace, the entry and the token. *)
Definition Deleter : Type := list Step -> string -> string -> string -> HttpResult unit.

(** How a run of the script ends when it does not throw. *)
Inductive Ending : Type :=
| NothingToDelete
| Aborted
| Cleaned (deletedCount failedCount : nat).

Section Script.
Context `{Runtime}.
Variable env : Environment.
Variable world : World.
Variable deleter : Deleter.
(** The trimmed answers to the two prompts. *)
Variable confirmation1 confirmation2 : string.

(** [deleteTimeEntry(workspaceId, entryId, apiToken)], lines 27-48:
    [response.ok], and [false] when [fetch] throws. *)
Definition deleteTimeEntry (workspaceId entryId apiToken : string) (log : list Step)
  : bool * list Step :=
  (match deleter log workspaceId entryId apiToken with
   | NetworkError _ => false
   | Response ok _ _ _ => ok
   end,
   Delete workspaceId entryId apiToken :: log).

(** Lines 126-145: the loop over [meetEntries]; the pause follows every
    entry but the last. *)
Fixpoint deleteAll (meetEntries : list ClockifyTimeEntry) (deletedCount failedCount : nat)
    (log : list Step) : nat * nat * list Step :=
  match meetEntries with
  | [] => (deletedCount, failedCount, log)
  | entry :: rest =>
      let (success, log1) :=
        deleteTimeEntry (entry_workspaceId entry) (entry_id entry)
                        (CLOCKIFY_API_TOKEN env) log in
      let log2 := match rest with
                  | [] => log1
                  | _ :: _ => Pause (CLOCKIFY_API_DELAY env) :: log1
                  end in
      if success then deleteAll rest (S deletedCount) failedCount log2
      else deleteAll rest deletedCount (S failedCount) log2
  end.

(** Lines 57-71: the service is created and initialised and the entries of
    the window are read. *)
Definition scan : M (list ClockifyTimeEntry) :=
  set_state (fun _ => createClockifyService (CLOCKIFY_API_TOKEN env)) ;;;
  initialize env (clockify world) ;;;
  getTimeEntriesForDateRange (clockify world)
    (isoDate (minusDays (now world) (SYNC_DAYS env))) (isoDate (now world)).

(** Line 73. *)
Definition meetEntries (allEntries : list ClockifyTimeEntry) : list ClockifyTimeEntry :=
  List.filter (fun entry => includes (entry_description entry) "[Meet:") allEntries.

(** Lines 79-149: the two confirmations and the deletions. *)
Definition purge (allEntries : list ClockifyTimeEntry) : Ending * list Step :=
  if (length (meetEntries allEntries) =? 0)%nat then (NothingToDelete, [])
  else if negb (String.eqb confirmation1
                  (String_of_Z (Z.of_nat (length (meetEntries allEntries)))))
  then (Aborted, [])
  else if negb (String.eqb confirmation2 "DELETE GOOGLE MEET ENTRIES")
  then (Aborted, [])
  else
    match deleteAll (meetEntries allEntries) 0 0 [] with
    | (deletedCount, failedCount, log) => (Cleaned deletedCount failedCount, log)
    end.

(** Lines 154-157: the entries are read again. *)
Definition verify : M (list ClockifyTimeEntry) :=
  getTimeEntriesForDateRange (clockify world)
    (isoDate (minusDays (now world) (SYNC_DAYS env))) (isoDate (now world)).

(** [cleanupGoogleMeetEntries()], lines 50-172: the way it ends or the error
    it throws, the store, and its deletions and pauses. *)
Definition cleanupGoogleMeetEntries (s : Store)
  : Outcome Ending * Store * list Step :=
  match scan s with
  | (Throw e, s1) => (Throw e, s1, [])
  | (Return allEntries, s1) =>
      match purge allEntries with
      | (Cleaned deletedCount failedCount, log) =>
          match verify s1 with
          | (Throw e, s2) => (Throw e, s2, log)
          | (Return _, s2) => (Return (Cleaned deletedCount failedCount), s2, log)
          end
      | (ending, log) => (Return ending, s1, log)
      end
  end.

End Script.

End Cleanup.

(** The [DELETE] requests of a log, the first request first. *)
Definition deletions (log : list Cleanup.Step) : list (string * string * string) :=
  flat_map (fun step => match step with
                        | Cleanup.Delete w e t => [(w, e, t)]
                        | Cleanup.Pause _ => []
                        end) (rev log).

(** The pauses of a log. *)
Definition pauses (log : list Cleanup.Step) : list Z :=
  flat_map (fun step => match step with
                        | Cleanup.Pause ms => [ms]
                        | Cleanup.Delete _ _ _ => []
                        end) log.

(** The request that deletes [entry] with the token of [env]. *)
Definition deletion_of (env : Environment) (entry : ClockifyTimeEntry)
  : string * string * string :=
  (entry_workspaceId entry, entry_id entry, CLOCKIFY_API_TOKEN env).

(** The step that requests the deletion of [entry] with the token of [env]. *)
Definition delete_step (env : Environment) (entry : ClockifyTimeEntry) : Cleanup.Step :=
  Cleanup.Delete (entry_workspaceId entry) (entry_id entry) (CLOCKIFY_API_TOKEN env).

(* ===================================================================== *)
(** ** The [/sync] endpoint that runs the pass (src/unnamed/part_001) *)
(* ===================================================================== *)

Module Endpoint.

Import GoogleMeet.

(** The body of a reply: the result of a pass, or the object of line 141. *)
Inductive Body : Type :=
| Result (result : SyncWorker.JobResult)
| Failure (status message : string).

(** [c.json(body, code)]; the code is 200 when none is given. *)
Record Reply : Type := { code : Z; body : Body }.

Section Handler.
Context `{Runtime}.
Variable env : Environment.
Variable world : World.

(** Line 85. *)
Definition meetingIdentifier (meeting : MeetingSession) : string :=
  "[Meet:" +:+ meetingId meeting +:+ "]".

(** Lines 86-88. *)
Definition alreadySynced (existingEntries : list ClockifyTimeEntry)
    (meetingIdentifier : string) : bool :=
  existsb (fun entry => includes (entry_description entry) meetingIdentifier)
          existingEntries.

(** Lines 96-102. *)
Definition describe (meeting : MeetingSession) : string :=
  let duration := Common.formatDuration (duration meeting) in
  let meetingDisplay :=
    if truthy (meetingCode meeting)
    then "Meet: " +:+ meetingCode meeting
    else "Google Meet (" +:+ toLocaleTimeString (startTime meeting) +:+ ")" in
  "🎥 " +:+ meetingDisplay +:+ " | " +:+ String_of_Z (Common.hours duration) +:+ "h "
  +:+ String_of_Z (Common.minutes duration) +:+ "m " +:+ meetingIdentifier meeting.

(** Lines 84-127: one iteration of the loop. *)
Definition syncMeeting (existingEntries : list ClockifyTimeEntry)
    (meeting : MeetingSession) (c : Counters) : M Counters :=
  if alreadySynced existingEntries (meetingIdentifier meeting) then ret (incr_skipped c)
  else
    try_catch
      (if DRY_RUN env then ret (incr_synced c)
       else
         entry <- new_object {| start := toISOString (startTime meeting);
                                end_ := toISOString (endTime meeting);
                                billable := false;
                                description := describe meeting;
                                projectId := None |} ;;
         createTimeEntry (clockify world) entry ;;;
         sleep (CLOCKIFY_API_DELAY env) ;;;
         ret (incr_synced c))
      (fun error =>
         let errorMessage := Common.getErrorMessage error in
         (if includes errorMessage "429" || includes errorMessage "Too Many Requests"
          then sleep 200
          else ret tt) ;;;
         ret (incr_failed c)).

(** Lines 83-128: [for (const meeting of meetings)]. *)
Fixpoint syncMeetings (existingEntries : list ClockifyTimeEntry)
    (meetings : list MeetingSession) (c : Counters) : M Counters :=
  match meetings with
  | [] => ret c
  | meeting :: rest =>
      c' <- syncMeeting existingEntries meeting c ;;
      syncMeetings existingEntries rest c'
  end.

(** [app.post('/sync', ...)], lines 25-157; [env] is the result of
    [validateEnvironment]. *)
Definition sync : M Reply :=
  try_catch
    (set_state (fun _ => createClockifyService (CLOCKIFY_API_TOKEN env)) ;;;
     emit MeetInitialize ;;;
     await (meet_initialize world) ;;;
     initialize env (clockify world) ;;;
     let endDate := now world in
     let startDate := minusDays (now world) (SYNC_DAYS env) in
     emit (GetConferenceRecords startDate endDate) ;;;
     meetings <- await (meet_getConferenceRecords world startDate endDate) ;;
     if (length meetings =? 0)%nat
     then ret {| code := 200;
                 body := Result
                   {| SyncWorker.status := "success";
                      SyncWorker.message := "No meetings found";
                      SyncWorker.stats :=
                        {| SyncWorker.meetings_found := 0;
                           SyncWorker.synced := 0;
                           SyncWorker.skipped := 0;
                           SyncWorker.failed := 0;
                           SyncWorker.total_in_clockify := None |};
                      SyncWorker.dry_run := None |} |}
     else
       existingEntries <- getTimeEntriesForDateRange (clockify world)
                            (isoDate startDate) (isoDate endDate) ;;
       let existingMeetEntries :=
         List.filter (fun entry => includes (entry_description entry) "[Meet:")
                     existingEntries in
       c <- syncMeetings existingEntries meetings zeroCounters ;;
       ret {| code := 200;
              body := Result
                {| SyncWorker.status := "success";
                   SyncWorker.message := "Sync completed";
                   SyncWorker.stats :=
                     {| SyncWorker.meetings_found := length meetings;
                        SyncWorker.synced := syncedCount c;
                        SyncWorker.skipped := skippedCount c;
                        SyncWorker.failed := failedCount c;
                        SyncWorker.total_in_clockify :=
                          Some (length existingMeetEntries + syncedCount c)%nat |};
                   SyncWorker.dry_run := Some (DRY_RUN env) |} |})
    (fun error =>
       let errorMessage := Common.getErrorMessage error in
       ret {| code := 500; body := Failure "error" errorMessage |}).

End Handler.

End Endpoint.

(* ===================================================================== *)
(** ** The command-line entry point (src/unnamed/part_002, from line 78) *)
(* ===================================================================== *)

Module Cli.

Import GoogleMeet.

Section Main.
Context `{Runtime}.
Variable env : Environment.

(** Lines 213 and 224-230 of the part. *)
Definition meetingIdentifier (meeting : MeetingSession) : string :=
  "[Meet:" +:+ meetingId meeting +:+ "]".

Definition describe (meeting : MeetingSession) : string :=
  let duration := Common.formatDuration (duration meeting) in
  let meetingDisplay :=
    if truthy (meetingCode meeting)
    then "Meet: " +:+ meetingCode meeting
    else "Google Meet (" +:+ toLocaleTimeString (startTime meeting) +:+ ")" in
  "🎥 " +:+ meetingDisplay +:+ " | " +:+ String_of_Z (Common.hours duration) +:+ "h "
  +:+ String_of_Z (Common.minutes duration) +:+ "m " +:+ meetingIdentifier meeting.

(** Lines 206-259 of the part: the loop, one iteration first. *)
Definition syncMeeting (world : World) (existingEntries : list ClockifyTimeEntry)
    (meeting : MeetingSession) (c : Counters) : M Counters :=
  if existsb (fun entry => includes (entry_description entry) (meetingIdentifier meeting))
             existingEntries
  then ret (incr_skipped c)
  else
    try_catch
      (if DRY_RUN env then ret (incr_synced c)
       else
         entry <- new_object {| start := toISOString (startTime meeting);
                                end_ := toISOString (endTime meeting);
                                billable := false;
                                description := describe meeting;
                                projectId := None |} ;;
         createTimeEntry (clockify world) entry ;;;
         sleep (CLOCKIFY_API_DELAY env) ;;;
         ret (incr_synced c))
      (fun error =>
         let errorMessage := Common.getErrorMessage error in
         (if includes errorMessage "429" || includes errorMessage "Too Many Requests"
          then sleep 200
          else ret tt) ;;;
         ret (incr_failed c)).

Fixpoint syncMeetings (world : World) (existingEntries : list ClockifyTimeEntry)
    (meetings : list MeetingSession) (c : Counters) : M Counters :=
  match meetings with
  | [] => ret c
  | meeting :: rest =>
      c' <- syncMeeting world existingEntries meeting c ;;
      syncMeetings world existingEntries rest c'
  end.

(** [syncMeetToClockify(meetService, clockifyService)], lines 141-293 of the
    part.  The function returns nothing; the model returns the counters it
    prints, or nothing when it leaves early.  The outer [catch] prints and
    rethrows. *)
Definition syncMeetToClockify (world : World) : M (option Counters) :=
  try_catch
    (emit MeetInitialize ;;;
     await (meet_initialize world) ;;;
     initialize env (clockify world) ;;;
     let endDate := now world in
     let startDate := minusDays (now world) (SYNC_DAYS env) in
     emit (GetConferenceRecords startDate endDate) ;;;
     meetings <- await (meet_getConferenceRecords world startDate endDate) ;;
     if (length meetings =? 0)%nat then ret None
     else
       existingEntries <- getTimeEntriesForDateRange (clockify world)
                            (isoDate startDate) (isoDate endDate) ;;
       c <- syncMeetings world existingEntries meetings zeroCounters ;;
       ret (Some c))
    (fun error => throw error).

(** [main()], lines 298-328 of the part.  [world] answers the first run of
    the pass; [handleAuthentication] settles as [authentication], and [retry]
    answers the run after it. *)
Definition main (world : World) (authentication : Outcome unit) (retry : World)
  : M (option Counters) :=
  set_state (fun _ => createClockifyService (CLOCKIFY_API_TOKEN env)) ;;;
  try_catch
    (syncMeetToClockify world)
    (fun error =>
       let errorMessage := Common.getErrorMessage error in
       if includes errorMessage "No saved credentials found"
       then
         try_catch
           (await authentication ;;;
            syncMeetToClockify retry)
           (fun authError => throw authError)
       else throw error).

End Main.

End Cli.

(* ===================================================================== *)
(** ** Token storage (src/unnamed/part_002, lines 1-77) *)
(* ===================================================================== *)

Module TokenStorage.

(** [TokenData], lines 5-11; [scope] is optional. *)
Record TokenData : Type := {
  access_token : string;
  refresh_token : string;
  expires_at : Z;
  token_type : string;
  scope : option string
}.

(** The columns of the [tokens] table the code writes and reads. *)
Record Row : Type := {
  accessToken : string;
  refreshToken : string;
  expiresAt : Z;
  tokenType : string;
  row_scope : option string;             (* [null] is [None] *)
  updatedAt : Z
}.

(** The [tokens] table is a map from [provider] to the row: [provider] is
    unique, so the table holds at most one row for each provider. *)

(** [saveTokens(tokenData)], lines 16-43: insert, or update on a conflict on
    [provider]; [now] is [new Date()]. *)
Definition saveTokens (now : Z) (tokenData : TokenData) (db : gmap string Row) : gmap string Row :=
  <[ "google" := {| accessToken := access_token tokenData;
                    refreshToken := refresh_token tokenData;
                    expiresAt := expires_at tokenData;
                    tokenType := token_type tokenData;
                    row_scope := or_null (scope tokenData);
                    updatedAt := now |} ]> db.

(** [loadTokens()], lines 48-66. *)
Definition loadTokens (db : gmap string Row) : option TokenData :=
  match db !! "google" with
  | None => None
  | Some token =>
      Some {| access_token := accessToken token;
              refresh_token := refreshToken token;
              expires_at := expiresAt token;
              token_type := tokenType token;
              scope := or_null (row_scope token) |}
  end.

(** [deleteTokens()], lines 71-77. *)
Definition deleteTokens (db : gmap string Row) : gmap string Row := delete "google" db.

End TokenStorage.

(* ===================================================================== *)
(** ** src/services/google-meet-service.ts: the credentials *)
(* ===================================================================== *)

Module Auth.

Import TokenStorage.

(** The [Credentials] of the OAuth2 client; every field may be absent. *)
Record Credentials : Type := {
  c_access_token : option string;
  c_refresh_token : option string;
  c_expiry_date : option Z;
  c_token_type : option string;
  c_scope : option string
}.

(** [x || d] for [x : string | null | undefined]. *)
Definition or_string (x : option string) (d : string) : string :=
  match x with
  | Some s => if truthy s then s else d
  | None => d
  end.

(** [x || d] for [x : number | null | undefined]. *)
Definition or_number (x : option Z) (d : Z) : Z :=
  match x with
  | Some n => if (n =? 0)%Z then d else n
  | None => d
  end.

(** [x || d] for [x] and [d] of type [string | undefined]. *)
Definition or_optional (x d : option string) : option string :=
  match x with
  | Some s => if truthy s then Some s else d
  | None => d
  end.

(** [convertTokenData(tokenData)], lines 27-35. *)
Definition convertTokenData (tokenData : TokenData) : Credentials :=
  {| c_access_token := Some (access_token tokenData);
     c_refresh_token := Some (refresh_token tokenData);
     c_expiry_date := Some (expires_at tokenData);
     c_token_type := Some (token_type tokenData);
     c_scope := scope tokenData |}.

Definition noCredentials : string :=
  "No saved credentials found. Please run the authentication flow first. "
  +:+ "See README for instructions.".

(** [initializeAuth()], lines 40-82: the credentials the client is given. *)
Definition initializeAuth (db : gmap string Row) : Outcome Credentials :=
  match loadTokens db with
  | None => Throw noCredentials
  | Some tokenData => Return (convertTokenData tokenData)
  end.

(** The handler of the [tokens] event, lines 59-70, registered by an
    [initializeAuth] that loaded [tokenData]. *)
Definition onTokens (now : Z) (tokenData : TokenData) (tokens : Credentials)
    (db : gmap string Row) : gmap string Row :=
  let updatedTokenData :=
    {| access_token := or_string (c_access_token tokens) (access_token tokenData);
       refresh_token := or_string (c_refresh_token tokens) (refresh_token tokenData);
       expires_at := or_number (c_expiry_date tokens) (expires_at tokenData);
       token_type := or_string (c_token_type tokens) (token_type tokenData);
       scope := or_optional (c_scope tokens) (scope tokenData) |} in
  saveTokens now updatedTokenData db.

(** [saveCredentialsFromCode(code)], lines 103-124; [exchange] is the
    settled [oauth2Client.getToken(code)], [now] is [Date.now()], which is
    also taken as the time of the save. *)
Definition saveCredentialsFromCode (now : Z) (exchange : Outcome Credentials)
    (db : gmap string Row) : Outcome unit * gmap string Row :=
  match exchange with
  | Throw e => (Throw e, db)
  | Return tokens =>
      let tokenData :=
        {| access_token := or_string (c_access_token tokens) "";
           refresh_token := or_string (c_refresh_token tokens) "";
           expires_at := or_number (c_expiry_date tokens) (now + 3600000);
           token_type := or_string (c_token_type tokens) "Bearer";
           scope := c_scope tokens |} in
      (Return tt, saveTokens now tokenData db)
  end.

End Auth.

(* ===================================================================== *)
(** ** Further concrete inputs *)
(* ===================================================================== *)

Module Samples.

Import GoogleMeet Fixture.

(** A tracker that holds 1001 entries: a full page and a page of one. *)
Definition two_pages : ClockifyPaging.PageAnswers :=
  fun _ _ _ _ _ page =>
    if (page =? 1)%Z then ok_json (repeat (entry_with "Lunch") 1000)
    else if (page =? 2)%Z then ok_json [entry_with "Standup"]
    else ok_json [].

(** A tracker that refuses every page request. *)
Definition no_pages : ClockifyPaging.PageAnswers :=
  fun _ _ _ _ _ _ => Response false "Unauthorized" "" (Throw "no body").

(** Three entries of the tracker, two of them tagged, and a tracker that
    refuses the second [DELETE]. *)
Definition three_entries : list ClockifyTimeEntry :=
  [ Fixture.entry_with "Review [Meet:conferenceRecords/a]";
    Fixture.entry_with "Lunch";
    Fixture.entry_with "Planning [Meet:conferenceRecords/b]" ].

Definition deleter (log : list Cleanup.Step) (_ _ _ : string) : HttpResult unit :=
  match log with
  | [] => Response true "No Content" "" (Return tt)
  | _ :: _ => Response false "Not Found" "" (Throw "no body")
  end.

End Samples.
(* ===================================================================== *)
(** ** Facts about the primitives *)
(* ===================================================================== *)

Section StringFacts.

Lemma startsWith_spec (s t : string) :
  startsWith s t = true <-> exists post, s = t +:+ post.
Proof.
  revert s; induction t as [|b t IH]; intros s; simpl.
  - split; [intros _; exists s; reflexivity | reflexivity].
  - destruct s as [|a s].
    + split; [discriminate | intros [post H]; discriminate H].
    + destruct (Ascii.eqb a b) eqn:E.
      * apply Ascii.eqb_eq in E; subst b. rewrite IH.
        split; intros [post H]; exists post; [now rewrite H | now inversion H].
      * apply Ascii.eqb_neq in E.
        split; [discriminate | intros [post H]; inversion H; congruence].
Qed.

Lemma includes_spec (s t : string) :
  includes s t = true <-> substring_of t s.
Proof.
  unfold substring_of. induction s as [|a s IH].
  - simpl. destruct (startsWith "" t) eqn:E.
    + apply startsWith_spec in E as [post E].
      split; [intros _; exists "", post; exact E | reflexivity].
    + split; [discriminate|].
      intros [pre [post Hs]]. destruct pre as [|c pre]; [|discriminate Hs].
      simpl in Hs. assert (startsWith "" t = true) as E'
        by (apply startsWith_spec; exists post; exact Hs).
      congruence.
  - cbn [includes]. destruct (startsWith (String a s) t) eqn:E.
    + apply startsWith_spec in E as [post E].
      split; [intros _; exists "", post; exact E | reflexivity].
    + rewrite IH. split.
      * intros [pre [post Hs]]. exists (String a pre), post. simpl. now rewrite Hs.
      * intros [pre [post Hs]]. destruct pre as [|c pre].
        -- simpl in Hs. assert (startsWith (String a s) t = true) as E'
             by (apply startsWith_spec; exists post; exact Hs).
           congruence.
        -- simpl in Hs. inversion Hs. exists pre, post. reflexivity.
Qed.

Lemma append_cons (a : ascii) (s t : string) : String a s +:+ t = String a (s +:+ t).
Proof. reflexivity. Qed.

Lemma append_empty_r (s : string) : s +:+ "" = s.
Proof.
  induction s as [|a s IH]; [reflexivity | now rewrite append_cons, IH].
Qed.

Lemma append_assoc (a b c : string) : (a +:+ b) +:+ c = a +:+ (b +:+ c).
Proof.
  induction a as [|x a IH]; [reflexivity | now rewrite !append_cons, IH].
Qed.

(** A string that ends with [t] includes [t]. *)
Lemma includes_suffix (pre t : string) : includes (pre +:+ t) t = true.
Proof.
  apply includes_spec. exists pre, "". now rewrite (append_empty_r t).
Qed.

Lemma existsb_includes (tag : string) (existing : list ClockifyTimeEntry) :
  existsb (fun entry => includes (entry_description entry) tag) existing = true
  <-> exists entry, In entry existing /\ substring_of tag (entry_description entry).
Proof.
  rewrite existsb_exists.
  split; intros [e [Hin He]]; exists e; (split; [exact Hin|]); now apply includes_spec.
Qed.

End StringFacts.

Section MinMax.

Lemma Math_min_le_init (xs : list Z) (x : Z) : Math_min x xs <= x.
Proof.
  unfold Math_min. revert x. induction xs as [|y xs IH]; intros x; simpl; [lia|].
  specialize (IH (Z.min x y)). lia.
Qed.

Lemma Math_min_is_min (x : Z) (xs : list Z) : is_min (Math_min x xs) (x :: xs).
Proof.
  unfold Math_min, is_min. revert x. induction xs as [|y xs IH]; intros x; simpl.
  - split; [now left | intros z [->|[]]; lia].
  - destruct (IH (Z.min x y)) as [Hin Hle]. split.
    + destruct Hin as [E|Hin]; [|right; right; exact Hin].
      rewrite <- E. destruct (Z.min_spec x y) as [[_ ->]|[_ ->]]; [left | right; left]; reflexivity.
    + intros z Hz.
      assert (fold_left Z.min xs (Z.min x y) <= Z.min x y) as Hm by (apply (Hle (Z.min x y)); now left).
      destruct Hz as [<-|[<-|Hz]]; [lia | lia | apply Hle; now right].
Qed.

Lemma Math_max_is_max (x : Z) (xs : list Z) : is_max (Math_max x xs) (x :: xs).
Proof.
  unfold Math_max, is_max. revert x. induction xs as [|y xs IH]; intros x; simpl.
  - split; [now left | intros z [->|[]]; lia].
  - destruct (IH (Z.max x y)) as [Hin Hle]. split.
    + destruct Hin as [E|Hin]; [|right; right; exact Hin].
      rewrite <- E. destruct (Z.max_spec x y) as [[_ ->]|[_ ->]]; [right; left | left]; reflexivity.
    + intros z Hz.
      assert (Z.max x y <= fold_left Z.max xs (Z.max x y)) as Hm by (apply (Hle (Z.max x y)); now left).
      destruct Hz as [<-|[<-|Hz]]; [lia | lia | apply Hle; now right].
Qed.

End MinMax.

(* ===================================================================== *)
(** ** Facts about the Clockify service *)
(* ===================================================================== *)

Ltac unfold_js :=
  unfold await, sleep, try_catch, bind, ret, throw, get_state, set_state, emit, record,
    history, new_object, read_object, update_object in *.

Section ClockifyFacts.
Context `{Runtime}.
Variable remote : Remote.


(** [createTimeEntry] on a live reference: what it returns and what it leaves. *)
Lemma createTimeEntry_spec (entry : nat) (s : Store) (arg : CreateTimeEntryRequest) :
  heap s !! entry = Some arg ->
  exists out s' t,
    createTimeEntry remote entry s = (out, s')
    /\ service s' = service s
    /\ events s' = t ++ CallCreateTimeEntry arg :: events s
    /\ ((truthy_opt (workspaceId (service s)) = false
         /\ t = [] /\ out = Throw "Clockify client not initialized"
         /\ heap s' = heap s)
        \/ (truthy_opt (workspaceId (service s)) = true
            /\ exists ok,
                t = [PostTimeEntry (or_empty (workspaceId (service s)))
                       (submitted (service s) arg) ok]
                /\ heap s' !! entry = Some (submitted (service s) arg)
                /\ (forall l, l <> entry -> heap s' !! l = heap s !! l)
                /\ (forall a, out = Return a -> ok = true))).
Proof.
  intros Hlive. unfold createTimeEntry. unfold_js. rewrite Hlive. cbn.
  destruct (truthy_opt (workspaceId (service s))) eqn:Hws; cbn.
  - unfold submitted.
    destruct (truthy_opt (leagueProjectId (service s))) eqn:Hp; cbn.
    + rewrite lookup_alter_eq, Hlive. cbn.
      match goal with
      | |- context [post_time_entry remote ?h ?w ?b] =>
          destruct (post_time_entry remote h w b) as [e|ok st tx [a|e]] eqn:Hr
      end; cbn; try destruct ok; cbn;
        eexists _, _, [_]; (split; [reflexivity|]); cbn;
        (split; [reflexivity|]); (split; [reflexivity|]);
        right; (split; [reflexivity|]); eexists; (split; [reflexivity|]);
        (split; [rewrite lookup_alter_eq, Hlive; reflexivity
                | split; [intros l Hl; apply lookup_alter_ne; congruence | intros a' Ha; congruence]]).
    + rewrite Hlive. cbn.
      match goal with
      | |- context [post_time_entry remote ?h ?w ?b] =>
          destruct (post_time_entry remote h w b) as [e|ok st tx [a|e]] eqn:Hr
      end; cbn; try destruct ok; cbn;
        eexists _, _, [_]; (split; [reflexivity|]); cbn;
        (split; [reflexivity|]); (split; [reflexivity|]);
        right; (split; [reflexivity|]); eexists; (split; [reflexivity|]);
        (split; [exact Hlive | split; [reflexivity | intros a' Ha; congruence]]).
  - eexists _, _, []. split; [reflexivity|]. cbn.
    split; [reflexivity|]. split; [reflexivity|]. left. now repeat split.
Qed.

End ClockifyFacts.

(* ===================================================================== *)
(** ** Facts about the loop of a pass *)
(* ===================================================================== *)

Section LoopFacts.
Context `{Runtime}.
Variable env : Environment.
Variable world : World.

Import GoogleMeet SyncWorker.

Lemma rateLimitCooldown_spec (msg : string) (s : Store) :
  exists s' t,
    rateLimitCooldown msg s = (Return tt, s')
    /\ service s' = service s
    /\ events s' = t ++ events s
    /\ (t = [] \/ t = [Sleep 200]).
Proof.
  unfold rateLimitCooldown.
  destruct (includes msg "429" || includes msg "Too Many Requests").
  - eexists _, [_]. unfold_js. cbn. repeat split; auto.
  - exists s, []. unfold_js. repeat split; auto.
Qed.

(** A meeting with sync evidence is skipped without any effect. *)
Lemma syncMeeting_skip (ex : list ClockifyTimeEntry) (m : MeetingSession)
    (c : Counters) (s : Store) :
  alreadySynced ex (meetingIdentifier m) = true ->
  syncMeeting env world ex m c s = (Return (incr_skipped c), s).
Proof. intros E. unfold syncMeeting. now rewrite E. Qed.

(** In a dry run a meeting without sync evidence is counted without any
    effect. *)
Lemma syncMeeting_dry (ex : list ClockifyTimeEntry) (m : MeetingSession)
    (c : Counters) (s : Store) :
  alreadySynced ex (meetingIdentifier m) = false ->
  DRY_RUN env = true ->
  syncMeeting env world ex m c s = (Return (incr_synced c), s).
Proof. intros E D. unfold syncMeeting. rewrite E, D. reflexivity. Qed.

(** Otherwise [createTimeEntry] is entered once, and the meeting is counted
    as synced, after an accepted submission, or as failed. *)
Lemma syncMeeting_create (ex : list ClockifyTimeEntry) (m : MeetingSession)
    (c : Counters) (s : Store) :
  alreadySynced ex (meetingIdentifier m) = false ->
  DRY_RUN env = false ->
  exists c' s' t,
    syncMeeting env world ex m c s = (Return c', s')
    /\ service s' = service s
    /\ events s' = t ++ events s
    /\ creations t = 1%nat
    /\ (forall ws body ok, In (PostTimeEntry ws body ok) t ->
          body = submitted (service s) (candidate m))
    /\ ((c' = incr_synced c
         /\ exists ws, In (PostTimeEntry ws (submitted (service s) (candidate m)) true) t)
        \/ c' = incr_failed c).
Proof.
  intros E D. unfold syncMeeting. rewrite E, D.
  unfold try_catch, bind at 1. unfold new_object at 1.
  set (l := fresh (dom (heap s))).
  set (s0 := {| service := service s; heap := <[l:=candidate m]> (heap s);
                events := events s |}).
  destruct (createTimeEntry_spec (clockify world) l s0 (candidate m))
    as (out & s1 & t & Hrun & Hsv & Hev & Hcase).
  { apply lookup_insert_eq. }
  unfold bind at 1. rewrite Hrun. cbn in Hsv, Hev.
  assert (forall ws body ok, In (PostTimeEntry ws body ok) t ->
            body = submitted (service s) (candidate m) /\ (forall a, out = Return a -> ok = true))
    as Hposts.
  { intros ws body ok Hin. destruct Hcase as [(_ & -> & _)|(_ & ok' & -> & _ & _ & Hok)].
    - destruct Hin.
    - destruct Hin as [E'|[]]. inversion E'; subst. split; [reflexivity | exact Hok]. }
  assert (creations (t ++ [CallCreateTimeEntry (candidate m)]) = 1%nat) as Hone.
  { destruct Hcase as [(_ & -> & _)|(_ & ok' & -> & _)]; reflexivity. }
  destruct out as [a|e].
  - (* accepted: counted as synced, then the pause between calls *)
    unfold_js. cbn. eexists _, _, (Sleep (CLOCKIFY_API_DELAY env) :: t ++ [CallCreateTimeEntry (candidate m)]).
    split; [reflexivity|]. cbn. split; [exact Hsv|].
    split; [rewrite Hev, <- app_assoc; reflexivity|].
    split; [exact Hone|]. split.
    + intros ws body ok [Hin|Hin]; [discriminate|].
      apply in_app_or in Hin as [Hin|[Hin|[]]]; [|discriminate].
      now apply Hposts in Hin.
    + left. split; [reflexivity|].
      destruct Hcase as [(_ & _ & Hout & _)|(_ & ok' & -> & _ & _ & Hok)]; [discriminate|].
      rewrite (Hok a eq_refl). eexists. right. apply in_or_app. left. now left.
  - (* rejected or failed: counted as failed *)
    unfold Common.getErrorMessage.
    destruct (rateLimitCooldown_spec e s1) as (s2 & t2 & Hr & Hsv2 & Hev2 & Ht2).
    unfold bind. rewrite Hr. unfold ret.
    eexists _, _, (t2 ++ t ++ [CallCreateTimeEntry (candidate m)]).
    split; [reflexivity|]. split; [congruence|].
    split; [rewrite Hev2, Hev, <- !app_assoc; reflexivity|].
    split.
    + destruct Ht2 as [->| ->]; cbn; exact Hone.
    + split; [|now right].
      intros ws body ok Hin. apply in_app_or in Hin as [Hin|Hin].
      * destruct Ht2 as [->| ->]; [destruct Hin | destruct Hin as [?|[]]; discriminate].
      * apply in_app_or in Hin as [Hin|[Hin|[]]]; [|discriminate].
        now apply Hposts in Hin.
Qed.

(** One iteration always completes and counts the meeting once. *)
Lemma syncMeeting_counts (ex : list ClockifyTimeEntry) (m : MeetingSession)
    (c : Counters) (s : Store) :
  exists c' s',
    syncMeeting env world ex m c s = (Return c', s')
    /\ counted c' = S (counted c)
    /\ service s' = service s.
Proof.
  destruct (alreadySynced ex (meetingIdentifier m)) eqn:E.
  - exists (incr_skipped c), s. rewrite syncMeeting_skip by exact E.
    unfold counted; cbn. repeat split; lia.
  - destruct (DRY_RUN env) eqn:D.
    + exists (incr_synced c), s. rewrite syncMeeting_dry by assumption.
      unfold counted; cbn. repeat split; lia.
    + destruct (syncMeeting_create ex m c s E D)
        as (c' & s' & t & Hrun & Hsv & _ & _ & _ & [[-> _]| ->]);
        eexists _, s'; (split; [exact Hrun|]); unfold counted; cbn; split; (lia || exact Hsv).
Qed.

End LoopFacts.

Section PassFacts.
Context `{Runtime}.
Variable env : Environment.
Variable world : World.

Import GoogleMeet SyncWorker.

Lemma creations_app (t1 t2 : list Event) :
  creations (t1 ++ t2) = (creations t1 + creations t2)%nat.
Proof. unfold creations. now rewrite List.filter_app, length_app. Qed.

Lemma pending_cons_skip (ex : list ClockifyTimeEntry) (m : MeetingSession)
    (ms : list MeetingSession) :
  alreadySynced ex (meetingIdentifier m) = true -> pending ex (m :: ms) = pending ex ms.
Proof. intros E. unfold pending. cbn. now rewrite E. Qed.

Lemma pending_cons_keep (ex : list ClockifyTimeEntry) (m : MeetingSession)
    (ms : list MeetingSession) :
  alreadySynced ex (meetingIdentifier m) = false ->
  pending ex (m :: ms) = m :: pending ex ms.
Proof. intros E. unfold pending. cbn. now rewrite E. Qed.

(** The loop always completes; what its counters and its trace are. *)
Lemma syncMeetings_spec (ex : list ClockifyTimeEntry) (ms : list MeetingSession) :
  forall (c : Counters) (s : Store),
  exists c' s' t,
    syncMeetings env world ex ms c s = (Return c', s')
    /\ service s' = service s
    /\ events s' = t ++ events s
    /\ counted c' = (counted c + length ms)%nat
    /\ (skippedCount c' + length (pending ex ms) = skippedCount c + length ms)%nat
    /\ (syncedCount c' + failedCount c'
        = syncedCount c + failedCount c + length (pending ex ms))%nat
    /\ (failedCount c <= failedCount c')%nat
    /\ (DRY_RUN env = true -> s' = s /\ failedCount c' = failedCount c)
    /\ (DRY_RUN env = false ->
        creations t = length (pending ex ms)
        /\ (forall ws body ok, In (PostTimeEntry ws body ok) t ->
              exists m, In m (pending ex ms)
                        /\ body = submitted (service s) (candidate m))
        /\ (failedCount c' = failedCount c ->
            forall m, In m (pending ex ms) ->
              exists ws, In (PostTimeEntry ws (submitted (service s) (candidate m)) true) t)).
Proof.
  induction ms as [|m ms IH]; intros c s.
  - exists c, s, []. cbn. unfold ret, counted. repeat split; try lia; try tauto.
  - cbn [syncMeetings]. unfold bind at 1.
    destruct (alreadySynced ex (meetingIdentifier m)) eqn:E.
    + rewrite (syncMeeting_skip env world ex m c s E).
      destruct (IH (incr_skipped c) s) as (c' & s' & t & Hrun & Hsv & Hev & Hn & Hsk & Hsf & Hf & Hdry & Hwet).
      exists c', s', t. rewrite (pending_cons_skip ex m ms E).
      unfold counted in *. cbn in *.
      repeat split; try assumption; try lia; try (apply Hdry; assumption);
        try (apply Hwet; assumption).
    + destruct (DRY_RUN env) eqn:D.
      * rewrite (syncMeeting_dry env world ex m c s E D).
        destruct (IH (incr_synced c) s) as (c' & s' & t & Hrun & Hsv & Hev & Hn & Hsk & Hsf & Hf & Hdry & Hwet).
        exists c', s', t. rewrite (pending_cons_keep ex m ms E).
        unfold counted in *. cbn in *.
        repeat split; try assumption; try lia; try (apply Hdry; reflexivity);
          try discriminate.
      * destruct (syncMeeting_create env world ex m c s E D)
          as (c1 & s1 & t1 & Hrun1 & Hsv1 & Hev1 & Hone & Hposts1 & Hc1).
        rewrite Hrun1.
        destruct (IH c1 s1) as (c' & s' & t & Hrun & Hsv & Hev & Hn & Hsk & Hsf & Hf & _ & Hwet).
        destruct (Hwet eq_refl) as (Hcr & Hposts & Hall).
        exists c', s', (t ++ t1). rewrite (pending_cons_keep ex m ms E).
        split; [exact Hrun|]. split; [congruence|].
        split; [rewrite Hev, Hev1, app_assoc; reflexivity|].
        assert (counted c1 = S (counted c)
                /\ skippedCount c1 = skippedCount c
                /\ (syncedCount c1 + failedCount c1 = S (syncedCount c + failedCount c))%nat
                /\ (failedCount c <= failedCount c1)%nat
                /\ (failedCount c1 = failedCount c -> c1 = incr_synced c)) as (A1 & A2 & A3 & A4 & A5).
        { destruct Hc1 as [[-> _]| ->]; unfold counted; cbn; repeat split; try lia. }
        cbn [length]. repeat split; try lia; try discriminate.
        -- rewrite creations_app, Hone, Hcr. lia.
        -- intros ws body ok Hin. apply in_app_or in Hin as [Hin|Hin].
           ++ destruct (Hposts ws body ok Hin) as (m' & Hm' & ->).
              exists m'. split; [now right | now rewrite Hsv1].
           ++ exists m. split; [now left | eapply Hposts1; exact Hin].
        -- intros Hnofail m' [<-|Hm'].
           ++ assert (c1 = incr_synced c) as -> by (apply A5; lia).
              destruct Hc1 as [[_ [ws Hin]]|Hbad].
              ** exists ws. apply in_or_app. now right.
              ** exfalso. apply (f_equal failedCount) in Hbad. cbn in Hbad. lia.
           ++ destruct (Hall ltac:(lia) m' Hm') as [ws Hin].
              exists ws. apply in_or_app. left. now rewrite <- Hsv1.
Qed.

(** The store with the fetch of the meeting list recorded. *)
Lemma fetchMeetings_eq (s : Store) :
  fetchMeetings env world s
  = (meet_getConferenceRecords world (startDate env world) (endDate world),
     record (GetConferenceRecords (startDate env world) (endDate world)) s).
Proof.
  unfold fetchMeetings. unfold_js.
  now destruct (meet_getConferenceRecords world (startDate env world) (endDate world)).
Qed.

(** A pass whose services fail to initialise stops there. *)
Lemma processSyncJob_uninitialised (s s0 : Store) (e : string) :
  initializeServices env world s = (Throw e, s0) ->
  processSyncJob env world s = (Throw e, s0).
Proof. intros Hinit. unfold processSyncJob, bind at 1. now rewrite Hinit. Qed.

(** A pass after initialisation, by the results of its two fetches. *)
Lemma processSyncJob_initialised (s s0 : Store) :
  initializeServices env world s = (Return tt, s0) ->
  processSyncJob env world s =
    let s1 := record (GetConferenceRecords (startDate env world) (endDate world)) s0 in
    match meet_getConferenceRecords world (startDate env world) (endDate world) with
    | Throw e => (Throw e, s1)
    | Return meetings =>
        if (length meetings =? 0)%nat then (Return noMeetingsResult, s1)
        else match fetchExistingEntries env world s1 with
             | (Throw e, s2) => (Throw e, s2)
             | (Return existingEntries, s2) => reconcile env world existingEntries meetings s2
             end
    end.
Proof.
  intros Hinit. unfold processSyncJob. unfold bind at 1. rewrite Hinit.
  unfold bind at 1. rewrite fetchMeetings_eq. cbn zeta.
  destruct (meet_getConferenceRecords world (startDate env world) (endDate world))
    as [meetings|e]; [|reflexivity].
  destruct (length meetings =? 0)%nat; [reflexivity|].
  unfold bind at 1. destruct (fetchExistingEntries env world _) as [[ex|e] s2]; reflexivity.
Qed.

(** The result [reconcile] builds from the counters of its loop. *)
Lemma reconcile_spec (ex : list ClockifyTimeEntry) (ms : list MeetingSession) (s : Store) :
  exists c s',
    syncMeetings env world ex ms zeroCounters s = (Return c, s')
    /\ reconcile env world ex ms s =
       (Return {| status := "success";
                  message := "Sync completed";
                  stats := {| meetings_found := length ms;
                              synced := syncedCount c;
                              skipped := skippedCount c;
                              failed := failedCount c;
                              total_in_clockify :=
                                Some (length (List.filter
                                        (fun entry => includes (entry_description entry) "[Meet:")
                                        ex) + syncedCount c)%nat |};
                  dry_run := Some (DRY_RUN env) |}, s').
Proof.
  destruct (syncMeetings_spec ex ms zeroCounters s) as (c & s' & t & Hrun & _).
  exists c, s'. split; [exact Hrun|].
  unfold reconcile, bind. now rewrite Hrun.
Qed.

End PassFacts.

(* ===================================================================== *)
(** ** What a computation adds to the trace *)
(* ===================================================================== *)

Section TraceFacts.
Context `{Runtime}.

Import GoogleMeet SyncWorker.

Lemma free_of_nil (p : Event -> bool) : free_of p [].
Proof. intros ev []. Qed.

Lemma free_of_app (p : Event -> bool) (t1 t2 : list Event) :
  free_of p t1 -> free_of p t2 -> free_of p (t1 ++ t2).
Proof. intros H1 H2 ev Hin. apply in_app_or in Hin as [?|?]; auto. Qed.

Lemma free_of_creations (t : list Event) : free_of is_creation t -> creations t = 0%nat.
Proof.
  unfold creations. induction t as [|ev t IH]; intros Hfree; [reflexivity|].
  cbn. assert (is_creation ev = false) as Hev by (apply Hfree; now left).
  destruct ev; try discriminate Hev; apply IH; intros ev' Hin; apply Hfree; now right.
Qed.

Variable p : Event -> bool.

Lemma quiet_same {A : Type} (m : M A) : (forall s, snd (m s) = s) -> quiet p m.
Proof. intros Hs s. exists []. rewrite Hs. split; [reflexivity | apply free_of_nil]. Qed.

Lemma quiet_ret {A : Type} (a : A) : quiet p (ret a).
Proof. now apply quiet_same. Qed.

Lemma quiet_throw {A : Type} (e : string) : quiet p (@throw A e).
Proof. now apply quiet_same. Qed.

Lemma quiet_await {A : Type} (o : Outcome A) : quiet p (await o).
Proof. destruct o; [apply quiet_ret | apply quiet_throw]. Qed.

Lemma quiet_get_state : quiet p get_state.
Proof. now apply quiet_same. Qed.

Lemma quiet_history : quiet p history.
Proof. now apply quiet_same. Qed.

Lemma quiet_set_state (f : ClockifyState -> ClockifyState) : quiet p (set_state f).
Proof. intros s. exists []. split; [reflexivity | apply free_of_nil]. Qed.

Lemma quiet_new_object (entry : CreateTimeEntryRequest) : quiet p (new_object entry).
Proof. intros s. exists []. split; [reflexivity | apply free_of_nil]. Qed.

Lemma quiet_update_object (l : nat) (f : CreateTimeEntryRequest -> CreateTimeEntryRequest) :
  quiet p (update_object l f).
Proof. intros s. exists []. split; [reflexivity | apply free_of_nil]. Qed.

Lemma quiet_read_object (l : nat) : quiet p (read_object l).
Proof.
  intros s. exists []. unfold read_object.
  destruct (heap s !! l); (split; [reflexivity | apply free_of_nil]).
Qed.

Lemma quiet_emit (ev : Event) : p ev = false -> quiet p (emit ev).
Proof.
  intros Hev s. exists [ev]. split; [reflexivity|].
  intros ev' [<-|[]]. exact Hev.
Qed.

Lemma quiet_bind {A B : Type} (m : M A) (k : A -> M B) :
  quiet p m -> (forall a, quiet p (k a)) -> quiet p (bind m k).
Proof.
  intros Hm Hk s. unfold bind. destruct (Hm s) as (t1 & E1 & F1).
  destruct (m s) as [[a|e] s1]; cbn in *.
  - destruct (Hk a s1) as (t2 & E2 & F2). exists (t2 ++ t1).
    rewrite E2, E1, app_assoc. split; [reflexivity | now apply free_of_app].
  - exists t1. now split.
Qed.

Lemma quiet_try_catch {A : Type} (m : M A) (h : string -> M A) :
  quiet p m -> (forall e, quiet p (h e)) -> quiet p (try_catch m h).
Proof.
  intros Hm Hh s. unfold try_catch. destruct (Hm s) as (t1 & E1 & F1).
  destruct (m s) as [[a|e] s1]; cbn in *.
  - exists t1. now split.
  - destruct (Hh e s1) as (t2 & E2 & F2). exists (t2 ++ t1).
    rewrite E2, E1, app_assoc. split; [reflexivity | now apply free_of_app].
Qed.

End TraceFacts.

Ltac quiet_step :=
  first
    [ apply quiet_bind; [|intros ?]
    | apply quiet_try_catch; [|intros ?]
    | apply quiet_ret
    | apply quiet_throw
    | apply quiet_await
    | apply quiet_get_state
    | apply quiet_history
    | apply quiet_set_state
    | apply quiet_new_object
    | apply quiet_update_object
    | apply quiet_read_object
    | apply quiet_emit; reflexivity
    | match goal with
      | |- quiet _ (match ?x with _ => _ end) => destruct x
      | |- quiet _ (let _ := _ in _) => cbv zeta
      end ].

Section ServiceTraces.
Context `{Runtime}.
Variable env : Environment.
Variable world : World.

Import GoogleMeet SyncWorker.

Lemma initialize_reads_only : quiet touches_entries (initialize env (clockify world)).
Proof. unfold initialize, getOrCreateLeagueProject, sleep. repeat quiet_step. Qed.

Lemma initialize_creates_nothing : quiet is_creation (initialize env (clockify world)).
Proof. unfold initialize, getOrCreateLeagueProject, sleep. repeat quiet_step. Qed.

Lemma initializeServices_reads_only : quiet touches_entries (initializeServices env world).
Proof.
  unfold initializeServices, sleep. repeat quiet_step.
Qed.

Lemma initializeServices_creates_nothing : quiet is_creation (initializeServices env world).
Proof.
  unfold initializeServices, sleep. repeat quiet_step.
Qed.

Lemma fetchMeetings_creates_nothing : quiet is_creation (fetchMeetings env world).
Proof. unfold fetchMeetings. repeat quiet_step. Qed.

Lemma fetchExistingEntries_creates_nothing :
  quiet is_creation (fetchExistingEntries env world).
Proof. unfold fetchExistingEntries, getTimeEntriesForDateRange. repeat quiet_step. Qed.

End ServiceTraces.

(* ===================================================================== *)
(** ** The fingerprint tag and the duplicate check *)
(* ===================================================================== *)

Section Fingerprint.
Context `{Runtime}.

Import GoogleMeet.

Lemma includes_append (pre s t : string) :
  includes s t = true -> includes (pre +:+ s) t = true.
Proof.
  rewrite !includes_spec. intros (a & b & ->).
  exists (pre +:+ a), b. now rewrite append_assoc.
Qed.

(** The description the worker builds ends with the tag. *)
Lemma worker_describe_embeds (m : MeetingSession) :
  includes (SyncWorker.describe m) (SyncWorker.meetingIdentifier m) = true.
Proof.
  unfold SyncWorker.describe. cbv zeta.
  do 7 apply includes_append. apply includes_spec.
  exists "", "". now rewrite append_empty_r.
Qed.


End Fingerprint.


Section ScriptTagExample.
#[local] Existing Instance Host.runtime.


End ScriptTagExample.

(** C3.  The duplicate check of the worker is literal containment: it
    holds exactly when the description of some existing entry has the tag as
    a substring.  A description around the tag matches, the tag of
    [abc1234] does not match the tag of [abc123], and the description built
    for a meeting matches the tag searched for that meeting.  The service's
    [isMatchSynced], which the pass does not call, is the same containment
    test for its own token. *)
Theorem duplicate_check_is_containment :
  (forall (tag : string) (existing : list ClockifyTimeEntry),
     SyncWorker.alreadySynced existing tag = true
     <-> exists entry, In entry existing /\ substring_of tag (entry_description entry))
  /\ SyncWorker.alreadySynced
       [Fixture.entry_with "Standup [Meet:abc123] done"] "[Meet:abc123]" = true
  /\ SyncWorker.alreadySynced
       [Fixture.entry_with "Standup [Meet:abc1234] done"] "[Meet:abc123]" = false
  /\ (forall (rt : Runtime) (m : GoogleMeet.MeetingSession)
        (id project workspace user : string) (b : bool) (interval : TimeInterval)
        (others : list ClockifyTimeEntry),
        SyncWorker.alreadySynced
          (others ++ [ {| entry_id := id;
                          entry_description := description (SyncWorker.candidate m);
                          entry_projectId := project;
                          entry_workspaceId := workspace;
                          entry_userId := user;
                          entry_billable := b;
                          timeInterval := interval |} ])
          (SyncWorker.meetingIdentifier m) = true)
  /\ (forall (matchId : string) (existing : list ClockifyTimeEntry),
        isMatchSynced matchId existing = true
        <-> exists entry,
              In entry existing
              /\ substring_of ("[Match:" +:+ matchId +:+ "]") (entry_description entry)).
Proof.
  split; [|split; [|split; [|split]]].
  - intros tag existing. unfold SyncWorker.alreadySynced. apply existsb_includes.
  - vm_compute; reflexivity.
  - vm_compute; reflexivity.
  - intros rt m id project workspace user b interval others.
    unfold SyncWorker.alreadySynced.
    rewrite existsb_app. cbn. rewrite worker_describe_embeds.
    now rewrite orb_true_r.
  - intros matchId existing. unfold isMatchSynced. apply existsb_includes.
Qed.

(* ===================================================================== *)
(** ** The pass: re-runs, short-circuit, dry run, failures, counters *)
(* ===================================================================== *)

Section Pass.
Context `{Runtime}.

Import GoogleMeet SyncWorker.




End Pass.


(** C6.  After the services are initialised, a pass whose meeting fetch
    returns the empty list returns the zero outcome at once: the only event
    it adds is that fetch, so neither the existing entries are fetched nor
    [createTimeEntry] is entered; no event of the whole pass touches time
    entries. *)
Theorem zero_candidates_short_circuit `{Runtime}
    (env : Environment) (world : World) (s s0 : Store) :
  SyncWorker.initializeServices env world s = (Return tt, s0) ->
  meet_getConferenceRecords world (SyncWorker.startDate env world)
    (SyncWorker.endDate world) = Return [] ->
  SyncWorker.processSyncJob env world s
  = (Return {| SyncWorker.status := "success";
               SyncWorker.message := "No meetings found";
               SyncWorker.stats :=
                 {| SyncWorker.meetings_found := 0; SyncWorker.synced := 0;
                    SyncWorker.skipped := 0; SyncWorker.failed := 0;
                    SyncWorker.total_in_clockify := None |};
               SyncWorker.dry_run := None |},
     record (GetConferenceRecords (SyncWorker.startDate env world)
               (SyncWorker.endDate world)) s0)
  /\ exists t,
       events (snd (SyncWorker.processSyncJob env world s)) = t ++ events s
       /\ free_of touches_entries t.
Proof.
  intros Hinit Hnone.
  assert (SyncWorker.processSyncJob env world s
          = (Return SyncWorker.noMeetingsResult,
             record (GetConferenceRecords (SyncWorker.startDate env world)
                       (SyncWorker.endDate world)) s0)) as Hrun.
  { rewrite (processSyncJob_initialised env world s s0 Hinit). cbv zeta.
    now rewrite Hnone. }
  split; [exact Hrun|].
  rewrite Hrun. cbn.
  destruct (initializeServices_reads_only env world s) as (t & Hev & Hfree).
  rewrite Hinit in Hev. cbn in Hev.
  exists (GetConferenceRecords (SyncWorker.startDate env world)
            (SyncWorker.endDate world) :: t).
  split; [now rewrite Hev|].
  intros ev [<-|Hin]; [reflexivity | now apply Hfree].
Qed.

(** C7.  In a dry run the loop counts every meeting without sync evidence
    as synced and leaves the store as it found it, and no event of the whole
    pass, however it ends, enters [createTimeEntry] or submits an entry. *)
Theorem dry_run_creates_nothing `{Runtime} (env : Environment) (world : World) :
  DRY_RUN env = true ->
  (forall (existing : list ClockifyTimeEntry)
          (meetings : list GoogleMeet.MeetingSession) (s : Store),
     exists r,
       SyncWorker.reconcile env world existing meetings s = (Return r, s)
       /\ SyncWorker.synced (SyncWorker.stats r) = length (pending existing meetings)
       /\ SyncWorker.failed (SyncWorker.stats r) = 0%nat
       /\ (SyncWorker.skipped (SyncWorker.stats r) + length (pending existing meetings)
           = length meetings)%nat)
  /\ (forall s, exists t,
        events (snd (SyncWorker.processSyncJob env world s)) = t ++ events s
        /\ free_of is_creation t
        /\ creations t = 0%nat).
Proof.
  intros Hdry. split.
  - intros existing meetings s.
    destruct (syncMeetings_spec env world existing meetings zeroCounters s)
      as (c & s' & t & Hloop & _ & _ & _ & Hsk & Hsf & _ & Hd & _).
    destruct (Hd Hdry) as [-> Hf]. cbn in *.
    eexists. unfold SyncWorker.reconcile, bind. rewrite Hloop. unfold ret.
    split; [reflexivity|]. cbn. repeat split; lia.
  - assert (quiet is_creation (SyncWorker.processSyncJob env world)) as Hq.
    { unfold SyncWorker.processSyncJob.
      apply quiet_bind; [apply initializeServices_creates_nothing|intros _].
      apply quiet_bind; [apply fetchMeetings_creates_nothing|intros meetings].
      destruct (length meetings =? 0)%nat; [apply quiet_ret|].
      apply quiet_bind; [apply fetchExistingEntries_creates_nothing|intros existing].
      intros s. exists [].
      destruct (syncMeetings_spec env world existing meetings zeroCounters s)
        as (c & s' & t & Hloop & _ & _ & _ & _ & _ & _ & Hd & _).
      destruct (Hd Hdry) as [-> _].
      unfold SyncWorker.reconcile, bind. rewrite Hloop. cbn.
      split; [reflexivity | apply free_of_nil]. }
    intros s. destruct (Hq s) as (t & Hev & Hfree).
    exists t. split; [exact Hev|]. split; [exact Hfree | now apply free_of_creations].
Qed.

Section StartedPass.
Context `{Runtime}.
Variable env : Environment.
Variable world : World.

(** Once the services are initialised, the pass throws exactly when the
    meeting fetch throws, or the meeting list is not empty and the fetch of
    the existing entries throws; a pass that returns reports success. *)
Lemma processSyncJob_after_start (s s0 : Store) :
  SyncWorker.initializeServices env world s = (Return tt, s0) ->
  let s1 := record (GetConferenceRecords (SyncWorker.startDate env world)
                      (SyncWorker.endDate world)) s0 in
  let fetched := meet_getConferenceRecords world (SyncWorker.startDate env world)
                   (SyncWorker.endDate world) in
  (forall e s',
     SyncWorker.processSyncJob env world s = (Throw e, s')
     <-> (fetched = Throw e /\ s' = s1)
         \/ (exists meetings,
               fetched = Return meetings /\ meetings <> []
               /\ SyncWorker.fetchExistingEntries env world s1 = (Throw e, s')))
  /\ (forall r s',
        SyncWorker.processSyncJob env world s = (Return r, s') ->
        SyncWorker.status r = "success").
Proof.
  intros Hinit s1 fetched.
  pose proof (processSyncJob_initialised env world s s0 Hinit) as Hrun.
  cbv zeta in Hrun. fold s1 in Hrun. fold fetched in Hrun.
  split.
  + intros e s'. rewrite Hrun. destruct fetched as [meetings|e0].
    * destruct meetings as [|m ms].
      -- cbn. split; [discriminate|].
         intros [[Hf _]|(ms' & Hf & Hne & _)]; [discriminate|].
         inversion Hf; subst. now contradiction Hne.
      -- cbn [length Nat.eqb].
         destruct (SyncWorker.fetchExistingEntries env world s1) as [[ex|e1] s2].
         ++ destruct (reconcile_spec env world ex (m :: ms) s2) as (c & s3 & _ & ->).
            split; [discriminate|].
            intros [[Hf _]|(ms' & _ & _ & Hthrow)]; discriminate.
         ++ split.
            ** intros Heq. right. exists (m :: ms).
               split; [reflexivity|]. split; [discriminate | congruence].
            ** intros [[Hf _]|(ms' & _ & _ & Hthrow)]; [discriminate | congruence].
    * split.
      -- intros Heq. left. inversion Heq. now split.
      -- intros [[Hf ->]|(ms' & Hf & _)]; [congruence | discriminate].
  + intros r s'. rewrite Hrun. destruct fetched as [meetings|e0]; [|discriminate].
    destruct (length meetings =? 0)%nat.
    * intros Heq. inversion Heq. reflexivity.
    * destruct (SyncWorker.fetchExistingEntries env world s1) as [[ex|e1] s2];
        [|discriminate].
      destruct (reconcile_spec env world ex meetings s2) as (c & s3 & _ & ->).
      intros Heq. inversion Heq. reflexivity.
Qed.

End StartedPass.

(** C8.  A creation attempt that throws makes the loop count the meeting as
    failed, wait at most the rate-limit cooldown, and go on with the
    remaining meetings.  The loop always completes: the pass then returns
    [status = "success"] with its counts, and a live pass has entered
    [createTimeEntry] once for every meeting without sync evidence, whether
    or not earlier attempts failed.  The pass throws exactly when the
    initialisation of the two services throws, before any fetch, or the
    meeting fetch throws, or the meeting list is not empty and the fetch of
    the existing entries throws. *)
Theorem creation_failure_is_isolated `{Runtime} (env : Environment) (world : World) :
  (forall (existing : list ClockifyTimeEntry) (m : GoogleMeet.MeetingSession)
          (rest : list GoogleMeet.MeetingSession) (c : Counters) (s sb : Store)
          (e : string),
     SyncWorker.alreadySynced existing (SyncWorker.meetingIdentifier m) = false ->
     DRY_RUN env = false ->
     attempt world m s = (Throw e, sb) ->
     exists s',
       (s' = sb \/ s' = record (Sleep 200) sb)
       /\ SyncWorker.syncMeetings env world existing (m :: rest) c s
          = SyncWorker.syncMeetings env world existing rest (incr_failed c) s')
  /\ (forall (existing : list ClockifyTimeEntry)
             (meetings : list GoogleMeet.MeetingSession) (s : Store),
        exists r s' t,
          SyncWorker.reconcile env world existing meetings s = (Return r, s')
          /\ SyncWorker.status r = "success"
          /\ SyncWorker.meetings_found (SyncWorker.stats r) = length meetings
          /\ (SyncWorker.synced (SyncWorker.stats r)
              + SyncWorker.skipped (SyncWorker.stats r)
              + SyncWorker.failed (SyncWorker.stats r) = length meetings)%nat
          /\ events s' = t ++ events s
          /\ (DRY_RUN env = false ->
              creations t = length (pending existing meetings)
              /\ (SyncWorker.synced (SyncWorker.stats r)
                  + SyncWorker.failed (SyncWorker.stats r)
                  = length (pending existing meetings))%nat))
  /\ (forall (s : Store),
        let fetched := meet_getConferenceRecords world (SyncWorker.startDate env world)
                         (SyncWorker.endDate world) in
        (forall e s',
           SyncWorker.processSyncJob env world s = (Throw e, s')
           <-> SyncWorker.initializeServices env world s = (Throw e, s')
               \/ exists s0,
                    SyncWorker.initializeServices env world s = (Return tt, s0)
                    /\ ((fetched = Throw e
                         /\ s' = record (GetConferenceRecords
                                           (SyncWorker.startDate env world)
                                           (SyncWorker.endDate world)) s0)
                        \/ (exists meetings,
                              fetched = Return meetings /\ meetings <> []
                              /\ SyncWorker.fetchExistingEntries env world
                                   (record (GetConferenceRecords
                                              (SyncWorker.startDate env world)
                                              (SyncWorker.endDate world)) s0)
                                 = (Throw e, s'))))
        /\ (forall r s',
              SyncWorker.processSyncJob env world s = (Return r, s') ->
              SyncWorker.status r = "success")).
Proof.
  split; [|split].
  - intros existing m rest c s sb e Hnew Hlive Hattempt.
    cbn [SyncWorker.syncMeetings]. unfold bind at 1.
    unfold SyncWorker.syncMeeting. rewrite Hnew, Hlive.
    unfold try_catch. unfold attempt in Hattempt.
    assert (forall k : ClockifyTimeEntry -> M Counters,
              bind (new_object (SyncWorker.candidate m))
                   (fun entry => bind (createTimeEntry (clockify world) entry) k) s
              = (Throw e, sb)) as Hthrown.
    { intros k. unfold bind in *. unfold new_object in *.
      destruct (createTimeEntry (clockify world) _ _) as [[a|e'] s'']; [discriminate|].
      now inversion Hattempt. }
    rewrite Hthrown. unfold Common.getErrorMessage.
    destruct (rateLimitCooldown_spec e sb) as (s2 & t2 & Hr & Hsv & Hev & Ht).
    unfold bind at 1. rewrite Hr. unfold ret at 1.
    exists s2. split; [|reflexivity].
    unfold rateLimitCooldown in Hr.
    destruct (includes e "429" || includes e "Too Many Requests").
    + right. unfold sleep, emit in Hr. now inversion Hr.
    + left. unfold ret in Hr. now inversion Hr.
  - intros existing meetings s.
    destruct (syncMeetings_spec env world existing meetings zeroCounters s)
      as (c & s' & t & Hloop & _ & Hev & Hn & _ & Hsf & _ & _ & Hwet).
    eexists _, s', t. unfold SyncWorker.reconcile, bind. rewrite Hloop. unfold ret.
    split; [reflexivity|]. cbn.
    split; [reflexivity|]. split; [reflexivity|].
    unfold counted in Hn. cbn in Hn, Hsf.
    split; [lia|]. split; [exact Hev|].
    intros Hlive. destruct (Hwet Hlive) as (Hcr & _). split; [exact Hcr | lia].
  - intros s fetched.
    destruct (SyncWorker.initializeServices env world s) as [[[]|e0] s0] eqn:Hinit.
    + destruct (processSyncJob_after_start env world s s0 Hinit) as [Hthrow Hreturn].
      split; [|exact Hreturn].
      intros e s'. rewrite Hthrow. split.
      * intros Hcase. right. exists s0. split; [reflexivity | exact Hcase].
      * intros [Himpossible|(s0' & Heq & Hcase)]; [discriminate|].
        inversion Heq; subst s0'. exact Hcase.
    + rewrite (processSyncJob_uninitialised env world s s0 e0 Hinit). split.
      * intros e s'. split.
        -- intros Heq. left. inversion Heq. reflexivity.
        -- intros [Heq|(s0' & Heq & _)]; [inversion Heq; reflexivity | discriminate].
      * intros r s' Heq. discriminate.
Qed.

(** C9.  A pass that completes has fetched a meeting list, reports its length
    as [meetings_found], and its three counters add up to it. *)
Theorem counters_add_up `{Runtime} (env : Environment) (world : World)
    (s s' : Store) (r : SyncWorker.JobResult) :
  SyncWorker.processSyncJob env world s = (Return r, s') ->
  exists meetings,
    meet_getConferenceRecords world (SyncWorker.startDate env world)
      (SyncWorker.endDate world) = Return meetings
    /\ SyncWorker.meetings_found (SyncWorker.stats r) = length meetings
    /\ (SyncWorker.synced (SyncWorker.stats r)
        + SyncWorker.skipped (SyncWorker.stats r)
        + SyncWorker.failed (SyncWorker.stats r)
        = SyncWorker.meetings_found (SyncWorker.stats r))%nat.
Proof.
  intros Hrun.
  destruct (SyncWorker.initializeServices env world s) as [[[]|e] s0] eqn:Hinit.
  2:{ rewrite (processSyncJob_uninitialised env world s s0 e Hinit) in Hrun.
      discriminate. }
  rewrite (processSyncJob_initialised env world s s0 Hinit) in Hrun. cbv zeta in Hrun.
  destruct (meet_getConferenceRecords world _ _) as [meetings|e]; [|discriminate].
  exists meetings. split; [reflexivity|].
  destruct meetings as [|m ms].
  - cbn in Hrun. inversion Hrun. cbn. repeat split; reflexivity.
  - cbn [length Nat.eqb] in Hrun.
    destruct (SyncWorker.fetchExistingEntries env world _) as [[ex|e1] s2];
      [|discriminate].
    destruct (syncMeetings_spec env world ex (m :: ms) zeroCounters s2)
      as (c & s3 & t & Hloop & _ & _ & Hn & _).
    unfold SyncWorker.reconcile, bind in Hrun. rewrite Hloop in Hrun.
    unfold ret in Hrun. inversion Hrun. cbn.
    unfold counted in Hn. cbn in Hn. split; [reflexivity | lia].
Qed.

(* ===================================================================== *)
(** ** Aggregation of the sessions of a meeting *)
(* ===================================================================== *)

Section Aggregation.
Context `{Runtime}.
Variable GOOGLE_USER_EMAIL : string.
Variable api : GoogleMeet.Api.

Import GoogleMeet.

Lemma aggregate_None (name : string) (space : option Space)
    (sessions : list ParticipantSession) :
  sessionTimes sessions = [] -> aggregate name space sessions = None.
Proof.
  intros E. unfold aggregate. rewrite E. now destruct (0 <? length sessions)%nat.
Qed.

Lemma aggregate_Some (name : string) (space : option Space)
    (sessions : list ParticipantSession) (m : MeetingSession) :
  aggregate name space sessions = Some m ->
  meetingId m = name /\ sessionTimes sessions <> [].
Proof.
  unfold aggregate. destruct (0 <? length sessions)%nat; [|discriminate].
  destruct (sessionTimes sessions) as [|t ts]; [discriminate|].
  intros E. inversion E. cbn. split; [reflexivity | discriminate].
Qed.

(** Where the meetings of a page come from. *)
Lemma processRecords_origin (records : list ApiConferenceRecord) :
  forall (meetings result : list MeetingSession),
    processRecords GOOGLE_USER_EMAIL api records meetings = Return result ->
    forall m, In m result ->
      In m meetings
      \/ exists name space sessions,
           getUserParticipantSessions GOOGLE_USER_EMAIL api true name = Return sessions
           /\ aggregate name space sessions = Some m.
Proof.
  induction records as [|record records IH]; intros meetings result Hrun m Hm.
  - cbn in Hrun. inversion Hrun; subst. now left.
  - cbn [processRecords] in Hrun.
    destruct (record_name record) as [name|]; [|now apply (IH _ _ Hrun)].
    destruct (negb (truthy name) || negb (truthy_opt (record_startTime record)));
      [now apply (IH _ _ Hrun)|].
    destruct (getUserParticipantSessions GOOGLE_USER_EMAIL api true name)
      as [sessions|e] eqn:Hs; [|discriminate].
    destruct (IH _ _ Hrun m Hm) as [Hin|Hnew]; [|now right].
    apply in_app_or in Hin as [Hin|Hin]; [now left|].
    destruct (aggregate name (record_space record) sessions) as [m'|] eqn:Ha;
      [|destruct Hin].
    destruct Hin as [<-|[]]. right. now exists name, (record_space record), sessions.
Qed.

Lemma listPages_origin (fuel : nat) :
  forall (pageToken : option string) (meetings result : list MeetingSession),
    listPages GOOGLE_USER_EMAIL api fuel pageToken meetings = Some (Return result) ->
    forall m, In m result ->
      In m meetings
      \/ exists name space sessions,
           getUserParticipantSessions GOOGLE_USER_EMAIL api true name = Return sessions
           /\ aggregate name space sessions = Some m.
Proof.
  induction fuel as [|fuel IH]; intros pageToken meetings result Hrun m Hm;
    [discriminate|].
  cbn [listPages] in Hrun.
  destruct (conferenceRecords_list api pageToken) as [response|e]; [|discriminate].
  destruct (processRecords GOOGLE_USER_EMAIL api _ meetings) as [meetings'|e] eqn:Hp;
    [|discriminate].
  assert (In m meetings' ->
          In m meetings
          \/ exists name space sessions,
               getUserParticipantSessions GOOGLE_USER_EMAIL api true name = Return sessions
               /\ aggregate name space sessions = Some m) as Hpage
    by (apply (processRecords_origin _ _ _ Hp)).
  destruct (truthy_opt (or_null (nextPageToken response))).
  - destruct (IH _ _ _ Hrun m Hm) as [Hin|Hnew]; [now apply Hpage | now right].
  - inversion Hrun; subst. now apply Hpage.
Qed.

(** The filter of [sessionTimes], lines 160-165, is the filter of the
    specification. *)
Lemma sessionTimes_filtered (sessions : list ParticipantSession) :
  sessionTimes sessions = filtered_sessions sessions.
Proof.
  induction sessions as [|session rest IH]; [reflexivity|].
  unfold sessionTimes, filtered_sessions in *. cbn [List.filter flat_map].
  rewrite <- IH. unfold start_instant, end_instant.
  destruct session as [n [|a st] [[|b e]|]]; reflexivity.
Qed.

End Aggregation.

(** C4, as amended.  When the sessions with both a start and a non-null end
    instant are not empty, the aggregation yields a meeting whose start is
    the least of their starts, whose end is the greatest of their ends, and
    whose duration is the floor of their difference in seconds.  The duration
    is not negative exactly when the aggregated end is not before the
    aggregated start, as it is when every such session ends no earlier than
    it starts; the code does not check that. *)
Theorem aggregation_postcondition `{Runtime} (name : string)
    (space : option GoogleMeet.Space) (sessions : list GoogleMeet.ParticipantSession) :
  filtered_sessions sessions <> [] ->
  exists m,
    GoogleMeet.aggregate name space sessions = Some m
    /\ GoogleMeet.meetingId m = name
    /\ is_min (GoogleMeet.startTime m) (List.map fst (filtered_sessions sessions))
    /\ is_max (GoogleMeet.endTime m) (List.map snd (filtered_sessions sessions))
    /\ GoogleMeet.duration m = (GoogleMeet.endTime m - GoogleMeet.startTime m) / 1000
    /\ 1000 * GoogleMeet.duration m <= GoogleMeet.endTime m - GoogleMeet.startTime m
       < 1000 * GoogleMeet.duration m + 1000
    /\ (0 <= GoogleMeet.duration m <-> GoogleMeet.startTime m <= GoogleMeet.endTime m)
    /\ (Forall (fun t => fst t <= snd t) (filtered_sessions sessions) ->
        0 <= GoogleMeet.duration m).
Proof.
  rewrite <- (sessionTimes_filtered sessions).
  intros Hne. unfold GoogleMeet.aggregate.
  assert ((0 <? length sessions)%nat = true) as ->.
  { destruct sessions; [now contradiction Hne | reflexivity]. }
  destruct (GoogleMeet.sessionTimes sessions) as [|t ts] eqn:E; [now contradiction Hne|].
  eexists. split; [reflexivity|]. cbn.
  pose proof (Math_min_is_min (fst t) (List.map fst ts)) as Hmin.
  pose proof (Math_max_is_max (snd t) (List.map snd ts)) as Hmax.
  split; [reflexivity|]. split; [exact Hmin|]. split; [exact Hmax|].
  split; [reflexivity|].
  pose proof (Z.div_mod (Math_max (snd t) (List.map snd ts)
                         - Math_min (fst t) (List.map fst ts)) 1000 ltac:(lia)) as Hdiv.
  pose proof (Z.mod_pos_bound (Math_max (snd t) (List.map snd ts)
                               - Math_min (fst t) (List.map fst ts)) 1000 ltac:(lia))
    as Hmod.
  split; [lia|]. split; [lia|].
  intros Hall. apply Z.div_pos; [|lia].
  inversion Hall as [|? ? Ht _]; subst.
  destruct Hmin as [_ Hmin]. destruct Hmax as [_ Hmax].
  specialize (Hmin (fst t) ltac:(now left)).
  specialize (Hmax (snd t) ltac:(now left)). lia.
Qed.

(** C5.  When no session has both a start and an end, the aggregation yields
    nothing, in particular for a single session whose end is null, as the
    session collector leaves it when the provider reports no end; the record
    adds nothing to the meetings of its page, and no meeting with that
    identifier is among the meetings [getConferenceRecords] returns. *)
Theorem empty_aggregation_drops_meeting `{Runtime} (GOOGLE_USER_EMAIL : string)
    (api : GoogleMeet.Api) :
  (forall name space sessions,
     GoogleMeet.sessionTimes sessions = [] ->
     GoogleMeet.aggregate name space sessions = None)
  /\ (forall name space session_name start,
        GoogleMeet.aggregate name space
          [ {| GoogleMeet.session_name := session_name;
               GoogleMeet.session_startTime := start;
               GoogleMeet.session_endTime := None |} ] = None)
  /\ (forall session_name start,
        GoogleMeet.sessionTimes
          (GoogleMeet.collectSessions
             [ {| GoogleMeet.api_session_name := session_name;
                  GoogleMeet.api_session_startTime := start;
                  GoogleMeet.api_session_endTime := None |} ]) = [])
  /\ (forall record name sessions rest meetings,
        GoogleMeet.record_name record = Some name ->
        GoogleMeet.getUserParticipantSessions GOOGLE_USER_EMAIL api true name
          = Return sessions ->
        GoogleMeet.sessionTimes sessions = [] ->
        GoogleMeet.processRecords GOOGLE_USER_EMAIL api (record :: rest) meetings
        = GoogleMeet.processRecords GOOGLE_USER_EMAIL api rest meetings)
  /\ (forall name sessions fuel auth result,
        GoogleMeet.getUserParticipantSessions GOOGLE_USER_EMAIL api true name
          = Return sessions ->
        GoogleMeet.sessionTimes sessions = [] ->
        GoogleMeet.getConferenceRecords GOOGLE_USER_EMAIL api fuel auth
          = Some (Return result) ->
        forall m, In m result -> GoogleMeet.meetingId m <> name).
Proof.
  split; [|split; [|split; [|split]]].
  - intros name space sessions. apply aggregate_None.
  - intros name space session_name start. apply aggregate_None.
    unfold GoogleMeet.sessionTimes. cbn. now rewrite andb_false_r.
  - intros [n|] [st|]; cbn; try reflexivity.
    destruct (truthy n && truthy st); cbn; [|reflexivity].
    unfold GoogleMeet.sessionTimes. cbn. now rewrite andb_false_r.
  - intros record name sessions rest meetings Hname Hs Hempty.
    cbn [GoogleMeet.processRecords]. rewrite Hname.
    destruct (negb (truthy name) || negb (truthy_opt (GoogleMeet.record_startTime record)));
      [reflexivity|].
    rewrite Hs, (aggregate_None name _ sessions Hempty). now rewrite app_nil_r.
  - intros name sessions fuel auth result Hs Hempty Hrun m Hm Hid.
    unfold GoogleMeet.getConferenceRecords in Hrun.
    destruct (if auth then Return tt else GoogleMeet.initializeAuth api) as [u|e];
      [|discriminate].
    destruct (listPages_origin GOOGLE_USER_EMAIL api fuel None [] result Hrun m Hm)
      as [[]|(name' & space & sessions' & Hs' & Ha)].
    destruct (aggregate_Some name' space sessions' m Ha) as [Hid' Hne].
    assert (name' = name) as -> by congruence.
    rewrite Hs in Hs'. inversion Hs'; subst. now contradiction Hne.
Qed.

(* ===================================================================== *)
(** ** The project of the created entries *)
(* ===================================================================== *)

Section Project.
Context `{Runtime}.
Variable env : Environment.

Import GoogleMeet SyncWorker.

Ltac split_matches :=
  repeat (match goal with
          | H : (_, _) = (_, _) |- _ => inversion H; subst; clear H
          | H : context [match ?x with _ => _ end] |- _ => destruct x eqn:?; cbn in *
          end; try discriminate).

(** A completed [getOrCreateLeagueProject] has stored the identifier of a
    project: one of the listed projects whose name is the configured one up
    to case, or the project the tracker answered the creation with. *)
Lemma getOrCreateLeagueProject_resolves (remote : Remote) (s s' : Store) :
  getOrCreateLeagueProject env remote s = (Return tt, s') ->
  exists p : ClockifyProject,
    leagueProjectId (service s') = Some (project_id p)
    /\ workspaceId (service s') = workspaceId (service s)
    /\ truthy_opt (workspaceId (service s)) = true
    /\ (toLowerCase (project_name p) = toLowerCase (MEET_PROJECT_NAME env)
        \/ exists h ws st tx,
             post_project remote h ws (MEET_PROJECT_NAME env)
             = Response true st tx (Return p)).
Proof.
  unfold getOrCreateLeagueProject. unfold_js. cbn. intros Hrun.
  split_matches; cbn;
    match goal with
    | Hf : List.find _ _ = Some ?p |- _ =>
        exists p; apply find_some in Hf as [_ Hf]; apply String.eqb_eq in Hf
    | Hp : post_project _ _ _ _ = Response _ _ _ (Return ?p) |- _ => exists p
    end;
    (split; [cbn; congruence|]); (split; [cbn; congruence|]);
    match goal with
    | Hw : workspaceId _ = Some _, Ht : negb (truthy _) = false |- _ =>
        rewrite ?Hw; cbn; apply negb_false_iff in Ht; rewrite Ht
    end;
    (split; [reflexivity|]).
  - now left.
  - right. match goal with
           | Hok : negb ?ok = false, Hp : post_project _ ?h ?ws _ = Response ?ok ?st ?tx _ |- _ =>
               apply negb_false_iff in Hok; subst ok; now exists h, ws, st, tx
           end.
Qed.

Lemma bind_Return {A B : Type} (m : M A) (k : A -> M B) (s s' : Store) (b : B) :
  bind m k s = (Return b, s') ->
  exists a s1, m s = (Return a, s1) /\ k a s1 = (Return b, s').
Proof.
  unfold bind. destruct (m s) as [[a|e] s1]; [|discriminate].
  intros Hk. now exists a, s1.
Qed.

Ltac invert_run H :=
  lazymatch type of H with
  | bind _ _ _ = (Return _, _) =>
      let a := fresh "a" in
      let s1 := fresh "s" in
      let H1 := fresh "Hstep" in
      apply bind_Return in H as (a & s1 & H1 & H); invert_run H
  | (match ?x with _ => _ end) _ = (Return _, _) =>
      destruct x eqn:?; try discriminate H; invert_run H
  | _ => idtac
  end.

(** So has a completed [initialize], which ends with it. *)
Lemma initialize_resolves (remote : Remote) (s s' : Store) :
  initialize env remote s = (Return tt, s') ->
  exists p : ClockifyProject,
    leagueProjectId (service s') = Some (project_id p)
    /\ truthy_opt (workspaceId (service s')) = true.
Proof.
  unfold initialize. intros Hrun. invert_run Hrun.
  destruct (getOrCreateLeagueProject_resolves remote _ s' Hrun)
    as (p & Hp & Hw & Ht & _).
  exists p. split; [exact Hp|]. now rewrite Hw.
Qed.

Lemma getTimeEntriesForDateRange_service (remote : Remote) (a b : string) (s : Store) :
  service (snd (getTimeEntriesForDateRange remote a b s)) = service s.
Proof.
  unfold getTimeEntriesForDateRange. unfold_js. cbn.
  destruct (negb _ || negb _); [reflexivity|]. cbn.
  now destruct (time_entries remote _ _ _ _ _).
Qed.

Lemma attached_to_nil (pid : string) : attached_to pid [].
Proof. intros ws body ok []. Qed.

Lemma attached_to_app (pid : string) (t1 t2 : list Event) :
  attached_to pid t1 -> attached_to pid t2 -> attached_to pid (t1 ++ t2).
Proof.
  intros H1 H2 ws body ok Hin. apply in_app_or in Hin as [Hin|Hin]; eauto.
Qed.

Lemma attached_to_quiet (pid : string) (t : list Event) :
  free_of is_creation t -> attached_to pid t.
Proof. intros Hfree ws body ok Hin. apply Hfree in Hin. discriminate. Qed.

Lemma submitted_projectId (st : ClockifyState) (pid : string)
    (arg : CreateTimeEntryRequest) :
  leagueProjectId st = Some pid -> truthy pid = true ->
  submitted st arg = set_projectId pid arg.
Proof. intros Hp Ht. unfold submitted. rewrite Hp. cbn. now rewrite Ht. Qed.

(** Every entry the loop submits carries the project of the service. *)
Lemma syncMeetings_attached (world : World) (ex : list ClockifyTimeEntry)
    (ms : list MeetingSession) (c : Counters) (s : Store) (pid : string) :
  leagueProjectId (service s) = Some pid -> truthy pid = true ->
  exists t,
    events (snd (syncMeetings env world ex ms c s)) = t ++ events s
    /\ attached_to pid t.
Proof.
  intros Hp Ht.
  destruct (syncMeetings_spec env world ex ms c s)
    as (c' & s' & t & Hloop & _ & Hev & _ & _ & _ & _ & Hdry & Hwet).
  rewrite Hloop. cbn. exists t. split; [exact Hev|].
  destruct (DRY_RUN env) eqn:D.
  - destruct (Hdry eq_refl) as [-> _].
    assert (t = []) as -> by (apply (app_inv_tail (events s)); now rewrite <- Hev).
    apply attached_to_nil.
  - destruct (Hwet eq_refl) as (_ & Hposts & _).
    intros ws body ok Hin. destruct (Hposts ws body ok Hin) as (m & _ & ->).
    now rewrite (submitted_projectId _ pid _ Hp Ht).
Qed.

End Project.

(** C10.  A completed [getOrCreateLeagueProject] has stored the identifier
    of the project found or created.  With a stored identifier that is not
    the empty string, [createTimeEntry] on an initialised service replaces
    the [projectId] of the caller's object by it, whatever it was, before it
    submits that object: the caller sees the change whether or not the
    submission succeeds.  Hence every entry a pass submits carries the
    project stored by its initialisation. *)
Theorem created_entries_carry_the_project `{Runtime} (env : Environment) :
  (forall (remote : Remote) (s s' : Store),
     getOrCreateLeagueProject env remote s = (Return tt, s') ->
     exists p : ClockifyProject,
       leagueProjectId (service s') = Some (project_id p)
       /\ (toLowerCase (project_name p) = toLowerCase (MEET_PROJECT_NAME env)
           \/ exists h ws st tx,
                post_project remote h ws (MEET_PROJECT_NAME env)
                = Response true st tx (Return p)))
  /\ (forall (remote : Remote) (s : Store) (entry : nat)
             (arg : CreateTimeEntryRequest) (pid : string),
        heap s !! entry = Some arg ->
        truthy_opt (workspaceId (service s)) = true ->
        leagueProjectId (service s) = Some pid ->
        truthy pid = true ->
        exists out s' ok,
          createTimeEntry remote entry s = (out, s')
          /\ heap s' !! entry = Some (set_projectId pid arg)
          /\ projectId (set_projectId pid arg) = Some pid
          /\ events s'
             = PostTimeEntry (or_empty (workspaceId (service s)))
                 (set_projectId pid arg) ok
               :: CallCreateTimeEntry arg :: events s)
  /\ (forall (world : World) (s s0 : Store),
        SyncWorker.initializeServices env world s = (Return tt, s0) ->
        exists pid,
          leagueProjectId (service s0) = Some pid
          /\ (truthy pid = true ->
              exists t,
                events (snd (SyncWorker.processSyncJob env world s)) = t ++ events s0
                /\ attached_to pid t)).
Proof.
  split; [|split].
  - intros remote s s' Hrun.
    destruct (getOrCreateLeagueProject_resolves env remote s s' Hrun)
      as (p & Hp & _ & _ & Hwhich).
    exists p. now split.
  - intros remote s entry arg pid Hlive Hws Hp Ht.
    destruct (createTimeEntry_spec remote entry s arg Hlive)
      as (out & s' & t & Hrun & _ & Hev & [(Hno & _)|(_ & ok & -> & Hheap & _)]);
      [congruence|].
    rewrite (submitted_projectId _ pid _ Hp Ht) in *.
    exists out, s', ok. repeat split; assumption.
  - intros world s s0 Hinit.
    assert (exists p : ClockifyProject,
              leagueProjectId (service s0) = Some (project_id p)) as [p Hp].
    { unfold SyncWorker.initializeServices in Hinit. unfold bind at 1 2 3 in Hinit.
      unfold set_state at 1, emit at 1 in Hinit. cbn in Hinit.
      destruct (meet_initialize world) as [[]|e]; cbn in Hinit; [|discriminate].
      destruct (initialize_resolves env (clockify world) _ s0 Hinit) as (p & Hp & _).
      now exists p. }
    exists (project_id p). split; [exact Hp|]. intros Ht.
    rewrite (processSyncJob_initialised env world s s0 Hinit). cbv zeta.
    set (s1 := record _ s0).
    destruct (meet_getConferenceRecords world _ _) as [meetings|e].
    + destruct (length meetings =? 0)%nat.
      * exists [GetConferenceRecords (SyncWorker.startDate env world)
                 (SyncWorker.endDate world)].
        split; [reflexivity|]. now apply attached_to_quiet; intros ev [<-|[]].
      * pose proof (getTimeEntriesForDateRange_service (clockify world)
                      (isoDate (SyncWorker.startDate env world))
                      (isoDate (SyncWorker.endDate world)) s1) as Hsv.
        destruct (fetchExistingEntries_creates_nothing env world s1) as (t1 & Hev1 & Hf1).
        unfold SyncWorker.fetchExistingEntries in *.
        destruct (getTimeEntriesForDateRange (clockify world) _ _ s1) as [[ex|e] s2];
          cbn in Hsv, Hev1.
        -- destruct (syncMeetings_attached env world ex meetings zeroCounters s2
                       (project_id p)) as (t2 & Hev2 & Ha2); [congruence | exact Ht |].
           unfold SyncWorker.reconcile, bind.
           destruct (SyncWorker.syncMeetings env world ex meetings zeroCounters s2)
             as [[c|e] s3]; cbn in *;
             exists (t2 ++ t1 ++ [GetConferenceRecords (SyncWorker.startDate env world)
                                    (SyncWorker.endDate world)]);
             (split; [rewrite Hev2, Hev1, <- !app_assoc; reflexivity|]);
             (apply attached_to_app; [exact Ha2|]);
             (apply attached_to_app; [now apply attached_to_quiet|]);
             now apply attached_to_quiet; intros ev [<-|[]].
        -- cbn. exists (t1 ++ [GetConferenceRecords (SyncWorker.startDate env world)
                                 (SyncWorker.endDate world)]).
           split; [rewrite Hev1, <- app_assoc; reflexivity|].
           apply attached_to_app; [now apply attached_to_quiet|].
           now apply attached_to_quiet; intros ev [<-|[]].
    + cbn. exists [GetConferenceRecords (SyncWorker.startDate env world)
                     (SyncWorker.endDate world)].
      split; [reflexivity|]. now apply attached_to_quiet; intros ev [<-|[]].
Qed.

(* ===================================================================== *)
(** ** The statements at concrete inputs *)
(* ===================================================================== *)

Section Examples.
#[local] Existing Instance Host.runtime.

Import GoogleMeet SyncWorker Fixture.



(** C6 at a concrete input: no meeting in the window. *)
Lemma zero_candidates_short_circuit_witness :
  let world := world_of (Return []) (tracker [entry_with "Lunch"] always) in
  initializeServices env_live world store0
    = (Return tt, snd (initializeServices env_live world store0))
  /\ fst (processSyncJob env_live world store0)
     = Return {| status := "success"; message := "No meetings found";
                 stats := {| meetings_found := 0; synced := 0; skipped := 0; failed := 0;
                             total_in_clockify := None |};
                 dry_run := None |}
  /\ exists t,
       events (snd (processSyncJob env_live world store0)) = t ++ events store0
       /\ free_of touches_entries t.
Proof.
  cbv zeta.
  assert (initializeServices env_live
            (world_of (Return []) (tracker [entry_with "Lunch"] always)) store0
          = (Return tt,
             snd (initializeServices env_live
                    (world_of (Return []) (tracker [entry_with "Lunch"] always)) store0)))
    as Hinit by (vm_compute; reflexivity).
  split; [exact Hinit|].
  destruct (zero_candidates_short_circuit env_live
              (world_of (Return []) (tracker [entry_with "Lunch"] always))
              store0 _ Hinit eq_refl) as [Hrun Htrace].
  split; [now rewrite Hrun | exact Htrace].
Defined.

(** C7 at a concrete input: three new meetings in a dry run. *)
Lemma dry_run_creates_nothing_witness :
  let world := world_of (Return [meeting_a; meeting_b; meeting_c]) (tracker [] always) in
  DRY_RUN env_dry = true
  /\ (exists r,
        reconcile env_dry world [] [meeting_a; meeting_b; meeting_c] store_ready
        = (Return r, store_ready)
        /\ synced (stats r) = 3%nat /\ failed (stats r) = 0%nat)
  /\ (exists t,
        events (snd (processSyncJob env_dry world store0)) = t ++ events store0
        /\ creations t = 0%nat).
Proof.
  cbv zeta. split; [reflexivity|].
  destruct (dry_run_creates_nothing env_dry
              (world_of (Return [meeting_a; meeting_b; meeting_c]) (tracker [] always))
              eq_refl) as [Hloop Hpass].
  split.
  - destruct (Hloop [] [meeting_a; meeting_b; meeting_c] store_ready)
      as (r & Hr & Hs & Hf & _).
    exists r. split; [exact Hr|]. split; [exact Hs | exact Hf].
  - destruct (Hpass store0) as (t & Hev & _ & Hc). exists t. now split.
Defined.

(** The dry run of the specification: three new meetings, [synced = 3]. *)
Example dry_run_three_new_meetings :
  fst (processSyncJob env_dry
         (world_of (Return [meeting_a; meeting_b; meeting_c]) (tracker [] always)) store0)
  = Return {| status := "success"; message := "Sync completed";
              stats := {| meetings_found := 3; synced := 3; skipped := 0; failed := 0;
                          total_in_clockify := Some 3%nat |};
              dry_run := Some true |}
  /\ creations (events (snd (processSyncJob env_dry
         (world_of (Return [meeting_a; meeting_b; meeting_c]) (tracker [] always)) store0)))
     = 0%nat.
Proof. split; vm_compute; reflexivity. Qed.

(** The partial failure of the specification: the creation for the second of
    three meetings fails. *)
Example second_of_three_fails :
  fst (processSyncJob env_live
         (world_of (Return [meeting_a; meeting_b; meeting_c]) (tracker [] all_but_second))
         store0)
  = Return {| status := "success"; message := "Sync completed";
              stats := {| meetings_found := 3; synced := 2; skipped := 0; failed := 1;
                          total_in_clockify := Some 2%nat |};
              dry_run := Some false |}
  /\ creations (events (snd (processSyncJob env_live
         (world_of (Return [meeting_a; meeting_b; meeting_c]) (tracker [] all_but_second))
         store0))) = 3%nat.
Proof. split; vm_compute; reflexivity. Qed.

(** C8 fails as stated.  The time tracker refuses the request for the user,
    so the initialisation of the Clockify service throws and the pass throws
    with it, before any fetch: the meeting fetch would have returned a
    meeting, and the fetch of the existing entries does not fail on an
    initialised service. *)
Lemma failed_initialisation_fails_the_pass :
  let locked :=
    {| get_user := fun _ => Response false "Unauthorized" "" (Throw "no body");
       get_workspaces := get_workspaces (tracker [] always);
       get_projects := get_projects (tracker [] always);
       post_project := post_project (tracker [] always);
       time_entries := time_entries (tracker [] always);
       post_time_entry := post_time_entry (tracker [] always) |} in
  let world := world_of (Return [meeting_a]) locked in
  processSyncJob env_live world store0
  = (Throw "Failed to get Clockify user info: Unauthorized",
     {| service := createClockifyService "token"; heap := heap store0;
        events := [GetUser; MeetInitialize] |})
  /\ meet_getConferenceRecords world (startDate env_live world) (endDate world)
     = Return [meeting_a]
  /\ fst (fetchExistingEntries env_live world store_ready) = Return [].
Proof. cbv zeta. split; [|split]; vm_compute; reflexivity. Qed.

(** C8 at a concrete input: the tracker rejects the creation for the first
    of two meetings; the loop goes on with the second. *)
Lemma creation_failure_is_isolated_witness :
  let world := world_of (Return [meeting_a; meeting_b]) (tracker [] never) in
  alreadySynced [] (meetingIdentifier meeting_a) = false
  /\ DRY_RUN env_live = false
  /\ attempt world meeting_a store_ready
     = (Throw "Failed to create time entry: Internal Server Error - try again",
        snd (attempt world meeting_a store_ready))
  /\ exists s',
       (s' = snd (attempt world meeting_a store_ready)
        \/ s' = record (Sleep 200) (snd (attempt world meeting_a store_ready)))
       /\ syncMeetings env_live world [] [meeting_a; meeting_b] zeroCounters store_ready
          = syncMeetings env_live world [] [meeting_b] (incr_failed zeroCounters) s'.
Proof.
  cbv zeta. split; [reflexivity|]. split; [reflexivity|].
  assert (attempt (world_of (Return [meeting_a; meeting_b]) (tracker [] never))
            meeting_a store_ready
          = (Throw "Failed to create time entry: Internal Server Error - try again",
             snd (attempt (world_of (Return [meeting_a; meeting_b]) (tracker [] never))
                    meeting_a store_ready))) as Hattempt
    by (vm_compute; reflexivity).
  split; [exact Hattempt|].
  exact (proj1 (creation_failure_is_isolated env_live
                  (world_of (Return [meeting_a; meeting_b]) (tracker [] never)))
           [] meeting_a [meeting_b] zeroCounters store_ready _ _
           eq_refl eq_refl Hattempt).
Defined.

(** C9 at a concrete input: the pass in which the second creation fails. *)
Lemma counters_add_up_witness :
  let world := world_of (Return [meeting_a; meeting_b; meeting_c])
                 (tracker [] all_but_second) in
  let r := {| status := "success"; message := "Sync completed";
              stats := {| meetings_found := 3; synced := 2; skipped := 0; failed := 1;
                          total_in_clockify := Some 2%nat |};
              dry_run := Some false |} in
  processSyncJob env_live world store0
    = (Return r, snd (processSyncJob env_live world store0))
  /\ exists meetings,
       meet_getConferenceRecords world (startDate env_live world) (endDate world)
       = Return meetings
       /\ meetings_found (stats r) = length meetings
       /\ (synced (stats r) + skipped (stats r) + failed (stats r)
           = meetings_found (stats r))%nat.
Proof.
  cbv zeta.
  assert (processSyncJob env_live
            (world_of (Return [meeting_a; meeting_b; meeting_c]) (tracker [] all_but_second))
            store0
          = (Return {| status := "success"; message := "Sync completed";
                       stats := {| meetings_found := 3; synced := 2; skipped := 0;
                                   failed := 1; total_in_clockify := Some 2%nat |};
                       dry_run := Some false |},
             snd (processSyncJob env_live
                    (world_of (Return [meeting_a; meeting_b; meeting_c])
                       (tracker [] all_but_second)) store0))) as Hrun
    by (vm_compute; reflexivity).
  split; [exact Hrun|].
  exact (counters_add_up env_live _ store0 _ _ Hrun).
Defined.

(** The aggregation of the specification: 10:00-10:20 and 10:25-10:40 give
    10:00-10:40 and 2400 seconds, not the 2100 seconds the sessions add up
    to. *)
Example aggregation_of_two_sessions :
  aggregate "conferenceRecords/a" None two_sessions
  = Some {| meetingId := "conferenceRecords/a"; meetingCode := ""; meetingUri := "";
            startTime := Host.parse "2025-10-18T10:00:00Z";
            endTime := Host.parse "2025-10-18T10:40:00Z";
            duration := 2400 |}
  /\ fold_right (fun t acc => (snd t - fst t) / 1000 + acc) 0 (sessionTimes two_sessions)
     = 2100.
Proof. split; vm_compute; reflexivity. Qed.

(** C4 fails as stated.  One session of the user is reported with an end
    an hour before its start: it passes the filter, and the duration of the
    meeting produced is negative. *)
Lemma backwards_session_gives_negative_duration :
  let sessions := [session "s1" "2025-10-18T11:00:00Z" (Some "2025-10-18T10:00:00Z")] in
  filtered_sessions sessions = [(1760785200000, 1760781600000)]
  /\ aggregate "conferenceRecords/a" None sessions
     = Some {| meetingId := "conferenceRecords/a"; meetingCode := ""; meetingUri := "";
               startTime := 1760785200000; endTime := 1760781600000;
               duration := -3600 |}
  /\ -3600 < 0.
Proof. cbv zeta. split; [vm_compute; reflexivity|]. split; [vm_compute; reflexivity | lia]. Qed.

(** C4 as amended, at a concrete input. *)
Lemma aggregation_postcondition_witness :
  filtered_sessions two_sessions <> []
  /\ Forall (fun t => fst t <= snd t) (filtered_sessions two_sessions)
  /\ exists m,
       aggregate "conferenceRecords/a" None two_sessions = Some m
       /\ startTime m = 1760781600000
       /\ endTime m = 1760784000000
       /\ duration m = 2400
       /\ 0 <= duration m.
Proof.
  assert (filtered_sessions two_sessions <> []) as Hne by (vm_compute; discriminate).
  assert (Forall (fun t => fst t <= snd t) (filtered_sessions two_sessions)) as Hall.
  { vm_compute. repeat constructor; discriminate. }
  split; [exact Hne|]. split; [exact Hall|].
  destruct (aggregation_postcondition "conferenceRecords/a" None two_sessions Hne)
    as (m & Hm & _ & _ & _ & _ & _ & _ & Hpos).
  exists m. split; [exact Hm|].
  assert (m = {| meetingId := "conferenceRecords/a"; meetingCode := ""; meetingUri := "";
                 startTime := 1760781600000; endTime := 1760784000000;
                 duration := 2400 |}) as Hval.
  { vm_compute in Hm. now inversion Hm. }
  split; [now rewrite Hval|]. split; [now rewrite Hval|].
  split; [now rewrite Hval | exact (Hpos Hall)].
Defined.

(** C5 at a concrete input: the conference in which the user's only session
    is still open yields no meeting, the other one does. *)
Lemma empty_aggregation_drops_meeting_witness :
  getUserParticipantSessions "ann@example.com" meet_api true "conferenceRecords/open"
    = Return [session "s0" "2025-10-18T11:00:00Z" None]
  /\ sessionTimes [session "s0" "2025-10-18T11:00:00Z" None] = []
  /\ getConferenceRecords "ann@example.com" meet_api 1 true
     = Some (Return [ {| meetingId := "conferenceRecords/a";
                         meetingCode := "abc-defg-hij"; meetingUri := "";
                         startTime := 1760781600000; endTime := 1760784000000;
                         duration := 2400 |} ])
  /\ forall m,
       In m [ {| meetingId := "conferenceRecords/a";
                 meetingCode := "abc-defg-hij"; meetingUri := "";
                 startTime := 1760781600000; endTime := 1760784000000;
                 duration := 2400 |} ] ->
       meetingId m <> "conferenceRecords/open".
Proof.
  assert (getUserParticipantSessions "ann@example.com" meet_api true
            "conferenceRecords/open"
          = Return [session "s0" "2025-10-18T11:00:00Z" None]) as Hs
    by (vm_compute; reflexivity).
  assert (sessionTimes [session "s0" "2025-10-18T11:00:00Z" None] = []) as Hempty
    by (vm_compute; reflexivity).
  assert (getConferenceRecords "ann@example.com" meet_api 1 true
          = Some (Return [ {| meetingId := "conferenceRecords/a";
                              meetingCode := "abc-defg-hij"; meetingUri := "";
                              startTime := 1760781600000; endTime := 1760784000000;
                              duration := 2400 |} ])) as Hrun
    by (vm_compute; reflexivity).
  split; [exact Hs|]. split; [exact Hempty|]. split; [exact Hrun|].
  exact (proj2 (proj2 (proj2 (proj2
           (empty_aggregation_drops_meeting "ann@example.com" meet_api))))
           "conferenceRecords/open" _ 1%nat true _ Hs Hempty Hrun).
Defined.

(** C10 at a concrete input: the caller's request names a project of its
    own; after the call it names the project of the service, and so does the
    submitted entry. *)
Lemma created_entries_carry_the_project_witness :
  let s := {| service := service store_ready;
              heap := {[ 0%nat := request_with_project ]};
              events := [] |} in
  heap s !! 0%nat = Some request_with_project
  /\ truthy_opt (workspaceId (service s)) = true
  /\ leagueProjectId (service s) = Some "project-1"
  /\ truthy "project-1" = true
  /\ exists out s' ok,
       createTimeEntry (tracker [] always) 0%nat s = (out, s')
       /\ heap s' !! 0%nat = Some (set_projectId "project-1" request_with_project)
       /\ projectId (set_projectId "project-1" request_with_project) = Some "project-1"
       /\ events s'
          = [PostTimeEntry "workspace-1" (set_projectId "project-1" request_with_project) ok;
             CallCreateTimeEntry request_with_project].
Proof.
  cbv zeta.
  assert (({[ 0%nat := request_with_project ]} : gmap nat CreateTimeEntryRequest) !! 0%nat
          = Some request_with_project) as Hlive by apply lookup_singleton_eq.
  split; [exact Hlive|]. split; [reflexivity|]. split; [reflexivity|].
  split; [reflexivity|].
  exact (proj1 (proj2 (created_entries_carry_the_project env_live))
           (tracker [] always)
           {| service := service store_ready;
              heap := {[ 0%nat := request_with_project ]};
              events := [] |}
           0%nat request_with_project "project-1" Hlive eq_refl eq_refl eq_refl).
Defined.

End Examples.

(* ===================================================================== *)
(** ** Further properties: durations, tags, aggregation *)
(* ===================================================================== *)

(** X1.  For a duration that is not negative, [formatDuration] splits it into
    whole hours and the whole minutes of the rest: the minutes are below 60
    and what is dropped is less than a minute. *)
Theorem formatDuration_decomposes (seconds : Z) :
  0 <= seconds ->
  0 <= Common.hours (Common.formatDuration seconds)
  /\ 0 <= Common.minutes (Common.formatDuration seconds) < 60
  /\ 3600 * Common.hours (Common.formatDuration seconds)
     + 60 * Common.minutes (Common.formatDuration seconds) <= seconds
     < 3600 * Common.hours (Common.formatDuration seconds)
       + 60 * Common.minutes (Common.formatDuration seconds) + 60.
Proof.
  intros Hpos. unfold Common.formatDuration. cbn.
  rewrite Z.rem_mod_nonneg by lia.
  pose proof (Z.div_mod seconds 3600 ltac:(lia)) as Hh.
  pose proof (Z.mod_pos_bound seconds 3600 ltac:(lia)) as Hr.
  pose proof (Z.div_mod (seconds mod 3600) 60 ltac:(lia)) as Hm.
  pose proof (Z.mod_pos_bound (seconds mod 3600) 60 ltac:(lia)) as Hs.
  assert (0 <= seconds / 3600) by (apply Z.div_pos; lia).
  assert (0 <= (seconds mod 3600) / 60) by (apply Z.div_pos; lia).
  assert ((seconds mod 3600) / 60 < 60) by (apply Z.div_lt_upper_bound; lia).
  lia.
Qed.

Lemma formatDuration_decomposes_witness :
  0 <= 5459
  /\ Common.formatDuration 5459 = {| Common.hours := 1; Common.minutes := 30 |}
  /\ 3600 * Common.hours (Common.formatDuration 5459)
     + 60 * Common.minutes (Common.formatDuration 5459) <= 5459
     < 3600 * Common.hours (Common.formatDuration 5459)
       + 60 * Common.minutes (Common.formatDuration 5459) + 60.
Proof.
  split; [lia|]. split; [reflexivity|].
  exact (proj2 (proj2 (formatDuration_decomposes 5459 ltac:(lia)))).
Defined.

Section TagFacts.

Lemma append_inj_l (p a b : string) : p +:+ a = p +:+ b -> a = b.
Proof.
  induction p as [|c p IH]; intros E; [exact E|].
  rewrite !append_cons in E. inversion E. now apply IH.
Qed.

Lemma append_length (a b : string) :
  String.length (a +:+ b) = (String.length a + String.length b)%nat.
Proof.
  induction a as [|c a IH]; [reflexivity|].
  rewrite append_cons. cbn. now rewrite IH.
Qed.

Lemma append_inj_r (a b q : string) : a +:+ q = b +:+ q -> a = b.
Proof.
  revert b. induction a as [|c a IH]; intros [|d b] E.
  - reflexivity.
  - apply (f_equal String.length) in E. rewrite !append_length in E. cbn in E. lia.
  - apply (f_equal String.length) in E. rewrite !append_length in E. cbn in E. lia.
  - rewrite !append_cons in E. inversion E. f_equal. now apply IH.
Qed.

End TagFacts.

(** X2.  The tag of the worker determines the meeting identifier: two
    meetings with the same tag have the same identifier, so the tags of
    meetings with different identifiers differ. *)
Theorem worker_tag_determines_meeting (m m' : GoogleMeet.MeetingSession) :
  SyncWorker.meetingIdentifier m = SyncWorker.meetingIdentifier m' ->
  GoogleMeet.meetingId m = GoogleMeet.meetingId m'.
Proof.
  unfold SyncWorker.meetingIdentifier. intros E.
  apply append_inj_l in E. now apply append_inj_r in E.
Qed.

Lemma worker_tag_determines_meeting_witness :
  SyncWorker.meetingIdentifier Fixture.meeting_a
    = SyncWorker.meetingIdentifier Fixture.meeting_a_earlier
  /\ GoogleMeet.meetingId Fixture.meeting_a
     = GoogleMeet.meetingId Fixture.meeting_a_earlier.
Proof.
  assert (SyncWorker.meetingIdentifier Fixture.meeting_a
          = SyncWorker.meetingIdentifier Fixture.meeting_a_earlier) as E
    by reflexivity.
  split; [exact E|].
  exact (worker_tag_determines_meeting _ _ E).
Defined.

Section AggregationFacts.
Context `{Runtime}.

Import GoogleMeet.

(** The aggregation only looks at the sessions with both instants. *)
Lemma aggregate_by_times (name : string) (space : option Space)
    (sessions sessions' : list ParticipantSession) :
  sessionTimes sessions = sessionTimes sessions' ->
  aggregate name space sessions = aggregate name space sessions'.
Proof.
  intros E. unfold aggregate. rewrite <- E.
  destruct (sessionTimes sessions) as [|t ts] eqn:Et.
  - now destruct (0 <? length sessions)%nat, (0 <? length sessions')%nat.
  - assert ((0 <? length sessions)%nat = true) as ->.
    { destruct sessions; [discriminate Et | reflexivity]. }
    assert ((0 <? length sessions')%nat = true) as ->.
    { destruct sessions'; [discriminate E | reflexivity]. }
    reflexivity.
Qed.

Lemma is_min_unique (x y : Z) (l : list Z) : is_min x l -> is_min y l -> x = y.
Proof.
  intros [Hx Hlx] [Hy Hly]. specialize (Hlx y Hy). specialize (Hly x Hx). lia.
Qed.

Lemma is_max_unique (x y : Z) (l : list Z) : is_max x l -> is_max y l -> x = y.
Proof.
  intros [Hx Hlx] [Hy Hly]. specialize (Hlx y Hy). specialize (Hly x Hx). lia.
Qed.

Lemma is_min_Permutation (x : Z) (l l' : list Z) :
  Permutation l l' -> is_min x l -> is_min x l'.
Proof.
  intros Hp [Hin Hle]. split.
  - now apply (Permutation_in _ Hp).
  - intros y Hy. apply Hle. now apply (Permutation_in _ (Permutation_sym Hp)).
Qed.

Lemma is_max_Permutation (x : Z) (l l' : list Z) :
  Permutation l l' -> is_max x l -> is_max x l'.
Proof.
  intros Hp [Hin Hle]. split.
  - now apply (Permutation_in _ Hp).
  - intros y Hy. apply Hle. now apply (Permutation_in _ (Permutation_sym Hp)).
Qed.

Lemma filter_Permutation {A : Type} (f : A -> bool) (l l' : list A) :
  Permutation l l' -> Permutation (List.filter f l) (List.filter f l').
Proof.
  induction 1 as [|x l l' Hp IH|x y l|l l' l'' Hp1 IH1 Hp2 IH2]; cbn.
  - constructor.
  - destruct (f x); [now constructor | exact IH].
  - destruct (f x), (f y); try reflexivity. apply perm_swap.
  - now transitivity (List.filter f l').
Qed.

Lemma sessionTimes_Permutation (sessions sessions' : list ParticipantSession) :
  Permutation sessions sessions' ->
  Permutation (sessionTimes sessions) (sessionTimes sessions').
Proof.
  intros Hp. unfold sessionTimes. apply Permutation_map. now apply filter_Permutation.
Qed.

End AggregationFacts.

(** X3.  The aggregation does not depend on the order in which the provider
    lists the sessions. *)
Theorem aggregate_order_independent `{Runtime} (name : string)
    (space : option GoogleMeet.Space)
    (sessions sessions' : list GoogleMeet.ParticipantSession) :
  Permutation sessions sessions' ->
  GoogleMeet.aggregate name space sessions = GoogleMeet.aggregate name space sessions'.
Proof.
  intros Hp.
  pose proof (sessionTimes_Permutation sessions sessions' Hp) as Ht.
  unfold GoogleMeet.aggregate.
  rewrite (Permutation_length Hp).
  destruct (0 <? length sessions')%nat; [|reflexivity].
  destruct (GoogleMeet.sessionTimes sessions) as [|t ts] eqn:E,
           (GoogleMeet.sessionTimes sessions') as [|t' ts'] eqn:E'.
  - reflexivity.
  - apply Permutation_nil in Ht. discriminate Ht.
  - apply Permutation_sym, Permutation_nil in Ht. discriminate Ht.
  - assert (Math_min (fst t) (List.map fst ts) = Math_min (fst t') (List.map fst ts'))
      as ->.
    { apply (is_min_unique _ _ (List.map fst (t' :: ts'))).
      - apply (is_min_Permutation _ (List.map fst (t :: ts))).
        + now apply Permutation_map.
        + apply Math_min_is_min.
      - apply Math_min_is_min. }
    assert (Math_max (snd t) (List.map snd ts) = Math_max (snd t') (List.map snd ts'))
      as ->.
    { apply (is_max_unique _ _ (List.map snd (t' :: ts'))).
      - apply (is_max_Permutation _ (List.map snd (t :: ts))).
        + now apply Permutation_map.
        + apply Math_max_is_max.
      - apply Math_max_is_max. }
    reflexivity.
Qed.

Section AggregationExamples.
#[local] Existing Instance Host.runtime.

Lemma aggregate_order_independent_witness :
  Permutation Fixture.two_sessions (rev Fixture.two_sessions)
  /\ GoogleMeet.aggregate "conferenceRecords/a" None (rev Fixture.two_sessions)
     = Some {| GoogleMeet.meetingId := "conferenceRecords/a";
               GoogleMeet.meetingCode := ""; GoogleMeet.meetingUri := "";
               GoogleMeet.startTime := 1760781600000;
               GoogleMeet.endTime := 1760784000000;
               GoogleMeet.duration := 2400 |}.
Proof.
  assert (Permutation Fixture.two_sessions (rev Fixture.two_sessions)) as Hp
    by apply Permutation_rev.
  split; [exact Hp|].
  rewrite <- (aggregate_order_independent "conferenceRecords/a" None _ _ Hp).
  vm_compute; reflexivity.
Defined.

End AggregationExamples.

(** X4.  A session without an end, wherever it stands among the sessions of a
    meeting, does not change the aggregation: what is aggregated is what the
    other sessions give, nothing if there is none. *)
Theorem aggregate_ignores_open_sessions `{Runtime} (name : string)
    (space : option GoogleMeet.Space)
    (before after : list GoogleMeet.ParticipantSession) (session_name start : string) :
  GoogleMeet.aggregate name space
    (before ++ {| GoogleMeet.session_name := session_name;
                  GoogleMeet.session_startTime := start;
                  GoogleMeet.session_endTime := None |} :: after)
  = GoogleMeet.aggregate name space (before ++ after).
Proof.
  apply aggregate_by_times. unfold GoogleMeet.sessionTimes.
  rewrite !List.filter_app. cbn. now rewrite andb_false_r.
Qed.

(* ===================================================================== *)
(** ** Further properties: the attendance source *)
(* ===================================================================== *)

Section MeetFacts.
Context `{Runtime}.
Variable GOOGLE_USER_EMAIL : string.
Variable api : GoogleMeet.Api.

Import GoogleMeet.

Lemma own_sessions_not_own (p : ApiParticipant) :
  is_own GOOGLE_USER_EMAIL p = false -> own_sessions GOOGLE_USER_EMAIL api p = [].
Proof.
  unfold is_own, own_sessions. destruct (participant_name p); [|reflexivity].
  now intros ->.
Qed.

(** The loop over the participants, by its result. *)
Lemma collectParticipants_Return (participants : list ApiParticipant) :
  forall (acc result : list ParticipantSession),
    collectParticipants GOOGLE_USER_EMAIL api participants acc = Return result
    <-> (forall p pname,
           In p participants -> is_own GOOGLE_USER_EMAIL p = true ->
           participant_name p = Some pname ->
           exists r, participantSessions_list api pname = Return r)
        /\ result = acc ++ flat_map (own_sessions GOOGLE_USER_EMAIL api) participants.
Proof.
  induction participants as [|p ps IH]; intros acc result.
  - cbn. rewrite app_nil_r. split.
    + intros E. inversion E. split; [intros p pname []|reflexivity].
    + intros [_ ->]. reflexivity.
  - cbn [collectParticipants flat_map].
    unfold own_sessions at 1, is_own.
    destruct (participant_name p) as [pname|] eqn:Hn.
    + destruct (truthy pname) eqn:Ht; cbn [negb andb].
      * destruct (isCurrentUser GOOGLE_USER_EMAIL p) eqn:Hc; cbn [negb].
        -- destruct (participantSessions_list api pname) as [r|e] eqn:Hr.
           ++ rewrite IH, app_assoc. split.
              ** intros [Hall ->]. split; [|reflexivity].
                 intros p' pname' [<-|Hin] Hown Hn'.
                 --- rewrite Hn in Hn'. inversion Hn'; subst. now exists r.
                 --- now apply (Hall p').
              ** intros [Hall ->]. split; [|reflexivity].
                 intros p' pname' Hin. apply Hall. now right.
           ++ split; [discriminate|].
              intros [Hall _].
              assert (is_own GOOGLE_USER_EMAIL p = true) as Hown
                by (unfold is_own; now rewrite Hn, Ht, Hc).
              destruct (Hall p pname (or_introl eq_refl) Hown Hn) as [r Hr'].
              congruence.
        -- rewrite IH. cbn [app]. split.
           ++ intros [Hall ->]. split; [|reflexivity].
              intros p' pname' [<-|Hin] Hown Hn'.
              ** unfold is_own in Hown. rewrite Hn, Ht, Hc in Hown. discriminate.
              ** now apply (Hall p').
           ++ intros [Hall ->]. split; [|reflexivity].
              intros p' pname' Hin. apply Hall. now right.
      * rewrite IH. cbn [app]. split.
        -- intros [Hall ->]. split; [|reflexivity].
           intros p' pname' [<-|Hin] Hown Hn'.
           ++ unfold is_own in Hown. rewrite Hn, Ht in Hown. discriminate.
           ++ now apply (Hall p').
        -- intros [Hall ->]. split; [|reflexivity].
           intros p' pname' Hin. apply Hall. now right.
    + rewrite IH. cbn [app]. split.
      * intros [Hall ->]. split; [|reflexivity].
        intros p' pname' [<-|Hin] Hown Hn'.
        -- unfold is_own in Hown. rewrite Hn in Hown. discriminate.
        -- now apply (Hall p').
      * intros [Hall ->]. split; [|reflexivity].
        intros p' pname' Hin. apply Hall. now right.
Qed.

(** What the session collector keeps. *)
Lemma collectSessions_kept (raw : list ApiParticipantSession) (s : ParticipantSession) :
  In s (collectSessions raw) ->
  truthy (session_name s) = true
  /\ truthy (session_startTime s) = true
  /\ (session_endTime s = None
      \/ exists e, session_endTime s = Some e /\ truthy e = true).
Proof.
  unfold collectSessions. rewrite in_flat_map. intros (r & _ & Hin).
  destruct (api_session_name r) as [n|]; [|destruct Hin].
  destruct (api_session_startTime r) as [st|]; [|destruct Hin].
  destruct (truthy n) eqn:Hn, (truthy st) eqn:Hst; cbn in Hin; try destruct Hin as [<-|[]];
    try contradiction.
  cbn. split; [exact Hn|]. split; [exact Hst|].
  destruct (api_session_endTime r) as [e|]; cbn; [|now left].
  destruct (truthy e) eqn:He; [right; now exists e | now left].
Qed.

End MeetFacts.

(** X5.  On an authorised service [getUserParticipantSessions] returns
    exactly when the participants are listed and the sessions of every
    participant that has a name and matches the user are listed without an
    error; it then returns the collected sessions of those participants, in
    the order of the participants.  One failing listing makes the whole call
    throw: no partial list is returned. *)
Theorem user_sessions_all_or_nothing `{Runtime} (GOOGLE_USER_EMAIL : string)
    (api : GoogleMeet.Api) (conferenceName : string)
    (sessions : list GoogleMeet.ParticipantSession) :
  GoogleMeet.getUserParticipantSessions GOOGLE_USER_EMAIL api true conferenceName
    = Return sessions
  <-> exists listed,
        GoogleMeet.participants_list api conferenceName = Return listed
        /\ (forall p pname,
              In p (default [] listed) -> is_own GOOGLE_USER_EMAIL p = true ->
              GoogleMeet.participant_name p = Some pname ->
              exists r, GoogleMeet.participantSessions_list api pname = Return r)
        /\ sessions
           = flat_map (own_sessions GOOGLE_USER_EMAIL api) (default [] listed).
Proof.
  unfold GoogleMeet.getUserParticipantSessions.
  destruct (GoogleMeet.participants_list api conferenceName) as [[ps|]|e].
  - rewrite (collectParticipants_Return GOOGLE_USER_EMAIL api ps [] sessions). cbn.
    split.
    + intros [Hall ->]. exists (Some ps). now repeat split.
    + intros (listed & E & Hall & ->). inversion E; subst. now split.
  - split.
    + intros E. inversion E. exists None. repeat split. intros p pname [].
    + intros (listed & E & _ & ->). inversion E; subst. reflexivity.
  - split; [discriminate|]. intros (listed & E & _). discriminate.
Qed.

(** X6.  Every session [getUserParticipantSessions] returns has a name and a
    start that are not empty, and an end that is null or not empty. *)
Theorem user_sessions_are_well_formed `{Runtime} (GOOGLE_USER_EMAIL : string)
    (api : GoogleMeet.Api) (conferenceName : string) (auth : bool)
    (sessions : list GoogleMeet.ParticipantSession) :
  GoogleMeet.getUserParticipantSessions GOOGLE_USER_EMAIL api auth conferenceName
    = Return sessions ->
  forall s, In s sessions ->
    truthy (GoogleMeet.session_name s) = true
    /\ truthy (GoogleMeet.session_startTime s) = true
    /\ (GoogleMeet.session_endTime s = None
        \/ exists e, GoogleMeet.session_endTime s = Some e /\ truthy e = true).
Proof.
  unfold GoogleMeet.getUserParticipantSessions.
  destruct (if auth then Return tt else GoogleMeet.initializeAuth api) as [u|e];
    [|discriminate].
  destruct (GoogleMeet.participants_list api conferenceName) as [[ps|]|e];
    [| |discriminate].
  - intros Hrun s Hs.
    apply (collectParticipants_Return GOOGLE_USER_EMAIL api ps [] sessions) in Hrun
      as [_ ->].
    cbn in Hs. apply in_flat_map in Hs as (p & _ & Hin).
    unfold own_sessions in Hin.
    destruct (GoogleMeet.participant_name p) as [pname|]; [|destruct Hin].
    destruct (truthy pname && GoogleMeet.isCurrentUser GOOGLE_USER_EMAIL p);
      [|destruct Hin].
    destruct (GoogleMeet.participantSessions_list api pname) as [[raw|]|e];
      try destruct Hin.
    now apply (collectSessions_kept raw).
  - intros E s Hs. inversion E; subst. destruct Hs.
Qed.

Section MeetExamples.
#[local] Existing Instance Host.runtime.

Lemma user_sessions_all_or_nothing_witness :
  GoogleMeet.getUserParticipantSessions "ann@example.com" Fixture.meet_api true
    "conferenceRecords/a" = Return Fixture.two_sessions
  /\ exists listed,
       GoogleMeet.participants_list Fixture.meet_api "conferenceRecords/a" = Return listed
       /\ Fixture.two_sessions
          = flat_map (own_sessions "ann@example.com" Fixture.meet_api) (default [] listed).
Proof.
  assert (GoogleMeet.getUserParticipantSessions "ann@example.com" Fixture.meet_api true
            "conferenceRecords/a" = Return Fixture.two_sessions) as Hrun
    by (vm_compute; reflexivity).
  split; [exact Hrun|].
  destruct (proj1 (user_sessions_all_or_nothing "ann@example.com" Fixture.meet_api
                     "conferenceRecords/a" Fixture.two_sessions) Hrun)
    as (listed & Hl & _ & Hs).
  exists listed. now split.
Defined.

Lemma user_sessions_are_well_formed_witness :
  GoogleMeet.getUserParticipantSessions "ann@example.com" Fixture.meet_api true
    "conferenceRecords/open"
    = Return [Fixture.session "s0" "2025-10-18T11:00:00Z" None]
  /\ truthy (GoogleMeet.session_name (Fixture.session "s0" "2025-10-18T11:00:00Z" None))
     = true
  /\ truthy (GoogleMeet.session_startTime
               (Fixture.session "s0" "2025-10-18T11:00:00Z" None)) = true.
Proof.
  assert (GoogleMeet.getUserParticipantSessions "ann@example.com" Fixture.meet_api true
            "conferenceRecords/open"
          = Return [Fixture.session "s0" "2025-10-18T11:00:00Z" None]) as Hrun
    by (vm_compute; reflexivity).
  split; [exact Hrun|].
  destruct (user_sessions_are_well_formed "ann@example.com" Fixture.meet_api
              "conferenceRecords/open" true _ Hrun
              (Fixture.session "s0" "2025-10-18T11:00:00Z" None) (or_introl eq_refl))
    as (Hn & Hs & _).
  now split.
Defined.

End MeetExamples.

Section RecordFacts.
Context `{Runtime}.
Variable GOOGLE_USER_EMAIL : string.
Variable api : GoogleMeet.Api.

Import GoogleMeet.

(** The loop over the records of a page, by its result. *)
Lemma processRecords_Return (records : list ApiConferenceRecord) :
  forall (meetings result : list MeetingSession),
    processRecords GOOGLE_USER_EMAIL api records meetings = Return result
    <-> Forall (sessions_fetched GOOGLE_USER_EMAIL api) records
        /\ result = meetings ++ flat_map (record_meetings GOOGLE_USER_EMAIL api) records.
Proof.
  induction records as [|record records IH]; intros meetings result.
  - cbn. rewrite app_nil_r. split.
    + intros E. inversion E. now split.
    + intros [_ ->]. reflexivity.
  - cbn [processRecords flat_map].
    unfold record_meetings at 1. unfold is_eligible.
    destruct (record_name record) as [name|] eqn:Hn.
    + rewrite <- negb_andb.
      destruct (truthy name && truthy_opt (record_startTime record)) eqn:He; cbn [negb].
      * destruct (getUserParticipantSessions GOOGLE_USER_EMAIL api true name)
          as [sessions|e] eqn:Hs.
        -- rewrite IH, app_assoc. split.
           ++ intros [Hall ->]. split; [|reflexivity]. constructor; [|exact Hall].
              intros name' Hn' _. rewrite Hn in Hn'. inversion Hn'; subst.
              now exists sessions.
           ++ intros [Hall ->]. inversion Hall; subst. now split.
        -- split; [discriminate|].
           intros [Hall _]. inversion Hall as [|? ? Hrec _]; subst.
           destruct (Hrec name Hn) as [sessions Hs'].
           ++ unfold is_eligible. now rewrite Hn.
           ++ congruence.
      * rewrite IH. cbn [app]. split.
        -- intros [Hall ->]. split; [|reflexivity]. constructor; [|exact Hall].
           intros name' Hn' Hel. unfold is_eligible in Hel. rewrite Hn, He in Hel.
           discriminate.
        -- intros [Hall ->]. inversion Hall; subst. now split.
    + rewrite IH. cbn [app]. split.
      * intros [Hall ->]. split; [|reflexivity]. constructor; [|exact Hall].
        intros name' Hn'. congruence.
      * intros [Hall ->]. inversion Hall; subst. now split.
Qed.

(** What a record can contribute. *)
Lemma record_meetings_member (record : ApiConferenceRecord) (m : MeetingSession) :
  In m (record_meetings GOOGLE_USER_EMAIL api record) ->
  exists sessions t ts,
    truthy (meetingId m) = true
    /\ getUserParticipantSessions GOOGLE_USER_EMAIL api true (meetingId m) = Return sessions
    /\ sessionTimes sessions = t :: ts
    /\ startTime m = Math_min (fst t) (List.map fst ts)
    /\ endTime m = Math_max (snd t) (List.map snd ts)
    /\ duration m = (endTime m - startTime m) / 1000.
Proof.
  unfold record_meetings, is_eligible.
  destruct (record_name record) as [name|]; [|intros []].
  destruct (truthy name) eqn:Ht; cbn [andb]; [|intros []].
  destruct (truthy_opt (record_startTime record)); [|intros []].
  destruct (getUserParticipantSessions GOOGLE_USER_EMAIL api true name)
    as [sessions|e] eqn:Hs; [|intros []].
  unfold aggregate. destruct (0 <? length sessions)%nat; [|intros []].
  destruct (sessionTimes sessions) as [|t ts] eqn:Et; [intros []|].
  intros [<-|[]]. cbn. exists sessions, t, ts. now repeat split.
Qed.

Lemma listPages_members (fuel : nat) :
  forall (pageToken : option string) (meetings result : list MeetingSession),
    listPages GOOGLE_USER_EMAIL api fuel pageToken meetings = Some (Return result) ->
    forall m, In m result ->
      In m meetings
      \/ exists record, In m (record_meetings GOOGLE_USER_EMAIL api record).
Proof.
  induction fuel as [|fuel IH]; intros pageToken meetings result Hrun m Hm;
    [discriminate|].
  cbn [listPages] in Hrun.
  destruct (conferenceRecords_list api pageToken) as [response|e]; [|discriminate].
  destruct (processRecords GOOGLE_USER_EMAIL api _ meetings) as [meetings'|e] eqn:Hp;
    [|discriminate].
  apply processRecords_Return in Hp as [_ ->].
  assert (In m (meetings ++ flat_map (record_meetings GOOGLE_USER_EMAIL api)
                             (match conferenceRecords response with
                              | Some records => records
                              | None => []
                              end)) ->
          In m meetings
          \/ exists record, In m (record_meetings GOOGLE_USER_EMAIL api record)) as Hpage.
  { intros Hin. apply in_app_or in Hin as [Hin|Hin]; [now left|].
    apply in_flat_map in Hin as (record & _ & Hin). right. now exists record. }
  destruct (truthy_opt (or_null (nextPageToken response))).
  - destruct (IH _ _ _ Hrun m Hm) as [Hin|Hnew]; [now apply Hpage | now right].
  - inversion Hrun; subst. now apply Hpage.
Qed.

(** Enough fuel: when the chain of page tokens ends within [n] pages and the
    sessions of every eligible record are fetched, the loop returns the
    meetings of the pages in order. *)
Lemma listPages_pages (n : nat) :
  forall (pageToken : option string) (meetings : list MeetingSession)
         (pages : list (list ApiConferenceRecord)),
    pages_from api n pageToken = Some pages ->
    Forall (sessions_fetched GOOGLE_USER_EMAIL api) (concat pages) ->
    listPages GOOGLE_USER_EMAIL api n pageToken meetings
    = Some (Return (meetings
                    ++ flat_map (record_meetings GOOGLE_USER_EMAIL api) (concat pages))).
Proof.
  induction n as [|n IH]; intros pageToken meetings pages Hpages Hall; [discriminate|].
  cbn [pages_from listPages] in *.
  destruct (conferenceRecords_list api pageToken) as [response|e]; [|discriminate].
  set (records := match conferenceRecords response with
                  | Some records => records
                  | None => []
                  end) in *.
  destruct (truthy_opt (or_null (nextPageToken response))).
  - destruct (pages_from api n (or_null (nextPageToken response))) as [rest|] eqn:Hrest;
      [|discriminate].
    inversion Hpages; subst pages. cbn [concat] in *.
    apply Forall_app in Hall as [Hhere Hrest'].
    destruct (processRecords GOOGLE_USER_EMAIL api records meetings) as [meetings'|e] eqn:Hp.
    + apply processRecords_Return in Hp as [_ ->].
      rewrite (IH _ _ rest Hrest Hrest').
      now rewrite flat_map_app, app_assoc.
    + exfalso.
      assert (processRecords GOOGLE_USER_EMAIL api records meetings
              = Return (meetings ++ flat_map (record_meetings GOOGLE_USER_EMAIL api) records))
        as Hok by (apply processRecords_Return; now split).
      congruence.
  - inversion Hpages; subst pages. cbn [concat] in *. rewrite app_nil_r in *.
    assert (processRecords GOOGLE_USER_EMAIL api records meetings
            = Return (meetings ++ flat_map (record_meetings GOOGLE_USER_EMAIL api) records))
      as -> by (apply processRecords_Return; now split).
    reflexivity.
Qed.

End RecordFacts.

(** X7.  Every meeting [getConferenceRecords] returns has a non-empty
    identifier, the name of a conference record, and is the aggregation of
    the user's sessions of that record: some session has both instants, the
    start is the least start, the end the greatest end, and the duration the
    floor of their difference in seconds. *)
Theorem returned_meetings_are_aggregations `{Runtime} (GOOGLE_USER_EMAIL : string)
    (api : GoogleMeet.Api) (fuel : nat) (auth : bool)
    (result : list GoogleMeet.MeetingSession) :
  GoogleMeet.getConferenceRecords GOOGLE_USER_EMAIL api fuel auth = Some (Return result) ->
  forall m, In m result ->
    truthy (GoogleMeet.meetingId m) = true
    /\ exists sessions,
         GoogleMeet.getUserParticipantSessions GOOGLE_USER_EMAIL api true
           (GoogleMeet.meetingId m) = Return sessions
         /\ GoogleMeet.sessionTimes sessions <> []
         /\ is_min (GoogleMeet.startTime m)
              (List.map fst (GoogleMeet.sessionTimes sessions))
         /\ is_max (GoogleMeet.endTime m)
              (List.map snd (GoogleMeet.sessionTimes sessions))
         /\ GoogleMeet.duration m
            = (GoogleMeet.endTime m - GoogleMeet.startTime m) / 1000.
Proof.
  intros Hrun m Hm. unfold GoogleMeet.getConferenceRecords in Hrun.
  destruct (if auth then Return tt else GoogleMeet.initializeAuth api) as [u|e];
    [|discriminate].
  destruct (listPages_members GOOGLE_USER_EMAIL api fuel None [] result Hrun m Hm)
    as [[]|[record Hin]].
  destruct (record_meetings_member GOOGLE_USER_EMAIL api record m Hin)
    as (sessions & t & ts & Hid & Hs & Et & Hstart & Hend & Hd).
  split; [exact Hid|]. exists sessions. split; [exact Hs|].
  rewrite Et, Hstart, Hend. split; [discriminate|].
  split; [apply Math_min_is_min|]. split; [apply Math_max_is_max|].
  now rewrite Hd, Hstart, Hend.
Qed.

(** X8.  When the provider's chain of page tokens ends within [n] pages and
    the sessions of every eligible record on them are fetched without an
    error, [getConferenceRecords] returns within [n] rounds, with at most one
    meeting per record, in the order of the pages and of the records on
    them. *)
Theorem conference_pages_in_order `{Runtime} (GOOGLE_USER_EMAIL : string)
    (api : GoogleMeet.Api) (n : nat)
    (pages : list (list GoogleMeet.ApiConferenceRecord)) :
  pages_from api n None = Some pages ->
  Forall (sessions_fetched GOOGLE_USER_EMAIL api) (concat pages) ->
  GoogleMeet.getConferenceRecords GOOGLE_USER_EMAIL api n true
  = Some (Return (flat_map (record_meetings GOOGLE_USER_EMAIL api) (concat pages)))
  /\ (length (flat_map (record_meetings GOOGLE_USER_EMAIL api) (concat pages))
      <= length (concat pages))%nat.
Proof.
  intros Hpages Hall. split.
  - unfold GoogleMeet.getConferenceRecords.
    now rewrite (listPages_pages GOOGLE_USER_EMAIL api n None [] pages Hpages Hall).
  - clear Hall Hpages. induction (concat pages) as [|record records IH]; [reflexivity|].
    cbn [flat_map]. rewrite length_app. cbn [length].
    assert (length (record_meetings GOOGLE_USER_EMAIL api record) <= 1)%nat.
    { unfold record_meetings. destruct (GoogleMeet.record_name record); [|cbn; lia].
      destruct (is_eligible record); [|cbn; lia].
      destruct (GoogleMeet.getUserParticipantSessions _ _ _ _); [|cbn; lia].
      destruct (GoogleMeet.aggregate _ _ _); cbn; lia. }
    lia.
Qed.

Section RecordExamples.
#[local] Existing Instance Host.runtime.

Lemma returned_meetings_are_aggregations_witness :
  let m := {| GoogleMeet.meetingId := "conferenceRecords/a";
              GoogleMeet.meetingCode := "abc-defg-hij"; GoogleMeet.meetingUri := "";
              GoogleMeet.startTime := 1760781600000;
              GoogleMeet.endTime := 1760784000000;
              GoogleMeet.duration := 2400 |} in
  GoogleMeet.getConferenceRecords "ann@example.com" Fixture.meet_api 1 true
    = Some (Return [m])
  /\ truthy (GoogleMeet.meetingId m) = true
  /\ GoogleMeet.duration m = (GoogleMeet.endTime m - GoogleMeet.startTime m) / 1000.
Proof.
  cbv zeta.
  assert (GoogleMeet.getConferenceRecords "ann@example.com" Fixture.meet_api 1 true
          = Some (Return [ {| GoogleMeet.meetingId := "conferenceRecords/a";
                              GoogleMeet.meetingCode := "abc-defg-hij";
                              GoogleMeet.meetingUri := "";
                              GoogleMeet.startTime := 1760781600000;
                              GoogleMeet.endTime := 1760784000000;
                              GoogleMeet.duration := 2400 |} ])) as Hrun
    by (vm_compute; reflexivity).
  split; [exact Hrun|].
  destruct (returned_meetings_are_aggregations "ann@example.com" Fixture.meet_api 1 true
              _ Hrun _ (or_introl eq_refl))
    as (Hid & sessions & _ & _ & _ & _ & Hd).
  now split.
Defined.

Lemma conference_pages_in_order_witness :
  pages_from Fixture.meet_api 1 None
    = Some [[Fixture.conference "conferenceRecords/open";
             Fixture.conference "conferenceRecords/a"]]
  /\ GoogleMeet.getConferenceRecords "ann@example.com" Fixture.meet_api 1 true
     = Some (Return (flat_map (record_meetings "ann@example.com" Fixture.meet_api)
                       [Fixture.conference "conferenceRecords/open";
                        Fixture.conference "conferenceRecords/a"])).
Proof.
  assert (pages_from Fixture.meet_api 1 None
          = Some [[Fixture.conference "conferenceRecords/open";
                   Fixture.conference "conferenceRecords/a"]]) as Hpages
    by (vm_compute; reflexivity).
  split; [exact Hpages|].
  refine (proj1 (conference_pages_in_order "ann@example.com" Fixture.meet_api 1 _
                   Hpages _)).
  cbn [concat app].
  repeat constructor; intros name Hn _; inversion Hn; subst; eexists;
    vm_compute; reflexivity.
Defined.

End RecordExamples.

(* ===================================================================== *)
(** ** Further properties: the paged read of the time entries *)
(* ===================================================================== *)

Lemma paused_app (t1 t2 : list Event) : paused (t1 ++ t2) = paused t1 + paused t2.
Proof.
  unfold paused. induction t1 as [|ev t1 IH]; cbn; [reflexivity|].
  rewrite IH. destruct ev; lia.
Qed.

Lemma separated_cons {A : Type} (gap step next : A) (rest : list A) :
  separated gap (step :: next :: rest) = step :: gap :: separated gap (next :: rest).
Proof. reflexivity. Qed.

Section PagingFacts.
Variable answers : ClockifyPaging.PageAnswers.
Variable workspace user startDate endDate : string.

Import ClockifyPaging.

Lemma fetchPages_step (fuel : nat) (page : Z) (acc : list ClockifyTimeEntry) (s : Store) :
  fetchPages answers workspace user startDate endDate (S fuel) page acc s
  = let s1 := record (GetTimeEntries workspace user startDate endDate) s in
    match answers (events s) workspace user
                  (startDate +:+ "T00:00:00Z") (endDate +:+ "T23:59:59Z") page with
    | NetworkError e => Some (Throw e, s1)
    | Response ok statusText _ json =>
        if negb ok
        then Some (Throw ("Failed to get time entries: " +:+ statusText), s1)
        else
          match json with
          | Throw e => Some (Throw e, s1)
          | Return entries =>
              if (length entries <? pageSize)%nat
              then Some (Return (acc ++ entries), s1)
              else fetchPages answers workspace user startDate endDate fuel (page + 1)
                              (acc ++ entries) (record (Sleep 20) s1)
          end
    end.
Proof. reflexivity. Qed.

(** The loop over full pages followed by a short one. *)
Lemma fetchPages_chunks (full : list (list ClockifyTimeEntry)) :
  forall (last : list ClockifyTimeEntry) (k : nat) (acc : list ClockifyTimeEntry)
         (s : Store),
    Forall (fun chunk => length chunk = pageSize) full ->
    (length last < pageSize)%nat ->
    (forall (i : nat) (chunk : list ClockifyTimeEntry) (h : list Event),
       nth_error (full ++ [last]) i = Some chunk ->
       exists statusText text,
         answers h workspace user (startDate +:+ "T00:00:00Z") (endDate +:+ "T23:59:59Z")
                 (Z.of_nat (k + i) + 1)
         = Response true statusText text (Return chunk)) ->
    exists s',
      fetchPages answers workspace user startDate endDate (S (length full))
                 (Z.of_nat k + 1) acc s
      = Some (Return (acc ++ concat full ++ last), s')
      /\ service s' = service s /\ heap s' = heap s
      /\ exists t, events s' = t ++ events s
                   /\ rev t = separated (Sleep 20)
                                 (repeat (GetTimeEntries workspace user startDate endDate)
                                         (S (length full)))
                   /\ entry_requests t = S (length full)
                   /\ paused t = 20 * Z.of_nat (length full)
                   /\ free_of is_creation t.
Proof.
  induction full as [|chunk full IH]; intros last k acc s Hfull Hlast Hserve.
  - cbn [length]. rewrite fetchPages_step. cbv zeta.
    destruct (Hserve 0%nat last (events s) eq_refl) as (st & tx & E).
    rewrite Nat.add_0_r in E. rewrite E. cbn [negb].
    apply Nat.ltb_lt in Hlast. rewrite Hlast.
    eexists. split; [reflexivity|]. cbn. split; [reflexivity|]. split; [reflexivity|].
    exists [GetTimeEntries workspace user startDate endDate].
    repeat split. intros ev [<-|[]]. reflexivity.
  - cbn [length]. rewrite fetchPages_step. cbv zeta.
    destruct (Hserve 0%nat chunk (events s) eq_refl) as (st & tx & E).
    rewrite Nat.add_0_r in E. rewrite E. cbn [negb].
    inversion Hfull as [|? ? Hlen Hrest]; subst.
    assert ((length chunk <? pageSize)%nat = false) as ->
      by (apply Nat.ltb_ge; lia).
    destruct (IH last (S k) (acc ++ chunk)
                (record (Sleep 20) (record (GetTimeEntries workspace user startDate endDate) s))
                Hrest Hlast)
      as (s' & Hrun & Hsv & Hheap & t & Hev & Hrev & Hreq & Hp & Hfree).
    { intros i c h Hi. destruct (Hserve (S i) c h Hi) as (st' & tx' & E').
      exists st', tx'. rewrite <- E'. do 2 f_equal. lia. }
    exists s'. replace (Z.of_nat k + 1 + 1) with (Z.of_nat (S k) + 1) by lia.
    rewrite Hrun. split; [now rewrite concat_cons, <- !app_assoc|].
    split; [exact Hsv|]. split; [exact Hheap|].
    exists (t ++ [Sleep 20; GetTimeEntries workspace user startDate endDate]).
    split; [rewrite Hev, <- app_assoc; reflexivity|].
    split.
    { rewrite rev_app_distr, Hrev. cbn [rev app length repeat].
      now rewrite separated_cons. }
    split.
    + unfold entry_requests in *. rewrite List.filter_app, length_app, Hreq. cbn. lia.
    + split.
      * rewrite paused_app, Hp. cbn [length paused fold_right]. lia.
      * intros ev Hin. apply in_app_or in Hin as [Hin|[<-|[<-|[]]]]; auto.
Qed.

End PagingFacts.

(** X9.  On an initialised service, when the time tracker answers the page
    requests with any number of full pages of 1000 entries and then a shorter
    one, [getTimeEntriesForDateRange] returns the entries of these pages in
    order.  What it does, in order, is one request per page with a pause of
    20 ms between every two requests and nowhere else; it changes neither
    the service state nor the request objects. *)
Theorem paged_read_returns_all_pages (answers : ClockifyPaging.PageAnswers)
    (startDate endDate : string) (s : Store)
    (full : list (list ClockifyTimeEntry)) (last : list ClockifyTimeEntry) :
  truthy_opt (workspaceId (service s)) = true ->
  truthy_opt (userId (service s)) = true ->
  Forall (fun chunk => length chunk = ClockifyPaging.pageSize) full ->
  (length last < ClockifyPaging.pageSize)%nat ->
  serves answers (or_empty (workspaceId (service s))) (or_empty (userId (service s)))
         startDate endDate (full ++ [last]) ->
  exists s' t,
    ClockifyPaging.getTimeEntriesForDateRange answers (S (length full)) startDate endDate s
    = Some (Return (concat full ++ last), s')
    /\ service s' = service s /\ heap s' = heap s
    /\ events s' = t ++ events s
    /\ rev t = separated (Sleep 20)
                  (repeat (GetTimeEntries (or_empty (workspaceId (service s)))
                             (or_empty (userId (service s))) startDate endDate)
                          (S (length full)))
    /\ entry_requests t = S (length full)
    /\ paused t = 20 * Z.of_nat (length full)
    /\ free_of is_creation t.
Proof.
  intros Hws Hu Hfull Hlast Hserve.
  unfold ClockifyPaging.getTimeEntriesForDateRange. rewrite Hws, Hu. cbn [negb orb].
  destruct (fetchPages_chunks answers (or_empty (workspaceId (service s)))
              (or_empty (userId (service s))) startDate endDate full last 0 [] s
              Hfull Hlast)
    as (s' & Hrun & Hsv & Hheap & t & Hev & Hrev & Hreq & Hp & Hfree).
  { intros i chunk h Hi. exact (Hserve i chunk h Hi). }
  exists s', t. split; [exact Hrun|]. now repeat split.
Qed.

(** X10.  [getTimeEntriesForDateRange] is all or nothing.  On a service
    without a workspace or a user it throws ["Clockify client not
    initialized"] without any request.  When a page request after any number
    of full pages is answered with a status that is not ok, it throws
    ["Failed to get time entries: " + statusText]: the entries of the earlier
    pages are not returned. *)
Theorem paged_read_fails_as_a_whole (answers : ClockifyPaging.PageAnswers)
    (startDate endDate : string) (s : Store) :
  (truthy_opt (workspaceId (service s)) && truthy_opt (userId (service s)) = false ->
   forall fuel,
     ClockifyPaging.getTimeEntriesForDateRange answers fuel startDate endDate s
     = Some (Throw "Clockify client not initialized", s))
  /\ (forall (full : list (list ClockifyTimeEntry)) (statusText text : string)
             (json : Outcome (list ClockifyTimeEntry)),
        truthy_opt (workspaceId (service s)) = true ->
        truthy_opt (userId (service s)) = true ->
        Forall (fun chunk => length chunk = ClockifyPaging.pageSize) full ->
        serves answers (or_empty (workspaceId (service s)))
               (or_empty (userId (service s))) startDate endDate full ->
        (forall h,
           answers h (or_empty (workspaceId (service s))) (or_empty (userId (service s)))
                   (startDate +:+ "T00:00:00Z") (endDate +:+ "T23:59:59Z")
                   (Z.of_nat (length full) + 1)
           = Response false statusText text json) ->
        exists s',
          ClockifyPaging.getTimeEntriesForDateRange answers (S (length full))
            startDate endDate s
          = Some (Throw ("Failed to get time entries: " +:+ statusText), s')).
Proof.
  split.
  - intros Hno fuel. unfold ClockifyPaging.getTimeEntriesForDateRange.
    destruct (truthy_opt (workspaceId (service s))),
             (truthy_opt (userId (service s))); try discriminate; reflexivity.
  - intros full statusText text json Hws Hu Hfull Hserve Hfail.
    unfold ClockifyPaging.getTimeEntriesForDateRange. rewrite Hws, Hu. cbn [negb orb].
    set (ws := or_empty (workspaceId (service s))) in *.
    set (u := or_empty (userId (service s))) in *.
    assert (forall (k : nat) (acc : list ClockifyTimeEntry) (s0 : Store)
                   (rest : list (list ClockifyTimeEntry)),
              Forall (fun chunk => length chunk = ClockifyPaging.pageSize) rest ->
              (forall (i : nat) (chunk : list ClockifyTimeEntry) (h : list Event),
                 nth_error rest i = Some chunk ->
                 exists st tx,
                   answers h ws u (startDate +:+ "T00:00:00Z") (endDate +:+ "T23:59:59Z")
                           (Z.of_nat (k + i) + 1)
                   = Response true st tx (Return chunk)) ->
              (forall h,
                 answers h ws u (startDate +:+ "T00:00:00Z") (endDate +:+ "T23:59:59Z")
                         (Z.of_nat (k + length rest) + 1)
                 = Response false statusText text json) ->
              exists s',
                ClockifyPaging.fetchPages answers ws u startDate endDate
                  (S (length rest)) (Z.of_nat k + 1) acc s0
                = Some (Throw ("Failed to get time entries: " +:+ statusText), s')) as Hloop.
    { intros k acc s0 rest. revert k acc s0.
      induction rest as [|chunk rest IH]; intros k acc s0 Hall Hok Hbad.
      - cbn [length] in *. rewrite fetchPages_step. cbv zeta.
        rewrite Nat.add_0_r in Hbad. rewrite Hbad. cbn [negb]. now eexists.
      - cbn [length]. rewrite fetchPages_step. cbv zeta.
        destruct (Hok 0%nat chunk (events s0) eq_refl) as (st & tx & E).
        rewrite Nat.add_0_r in E. rewrite E. cbn [negb].
        inversion Hall as [|? ? Hlen Hrest]; subst.
        assert ((length chunk <? ClockifyPaging.pageSize)%nat = false) as ->
          by (apply Nat.ltb_ge; lia).
        replace (Z.of_nat k + 1 + 1) with (Z.of_nat (S k) + 1) by lia.
        apply IH; [exact Hrest| |].
        + intros i c h Hi. destruct (Hok (S i) c h Hi) as (st' & tx' & E').
          exists st', tx'. rewrite <- E'. do 2 f_equal. lia.
        + intros h. rewrite <- (Hbad h). do 2 f_equal. cbn [length]. lia. }
    apply (Hloop 0%nat [] s full Hfull).
    + intros i chunk h Hi. exact (Hserve i chunk h Hi).
    + intros h. exact (Hfail h).
Qed.

Lemma paged_read_returns_all_pages_witness :
  exists s' t,
    ClockifyPaging.getTimeEntriesForDateRange Samples.two_pages 2
      "2025-10-11" "2025-10-18" Fixture.store_ready
    = Some (Return (repeat (Fixture.entry_with "Lunch") 1000
                    ++ [Fixture.entry_with "Standup"]), s')
    /\ events s' = t ++ events Fixture.store_ready
    /\ rev t = [GetTimeEntries "workspace-1" "user-1" "2025-10-11" "2025-10-18";
                Sleep 20;
                GetTimeEntries "workspace-1" "user-1" "2025-10-11" "2025-10-18"]
    /\ entry_requests t = 2%nat
    /\ paused t = 20.
Proof.
  destruct (paged_read_returns_all_pages Samples.two_pages "2025-10-11" "2025-10-18"
              Fixture.store_ready [repeat (Fixture.entry_with "Lunch") 1000]
              [Fixture.entry_with "Standup"])
    as (s' & t & Hrun & _ & _ & Hev & Hrev & Hreq & Hp & _).
  - reflexivity.
  - reflexivity.
  - constructor; [vm_compute; reflexivity | constructor].
  - vm_compute. lia.
  - intros [|[|i]] chunk h Hi; cbn in Hi.
    + inversion Hi; subst. now eexists _, _.
    + inversion Hi; subst. now eexists _, _.
    + destruct i; discriminate Hi.
  - exists s', t. split; [exact Hrun|]. now repeat split.
Defined.

Lemma paged_read_fails_as_a_whole_witness :
  exists s',
    ClockifyPaging.getTimeEntriesForDateRange Samples.no_pages 1
      "2025-10-11" "2025-10-18" Fixture.store_ready
    = Some (Throw "Failed to get time entries: Unauthorized", s').
Proof.
  refine (proj2 (paged_read_fails_as_a_whole Samples.no_pages "2025-10-11" "2025-10-18"
                   Fixture.store_ready) [] "Unauthorized" "" (Throw "no body")
            eq_refl eq_refl _ _ _).
  - constructor.
  - intros i chunk h Hi. destruct i; discriminate Hi.
  - intros h. reflexivity.
Defined.

(* ===================================================================== *)
(** ** Further properties: the Clockify service *)
(* ===================================================================== *)

(** X11.  [createTimeEntry] leaves the caller's request alone when it has
    nothing to attach.  On a service without a workspace it throws
    ["Clockify client not initialized"] and submits nothing.  On an
    initialised service without a resolved project it submits the request as
    the caller built it, with the caller's [projectId] if there is one.  In
    both cases the request object and the service state stay as they were. *)
Theorem createTimeEntry_leaves_request_alone (remote : Remote) (s : Store) (entry : nat)
    (arg : CreateTimeEntryRequest) :
  heap s !! entry = Some arg ->
  (truthy_opt (workspaceId (service s)) = false ->
   createTimeEntry remote entry s
   = (Throw "Clockify client not initialized", record (CallCreateTimeEntry arg) s))
  /\ (truthy_opt (workspaceId (service s)) = true ->
      truthy_opt (leagueProjectId (service s)) = false ->
      exists out,
        createTimeEntry remote entry s
        = (out,
           record (PostTimeEntry (or_empty (workspaceId (service s))) arg
                     (response_ok (post_time_entry remote
                                     (CallCreateTimeEntry arg :: events s)
                                     (or_empty (workspaceId (service s))) arg)))
             (record (CallCreateTimeEntry arg) s))
        /\ (forall a, out = Return a ->
            response_ok (post_time_entry remote (CallCreateTimeEntry arg :: events s)
                           (or_empty (workspaceId (service s))) arg) = true)).
Proof.
  intros Hlive. split.
  - intros Hws. unfold createTimeEntry. unfold_js. rewrite Hlive. cbn.
    now rewrite Hws.
  - intros Hws Hp. unfold createTimeEntry. unfold_js. rewrite Hlive. cbn.
    rewrite Hws, Hp. cbn. rewrite Hlive. cbn.
    destruct (post_time_entry remote (CallCreateTimeEntry arg :: events s)
                (or_empty (workspaceId (service s))) arg) as [e|ok st tx [a|e]];
      cbn; try destruct ok; cbn; eexists; (split; [reflexivity|]);
      intros a' Ha; congruence.
Qed.

Lemma createTimeEntry_leaves_request_alone_witness :
  let s := {| service := createClockifyService "token";
              heap := {[ 0%nat := Fixture.request_with_project ]};
              events := [] |} in
  heap s !! 0%nat = Some Fixture.request_with_project
  /\ truthy_opt (workspaceId (service s)) = false
  /\ createTimeEntry (Fixture.tracker [] Fixture.always) 0%nat s
     = (Throw "Clockify client not initialized",
        record (CallCreateTimeEntry Fixture.request_with_project) s).
Proof.
  cbv zeta.
  assert (({[ 0%nat := Fixture.request_with_project ]} : gmap nat CreateTimeEntryRequest)
            !! 0%nat = Some Fixture.request_with_project) as Hlive
    by apply lookup_singleton_eq.
  split; [exact Hlive|]. split; [reflexivity|].
  exact (proj1 (createTimeEntry_leaves_request_alone (Fixture.tracker [] Fixture.always)
                  {| service := createClockifyService "token";
                     heap := {[ 0%nat := Fixture.request_with_project ]};
                     events := [] |} 0%nat Fixture.request_with_project Hlive) eq_refl).
Defined.

Section FrameFacts.

Lemma same_client_refl (s : Store) : same_client s s.
Proof. now repeat split. Qed.

Lemma same_client_trans (s1 s2 s3 : Store) :
  same_client s1 s2 -> same_client s2 s3 -> same_client s1 s3.
Proof. unfold same_client. intros (? & ? & ? & ?) (? & ? & ? & ?). repeat split; congruence. Qed.

Lemma keeps_same {A : Type} (m : M A) : (forall s, snd (m s) = s) -> keeps_client m.
Proof. intros Hs s. rewrite Hs. apply same_client_refl. Qed.

Lemma keeps_ret {A : Type} (a : A) : keeps_client (ret a).
Proof. now apply keeps_same. Qed.

Lemma keeps_throw {A : Type} (e : string) : keeps_client (@throw A e).
Proof. now apply keeps_same. Qed.

Lemma keeps_await {A : Type} (o : Outcome A) : keeps_client (await o).
Proof. destruct o; [apply keeps_ret | apply keeps_throw]. Qed.

Lemma keeps_get_state : keeps_client get_state.
Proof. now apply keeps_same. Qed.

Lemma keeps_history : keeps_client history.
Proof. now apply keeps_same. Qed.

Lemma keeps_emit (ev : Event) : keeps_client (emit ev).
Proof. intros s. now repeat split. Qed.

Lemma keeps_set_project (p : string) : keeps_client (set_state (set_leagueProjectId p)).
Proof. intros s. now repeat split. Qed.

Lemma keeps_bind {A B : Type} (m : M A) (k : A -> M B) :
  keeps_client m -> (forall a, keeps_client (k a)) -> keeps_client (bind m k).
Proof.
  intros Hm Hk s. unfold bind. specialize (Hm s).
  destruct (m s) as [[a|e] s1]; cbn in *; [|exact Hm].
  apply (same_client_trans s s1); [exact Hm | apply Hk].
Qed.

End FrameFacts.

Ltac frame_step :=
  first
    [ apply keeps_bind; [|intros ?]
    | apply keeps_ret
    | apply keeps_throw
    | apply keeps_await
    | apply keeps_get_state
    | apply keeps_history
    | apply keeps_emit
    | apply keeps_set_project
    | match goal with
      | |- keeps_client (match ?x with _ => _ end) => destruct x
      end ].

Section ServiceFacts.
Context `{Runtime}.
Variable env : Environment.
Variable remote : Remote.

(** Resolving the project changes nothing but the stored project and the
    trace. *)
Lemma getOrCreateLeagueProject_frame : keeps_client (getOrCreateLeagueProject env remote).
Proof. unfold getOrCreateLeagueProject, sleep. repeat frame_step. Qed.

End ServiceFacts.

(** X12.  With a workspace and a listing of the projects,
    [getOrCreateLeagueProject] stores the first listed project whose name is
    the configured one up to case and makes no further request.  Only when no
    listed project has that name does it wait and ask the tracker to create
    one, once, under the configured name; it stores the project the tracker
    answers with, and stores nothing when the creation fails. *)
Theorem project_is_found_before_created `{Runtime} (env : Environment) (remote : Remote)
    (s : Store) (ws statusText text : string) (projects : list ClockifyProject) :
  workspaceId (service s) = Some ws ->
  truthy ws = true ->
  get_projects remote (events s) ws = Response true statusText text (Return projects) ->
  match List.find (fun p => String.eqb (toLowerCase (project_name p))
                                       (toLowerCase (MEET_PROJECT_NAME env)))
                  projects with
  | Some p =>
      getOrCreateLeagueProject env remote s
      = (Return tt,
         {| service := set_leagueProjectId (project_id p) (service s);
            heap := heap s;
            events := GetProjects ws :: events s |})
  | None =>
      exists out s',
        getOrCreateLeagueProject env remote s = (out, s')
        /\ events s'
           = PostProject ws (MEET_PROJECT_NAME env)
             :: Sleep (CLOCKIFY_API_DELAY env) :: GetProjects ws :: events s
        /\ match post_project remote
                   (Sleep (CLOCKIFY_API_DELAY env) :: GetProjects ws :: events s)
                   ws (MEET_PROJECT_NAME env) with
           | Response true _ _ (Return p) =>
               out = Return tt /\ leagueProjectId (service s') = Some (project_id p)
           | _ =>
               (exists e, out = Throw e)
               /\ leagueProjectId (service s') = leagueProjectId (service s)
           end
  end.
Proof.
  intros Hws Ht Hlist.
  unfold getOrCreateLeagueProject. unfold_js. cbn. rewrite Hws, Ht. cbn.
  rewrite Hlist. cbn.
  destruct (List.find _ projects) as [p|]; cbn; [reflexivity|].
  destruct (post_project remote _ ws (MEET_PROJECT_NAME env)) as [e|ok st tx [p|e]];
    cbn; try destruct ok; cbn; eexists _, _; (split; [reflexivity|]); cbn;
    (split; [reflexivity|]); (split; [|reflexivity]); try reflexivity; now eexists.
Qed.

Section ProjectExample.
#[local] Existing Instance Host.runtime.

Lemma project_is_found_before_created_witness :
  getOrCreateLeagueProject Fixture.env_live (Fixture.tracker [] Fixture.always)
    {| service := set_workspaceId "workspace-1" (createClockifyService "token");
       heap := ∅; events := [] |}
  = (Return tt,
     {| service := set_leagueProjectId "project-1"
                     (set_workspaceId "workspace-1" (createClockifyService "token"));
        heap := ∅;
        events := [GetProjects "workspace-1"] |}).
Proof.
  exact (project_is_found_before_created Fixture.env_live
           (Fixture.tracker [] Fixture.always)
           {| service := set_workspaceId "workspace-1" (createClockifyService "token");
              heap := ∅; events := [] |}
           "workspace-1" "OK" ""
           [ {| project_id := "project-1"; project_name := "google meet" |} ]
           eq_refl eq_refl eq_refl).
Defined.

End ProjectExample.

Ltac run_inv H :=
  lazymatch type of H with
  | bind _ _ _ = (Return _, _) =>
      let a := fresh "a" in
      let s1 := fresh "s" in
      let H1 := fresh "Hstep" in
      apply bind_Return in H as (a & s1 & H1 & H); run_inv H1; run_inv H
  | history _ = _ => unfold history in H; inversion H; subst; clear H
  | emit _ _ = _ => unfold emit in H; inversion H; subst; clear H
  | sleep _ _ = _ => unfold sleep, emit in H; inversion H; subst; clear H
  | set_state _ _ = _ => unfold set_state in H; inversion H; subst; clear H
  | get_state _ = _ => unfold get_state in H; inversion H; subst; clear H
  | ret _ _ = _ => unfold ret in H; inversion H; subst; clear H
  | throw _ _ = _ => discriminate H
  | await ?j _ = _ =>
      destruct j; [unfold await, ret in H; inversion H; subst; clear H | discriminate H]
  | (match ?x with _ => _ end) _ = (Return _, _) =>
      destruct x eqn:?; try discriminate H; run_inv H
  | _ => idtac
  end.

(** X13.  A completed [initialize] has stored the identifier of the user and
    the identifier of the first workspace the tracker lists, which is not
    empty, and a project; the token and the request objects are as before.
    When the tracker lists no workspace, [initialize] throws ["No Clockify
    workspaces found"] after the second request, with the user stored and
    neither a workspace nor a project. *)
Theorem initialize_takes_first_workspace `{Runtime} (env : Environment) (remote : Remote)
    (s : Store) :
  (forall s',
     initialize env remote s = (Return tt, s') ->
     exists u w ws st tx st' tx',
       get_user remote (events s) = Response true st tx (Return u)
       /\ get_workspaces remote (Sleep (CLOCKIFY_API_DELAY env) :: GetUser :: events s)
          = Response true st' tx' (Return (w :: ws))
       /\ userId (service s') = Some (user_id u)
       /\ workspaceId (service s') = Some (workspace_id w)
       /\ truthy (workspace_id w) = true
       /\ (exists p, leagueProjectId (service s') = Some (project_id p))
       /\ apiToken (service s') = apiToken (service s)
       /\ heap s' = heap s)
  /\ (forall u st tx st' tx',
        get_user remote (events s) = Response true st tx (Return u) ->
        get_workspaces remote (Sleep (CLOCKIFY_API_DELAY env) :: GetUser :: events s)
          = Response true st' tx' (Return []) ->
        initialize env remote s
        = (Throw "No Clockify workspaces found",
           {| service := set_userId (user_id u) (service s);
              heap := heap s;
              events := GetWorkspaces :: Sleep (CLOCKIFY_API_DELAY env)
                        :: GetUser :: events s |})).
Proof.
  split.
  - intros s' Hrun. unfold initialize in Hrun. run_inv Hrun.
    match goal with
    | Hg : getOrCreateLeagueProject env remote ?s1 = _ |- _ =>
        pose proof (getOrCreateLeagueProject_frame env remote s1) as Hframe;
        rewrite Hg in Hframe; cbn in Hframe;
        destruct Hframe as (Hheap & Hu & Hw & Htok);
        destruct (getOrCreateLeagueProject_resolves env remote s1 s' Hg)
          as (p & Hp & _ & Ht & _); cbn in Ht
    end.
    match goal with
    | Hu' : get_user remote _ = Response ?ok ?st ?tx (Return ?u),
      Hw' : get_workspaces remote _ = Response ?ok' ?st' ?tx' (Return (?w :: ?ws)) |- _ =>
        exists u, w, ws, st, tx, st', tx'
    end.
    repeat match goal with
           | Hn : negb ?b = false |- _ => apply negb_false_iff in Hn; subst b
           end.
    repeat split; try assumption; try (now exists p).
  - intros u st tx st' tx' Hu Hw.
    unfold initialize. unfold_js. cbn. rewrite Hu. cbn. rewrite Hw. reflexivity.
Qed.

Section InitializeExample.
#[local] Existing Instance Host.runtime.

Lemma initialize_takes_first_workspace_witness :
  initialize Fixture.env_live (Fixture.tracker [] Fixture.always) Fixture.store0
  = (Return tt,
     snd (initialize Fixture.env_live (Fixture.tracker [] Fixture.always) Fixture.store0))
  /\ exists u w ws st tx st' tx',
       get_user (Fixture.tracker [] Fixture.always) (events Fixture.store0)
       = Response true st tx (Return u)
       /\ get_workspaces (Fixture.tracker [] Fixture.always)
            (Sleep (CLOCKIFY_API_DELAY Fixture.env_live) :: GetUser
             :: events Fixture.store0)
          = Response true st' tx' (Return (w :: ws))
       /\ userId (service (snd (initialize Fixture.env_live
                                  (Fixture.tracker [] Fixture.always) Fixture.store0)))
          = Some (user_id u)
       /\ workspaceId (service (snd (initialize Fixture.env_live
                                       (Fixture.tracker [] Fixture.always) Fixture.store0)))
          = Some (workspace_id w).
Proof.
  assert (initialize Fixture.env_live (Fixture.tracker [] Fixture.always) Fixture.store0
          = (Return tt,
             snd (initialize Fixture.env_live (Fixture.tracker [] Fixture.always)
                    Fixture.store0))) as Hrun by (vm_compute; reflexivity).
  split; [exact Hrun|].
  destruct (proj1 (initialize_takes_first_workspace Fixture.env_live
                     (Fixture.tracker [] Fixture.always) Fixture.store0) _ Hrun)
    as (u & w & ws & st & tx & st' & tx' & Hu & Hw & Hid & Hwid & _).
  exists u, w, ws, st, tx, st', tx'. now repeat split.
Defined.

End InitializeExample.

(* ===================================================================== *)
(** ** The trace of the loop of a pass *)
(* ===================================================================== *)

Section RoundFacts.
Context `{Runtime}.
Variable env : Environment.
Variable world : World.

Import GoogleMeet.

Lemma posted_app (t1 t2 : list Event) : posted (t1 ++ t2) = posted t2 ++ posted t1.
Proof. unfold posted. now rewrite rev_app_distr, flat_map_app. Qed.

Lemma posted_cons (ev : Event) (t : list Event) :
  posted (ev :: t) = posted t ++ posted [ev].
Proof. apply (posted_app [ev] t). Qed.

Lemma paused_cons (ev : Event) (t : list Event) :
  paused (ev :: t) = (paused [ev] + paused t)%Z.
Proof. unfold paused. destruct ev; cbn; lia. Qed.

(** The creation attempt of the two loops, lines 97-122 of the worker and
    96-116 of the script, for the candidate [cand]: what it adds to the
    trace and how it counts. *)
Lemma creation_round (cand : CreateTimeEntryRequest) (c : Counters) (s : Store) :
  exists c' s' mid cool,
    try_catch
      (entry <- new_object cand ;;
       createTimeEntry (clockify world) entry ;;;
       sleep (CLOCKIFY_API_DELAY env) ;;;
       ret (incr_synced c))
      (fun error =>
         let errorMessage := Common.getErrorMessage error in
         rateLimitCooldown errorMessage ;;;
         ret (incr_failed c)) s = (Return c', s')
    /\ service s' = service s
    /\ events s' = cool ++ mid ++ CallCreateTimeEntry cand :: events s
    /\ ((truthy_opt (workspaceId (service s)) = false /\ mid = [])
        \/ (truthy_opt (workspaceId (service s)) = true
            /\ exists ok, mid = [PostTimeEntry (or_empty (workspaceId (service s)))
                                   (submitted (service s) cand) ok]))
    /\ ((c' = incr_synced c /\ cool = [Sleep (CLOCKIFY_API_DELAY env)])
        \/ (c' = incr_failed c /\ (cool = [] \/ cool = [Sleep 200]))).
Proof.
  unfold try_catch, bind at 1. unfold new_object at 1.
  set (l := fresh (dom (heap s))).
  set (s0 := {| service := service s; heap := <[l:=cand]> (heap s);
                events := events s |}).
  destruct (createTimeEntry_spec (clockify world) l s0 cand)
    as (out & s1 & t & Hrun & Hsv & Hev & Hcase).
  { apply lookup_insert_eq. }
  unfold bind at 1. rewrite Hrun. cbn in Hsv, Hev, Hcase.
  assert ((truthy_opt (workspaceId (service s)) = false /\ t = [])
          \/ (truthy_opt (workspaceId (service s)) = true
              /\ exists ok, t = [PostTimeEntry (or_empty (workspaceId (service s)))
                                   (submitted (service s) cand) ok])) as Hmid.
  { destruct Hcase as [(Hw & -> & _)|(Hw & ok & -> & _)]; [now left|right].
    split; [exact Hw | now exists ok]. }
  destruct out as [a|e].
  - unfold_js. cbn.
    eexists _, _, t, [Sleep (CLOCKIFY_API_DELAY env)].
    split; [reflexivity|]. cbn. split; [exact Hsv|].
    split; [now rewrite Hev|]. split; [exact Hmid | now left].
  - unfold Common.getErrorMessage. cbv zeta.
    destruct (rateLimitCooldown_spec e s1) as (s2 & t2 & Hr & Hsv2 & Hev2 & Ht2).
    unfold bind. rewrite Hr. unfold ret.
    eexists _, _, t, t2.
    split; [reflexivity|]. split; [congruence|].
    split; [now rewrite Hev2, Hev|]. split; [exact Hmid | right; now split].
Qed.

End RoundFacts.

Section LoopTraces.
Context `{Runtime}.
Variable env : Environment.
Variable world : World.

Import GoogleMeet SyncWorker.

Lemma syncMeeting_round (ex : list ClockifyTimeEntry) (m : MeetingSession)
    (c : Counters) (s : Store) :
  alreadySynced ex (meetingIdentifier m) = false ->
  DRY_RUN env = false ->
  exists c' s' mid cool,
    syncMeeting env world ex m c s = (Return c', s')
    /\ service s' = service s
    /\ events s' = cool ++ mid ++ CallCreateTimeEntry (candidate m) :: events s
    /\ ((truthy_opt (workspaceId (service s)) = false /\ mid = [])
        \/ (truthy_opt (workspaceId (service s)) = true
            /\ exists ok, mid = [PostTimeEntry (or_empty (workspaceId (service s)))
                                   (submitted (service s) (candidate m)) ok]))
    /\ ((c' = incr_synced c /\ cool = [Sleep (CLOCKIFY_API_DELAY env)])
        \/ (c' = incr_failed c /\ (cool = [] \/ cool = [Sleep 200]))).
Proof.
  intros E D. unfold syncMeeting. rewrite E, D.
  apply (creation_round env world (candidate m) c s).
Qed.

End LoopTraces.

(** X14.  A live pass of the worker whose service has a workspace submits
    one entry for each meeting without sync evidence, in the order of the
    meeting list and each with the project of the service attached, and
    submits nothing else. *)
Theorem live_loop_submits_pending_in_order `{Runtime} (env : Environment) (world : World)
    (ex : list ClockifyTimeEntry) (ms : list GoogleMeet.MeetingSession)
    (c c' : Counters) (s s' : Store) :
  DRY_RUN env = false ->
  truthy_opt (workspaceId (service s)) = true ->
  SyncWorker.syncMeetings env world ex ms c s = (Return c', s') ->
  posted (events s')
  = posted (events s)
    ++ map (fun m => submitted (service s) (SyncWorker.candidate m)) (pending ex ms).
Proof.
  intros D Hw. revert c s Hw.
  induction ms as [|m ms IH]; intros c s Hw Hrun.
  - cbn in Hrun. unfold ret in Hrun. inversion Hrun; subst.
    cbn. now rewrite app_nil_r.
  - cbn [SyncWorker.syncMeetings] in Hrun. unfold bind at 1 in Hrun.
    destruct (SyncWorker.alreadySynced ex (SyncWorker.meetingIdentifier m)) eqn:E.
    + rewrite (syncMeeting_skip env world ex m c s E) in Hrun.
      rewrite (pending_cons_skip ex m ms E). now apply (IH (incr_skipped c)).
    + destruct (syncMeeting_round env world ex m c s E D)
        as (c1 & s1 & mid & cool & Hrun1 & Hsv1 & Hev1 & Hmid & Hcool).
      rewrite Hrun1 in Hrun.
      rewrite (pending_cons_keep ex m ms E). cbn [map].
      rewrite (IH c1 s1) by (rewrite ?Hsv1; assumption).
      rewrite Hsv1, Hev1.
      destruct Hmid as [[Hno _]|(_ & ok & ->)]; [congruence|].
      rewrite posted_app. cbn [app]. rewrite (posted_cons (PostTimeEntry _ _ _)).
      rewrite (posted_cons (CallCreateTimeEntry _)).
      assert (posted cool = []) as ->.
      { destruct Hcool as [[_ ->]|[_ [->| ->]]]; reflexivity. }
      cbn. rewrite !app_nil_r, <- app_assoc. reflexivity.
Qed.

Section LoopExample.
#[local] Existing Instance Host.runtime.

Lemma live_loop_submits_pending_in_order_witness :
  let world := Fixture.world_of (Return []) (Fixture.tracker [] Fixture.all_but_second) in
  let ex := [Fixture.entry_with (SyncWorker.describe Fixture.meeting_b)] in
  let ms := [Fixture.meeting_a; Fixture.meeting_b; Fixture.meeting_c] in
  let run := SyncWorker.syncMeetings Fixture.env_live world ex ms zeroCounters
               Fixture.store_ready in
  DRY_RUN Fixture.env_live = false
  /\ truthy_opt (workspaceId (service Fixture.store_ready)) = true
  /\ posted (events (snd run))
     = posted (events Fixture.store_ready)
       ++ map (fun m => submitted (service Fixture.store_ready) (SyncWorker.candidate m))
              (pending ex ms).
Proof.
  intros world ex ms run.
  split; [reflexivity|]. split; [reflexivity|].
  apply (live_loop_submits_pending_in_order Fixture.env_live world ex ms zeroCounters
           (match fst run with Return c => c | Throw _ => zeroCounters end)
           Fixture.store_ready (snd run)).
  - reflexivity.
  - reflexivity.
  - vm_compute; reflexivity.
Defined.

End LoopExample.

(** X15.  The time a live pass of the worker sleeps in its loop: the
    configured delay once for each entry it counts as synced, 200 ms for
    some of the meetings it counts as failed, and nothing else. *)
Theorem live_loop_pauses `{Runtime} (env : Environment) (world : World)
    (ex : list ClockifyTimeEntry) (ms : list GoogleMeet.MeetingSession)
    (c c' : Counters) (s s' : Store) :
  DRY_RUN env = false ->
  SyncWorker.syncMeetings env world ex ms c s = (Return c', s') ->
  exists k : nat,
    (k + failedCount c <= failedCount c')%nat
    /\ (paused (events s') - paused (events s)
        = CLOCKIFY_API_DELAY env
          * (Z.of_nat (syncedCount c') - Z.of_nat (syncedCount c))
          + 200 * Z.of_nat k)%Z.
Proof.
  intros D. revert c s.
  induction ms as [|m ms IH]; intros c s Hrun.
  - cbn in Hrun. unfold ret in Hrun. inversion Hrun; subst. exists 0%nat. lia.
  - cbn [SyncWorker.syncMeetings] in Hrun. unfold bind at 1 in Hrun.
    destruct (SyncWorker.alreadySynced ex (SyncWorker.meetingIdentifier m)) eqn:E.
    + rewrite (syncMeeting_skip env world ex m c s E) in Hrun.
      destruct (IH _ _ Hrun) as (k & Hk & Hp). exists k. cbn in Hk, Hp. now split.
    + destruct (syncMeeting_round env world ex m c s E D)
        as (c1 & s1 & mid & cool & Hrun1 & Hsv1 & Hev1 & Hmid & Hcool).
      rewrite Hrun1 in Hrun.
      destruct (IH _ _ Hrun) as (k & Hk & Hp).
      assert (paused (events s1) = (paused cool + paused (events s))%Z) as Hs1.
      { rewrite Hev1, !paused_app, (paused_cons (CallCreateTimeEntry _)).
        destruct Hmid as [[_ ->]|(_ & ok & ->)]; unfold paused; cbn; lia. }
      destruct Hcool as [[-> ->]|[-> [->| ->]]]; cbn in Hk, Hp, Hs1.
      * exists k. split; [exact Hk | lia].
      * exists k. split; lia.
      * exists (S k). split; lia.
Qed.

Section PauseExample.
#[local] Existing Instance Host.runtime.

Lemma live_loop_pauses_witness :
  let world := Fixture.world_of (Return []) (Fixture.tracker [] Fixture.all_but_second) in
  let ex := [Fixture.entry_with (SyncWorker.describe Fixture.meeting_b)] in
  let ms := [Fixture.meeting_a; Fixture.meeting_b; Fixture.meeting_c] in
  let run := SyncWorker.syncMeetings Fixture.env_live world ex ms zeroCounters
               Fixture.store_ready in
  let c' := match fst run with Return c => c | Throw _ => zeroCounters end in
  DRY_RUN Fixture.env_live = false
  /\ run = (Return c', snd run)
  /\ exists k : nat,
       (k + failedCount zeroCounters <= failedCount c')%nat
       /\ (paused (events (snd run)) - paused (events Fixture.store_ready)
           = CLOCKIFY_API_DELAY Fixture.env_live
             * (Z.of_nat (syncedCount c') - Z.of_nat (syncedCount zeroCounters))
             + 200 * Z.of_nat k)%Z.
Proof.
  intros world ex ms run c'.
  assert (run = (Return c', snd run)) as Hrun by (vm_compute; reflexivity).
  split; [reflexivity|]. split; [exact Hrun|].
  exact (live_loop_pauses Fixture.env_live world ex ms zeroCounters c'
           Fixture.store_ready (snd run) eq_refl Hrun).
Defined.

End PauseExample.

Section StartFacts.
Context `{Runtime}.
Variable env : Environment.
Variable world : World.

Import SyncWorker.

Lemma initializeServices_fetches_nothing : quiet is_fetch (initializeServices env world).
Proof.
  unfold initializeServices, initialize, getOrCreateLeagueProject, sleep.
  repeat quiet_step.
Qed.

End StartFacts.

(** X16.  When the initialisation of the two services fails, the pass throws
    the same error and has requested neither the meetings nor any time
    entry. *)
Theorem failed_start_fetches_nothing `{Runtime} (env : Environment) (world : World)
    (s s0 : Store) (e : string) :
  SyncWorker.initializeServices env world s = (Throw e, s0) ->
  SyncWorker.processSyncJob env world s = (Throw e, s0)
  /\ exists t, events s0 = t ++ events s /\ free_of is_fetch t.
Proof.
  intros Hinit. split.
  - now apply processSyncJob_uninitialised.
  - destruct (initializeServices_fetches_nothing env world s) as (t & Ht & Hfree).
    rewrite Hinit in Ht. now exists t.
Qed.

Section StartExample.
#[local] Existing Instance Host.runtime.

Lemma failed_start_fetches_nothing_witness :
  let world := {| now := 0; meet_initialize := Throw "No valid tokens";
                  meet_getConferenceRecords := fun _ _ => Return [Fixture.meeting_a];
                  clockify := Fixture.tracker [] Fixture.always |} in
  let run := SyncWorker.initializeServices Fixture.env_live world Fixture.store0 in
  run = (Throw "No valid tokens", snd run)
  /\ SyncWorker.processSyncJob Fixture.env_live world Fixture.store0
     = (Throw "No valid tokens", snd run)
  /\ exists t, events (snd run) = t ++ events Fixture.store0 /\ free_of is_fetch t.
Proof.
  intros world run.
  assert (run = (Throw "No valid tokens", snd run)) as Hrun by (vm_compute; reflexivity).
  split; [exact Hrun|].
  exact (failed_start_fetches_nothing Fixture.env_live world Fixture.store0 (snd run)
           "No valid tokens" Hrun).
Defined.

End StartExample.

(* ===================================================================== *)
(** ** The loop of the script *)
(* ===================================================================== *)

Section ScriptLoop.
Context `{Runtime}.
Variable env : Environment.
Variable world : World.

Import GoogleMeet.

Lemma script_pending_cons_skip (ex : list ClockifyTimeEntry) (m : MeetingSession)
    (ms : list MeetingSession) :
  SyncScript.alreadySynced ex (SyncScript.meetingIdentifier m) = true ->
  script_pending ex (m :: ms) = script_pending ex ms.
Proof. intros E. unfold script_pending. cbn. now rewrite E. Qed.

Lemma script_pending_cons_keep (ex : list ClockifyTimeEntry) (m : MeetingSession)
    (ms : list MeetingSession) :
  SyncScript.alreadySynced ex (SyncScript.meetingIdentifier m) = false ->
  script_pending ex (m :: ms) = m :: script_pending ex ms.
Proof. intros E. unfold script_pending. cbn. now rewrite E. Qed.

Lemma script_syncMeeting_skip (ex : list ClockifyTimeEntry) (m : MeetingSession)
    (c : Counters) (s : Store) :
  SyncScript.alreadySynced ex (SyncScript.meetingIdentifier m) = true ->
  SyncScript.syncMeeting env world ex m c s = (Return (incr_skipped c), s).
Proof. intros E. unfold SyncScript.syncMeeting. now rewrite E. Qed.

Lemma script_syncMeeting_round (ex : list ClockifyTimeEntry) (m : MeetingSession)
    (c : Counters) (s : Store) :
  SyncScript.alreadySynced ex (SyncScript.meetingIdentifier m) = false ->
  exists c' s' mid cool,
    SyncScript.syncMeeting env world ex m c s = (Return c', s')
    /\ service s' = service s
    /\ events s' = cool ++ mid ++ CallCreateTimeEntry (SyncScript.candidate m) :: events s
    /\ ((truthy_opt (workspaceId (service s)) = false /\ mid = [])
        \/ (truthy_opt (workspaceId (service s)) = true
            /\ exists ok, mid = [PostTimeEntry (or_empty (workspaceId (service s)))
                                   (submitted (service s) (SyncScript.candidate m)) ok]))
    /\ ((c' = incr_synced c /\ cool = [Sleep (CLOCKIFY_API_DELAY env)])
        \/ (c' = incr_failed c /\ (cool = [] \/ cool = [Sleep 200]))).
Proof.
  intros E. unfold SyncScript.syncMeeting. rewrite E.
  apply (creation_round env world (SyncScript.candidate m) c s).
Qed.

End ScriptLoop.

(** X17.  The loop of the script has no dry run: with a workspace set it
    always completes, counts every meeting once, and submits one entry for
    each meeting without evidence for the script's tag, in the order of the
    meeting list. *)
Theorem script_loop_submits_pending_in_order `{Runtime} (env : Environment) (world : World)
    (ex : list ClockifyTimeEntry) (ms : list GoogleMeet.MeetingSession)
    (c : Counters) (s : Store) :
  truthy_opt (workspaceId (service s)) = true ->
  exists c' s',
    SyncScript.syncMeetings env world ex ms c s = (Return c', s')
    /\ counted c' = (counted c + length ms)%nat
    /\ posted (events s')
       = posted (events s)
         ++ map (fun m => submitted (service s) (SyncScript.candidate m))
                (script_pending ex ms).
Proof.
  revert c s.
  induction ms as [|m ms IH]; intros c s Hw.
  - exists c, s. cbn. unfold ret. repeat split; [lia | now rewrite app_nil_r].
  - cbn [SyncScript.syncMeetings]. unfold bind at 1.
    destruct (SyncScript.alreadySynced ex (SyncScript.meetingIdentifier m)) eqn:E.
    + rewrite (script_syncMeeting_skip env world ex m c s E).
      destruct (IH (incr_skipped c) s Hw) as (c' & s' & Hrun & Hn & Hp).
      exists c', s'. rewrite (script_pending_cons_skip ex m ms E).
      split; [exact Hrun|]. split; [|exact Hp].
      rewrite Hn. unfold counted. cbn. lia.
    + destruct (script_syncMeeting_round env world ex m c s E)
        as (c1 & s1 & mid & cool & Hrun1 & Hsv1 & Hev1 & Hmid & Hcool).
      rewrite Hrun1.
      destruct (IH c1 s1) as (c' & s' & Hrun & Hn & Hp); [now rewrite Hsv1|].
      exists c', s'. rewrite (script_pending_cons_keep ex m ms E).
      split; [exact Hrun|]. split.
      * rewrite Hn. destruct Hcool as [[-> _]|[-> _]]; unfold counted; cbn; lia.
      * rewrite Hp, Hsv1, Hev1. cbn [map].
        destruct Hmid as [[Hno _]|(_ & ok & ->)]; [congruence|].
        rewrite posted_app. cbn [app]. rewrite (posted_cons (PostTimeEntry _ _ _)).
        rewrite (posted_cons (CallCreateTimeEntry _)).
        assert (posted cool = []) as ->.
        { destruct Hcool as [[_ ->]|[_ [->| ->]]]; reflexivity. }
        cbn. rewrite !app_nil_r, <- app_assoc. reflexivity.
Qed.

Section ScriptLoopExample.
#[local] Existing Instance Host.runtime.

Lemma script_loop_submits_pending_in_order_witness :
  let world := Fixture.world_of (Return []) (Fixture.tracker [] Fixture.all_but_second) in
  let ex := [Fixture.entry_with (SyncScript.describe Fixture.meeting_b)] in
  let ms := [Fixture.meeting_a; Fixture.meeting_b; Fixture.meeting_c] in
  truthy_opt (workspaceId (service Fixture.store_ready)) = true
  /\ exists c' s',
       SyncScript.syncMeetings Fixture.env_live world ex ms zeroCounters Fixture.store_ready
       = (Return c', s')
       /\ counted c' = (counted zeroCounters + length ms)%nat
       /\ posted (events s')
          = posted (events Fixture.store_ready)
            ++ map (fun m => submitted (service Fixture.store_ready)
                               (SyncScript.candidate m))
                   (script_pending ex ms).
Proof.
  intros world ex ms. split; [reflexivity|].
  exact (script_loop_submits_pending_in_order Fixture.env_live world ex ms zeroCounters
           Fixture.store_ready eq_refl).
Defined.

End ScriptLoopExample.

(* ===================================================================== *)
(** ** Tags across the code paths *)
(* ===================================================================== *)

Section CharFacts.

Lemma append_nil_l (s : string) : "" +:+ s = s.
Proof. reflexivity. Qed.

Lemma lacks_append (c : ascii) (s t : string) :
  lacks c (s +:+ t) = lacks c s && lacks c t.
Proof.
  induction s as [|a s IH]; [reflexivity|].
  rewrite append_cons. cbn. rewrite IH. now rewrite andb_assoc.
Qed.

Lemma lacks_cons (c a : ascii) (s : string) :
  lacks c (String a s) = negb (Ascii.eqb a c) && lacks c s.
Proof. reflexivity. Qed.

Lemma includes_cons (a : ascii) (s t : string) :
  includes (String a s) t = if startsWith (String a s) t then true else includes s t.
Proof. reflexivity. Qed.

Lemma startsWith_lacks (c : ascii) (s t : string) :
  lacks c s = true -> startsWith s (String c t) = false.
Proof.
  destruct s as [|a s]; [reflexivity|]. cbn.
  destruct (Ascii.eqb a c); [discriminate | reflexivity].
Qed.

Lemma includes_lacks (c : ascii) (s t : string) :
  lacks c s = true -> includes s (String c t) = false.
Proof.
  induction s as [|a s IH]; intros Hs; [reflexivity|].
  rewrite includes_cons, (startsWith_lacks c _ t Hs).
  apply IH. cbn in Hs. now apply andb_true_iff in Hs as [_ Hs].
Qed.

Lemma includes_skip (c : ascii) (p s t : string) :
  lacks c p = true -> includes (p +:+ s) (String c t) = includes s (String c t).
Proof.
  induction p as [|a p IH]; intros Hp; [reflexivity|].
  rewrite append_cons, includes_cons.
  cbn in Hp. apply andb_true_iff in Hp as [Ha Hp].
  cbn [startsWith]. apply negb_true_iff in Ha. rewrite Ha. now apply IH.
Qed.

Lemma startsWith_cancel (p s t : string) :
  startsWith (p +:+ s) (p +:+ t) = startsWith s t.
Proof.
  induction p as [|a p IH]; [reflexivity|].
  rewrite !append_cons. cbn [startsWith]. now rewrite Ascii.eqb_refl.
Qed.

Lemma string_of_uint_lacks (d : Decimal.uint) :
  lacks "[" (NilEmpty.string_of_uint d) = true.
Proof. induction d; cbn; auto. Qed.

Lemma String_of_Z_lacks (n : Z) : lacks "[" (String_of_Z n) = true.
Proof.
  unfold String_of_Z, NilZero.string_of_int, NilZero.string_of_uint.
  destruct (Z.to_int n) as [d|d]; destruct d; cbn; auto using string_of_uint_lacks.
Qed.

End CharFacts.

Section CrossFacts.
Context `{Runtime}.

Import GoogleMeet.

(** Nothing before the tag of a description of the worker opens a bracket. *)
Lemma worker_display_lacks (m : MeetingSession) :
  lacks "[" (meetingCode m) = true ->
  lacks "[" (toLocaleTimeString (startTime m)) = true ->
  lacks "[" (if truthy (meetingCode m)
             then "Meet: " +:+ meetingCode m
             else "Google Meet (" +:+ toLocaleTimeString (startTime m) +:+ ")") = true.
Proof.
  intros Hc Hl. destruct (truthy (meetingCode m));
    rewrite ?lacks_append, ?Hc, ?Hl; reflexivity.
Qed.

Lemma script_display_lacks (m : MeetingSession) :
  lacks "[" (meetingCode m) = true ->
  lacks "[" (if truthy (meetingCode m) then "Code: " +:+ meetingCode m else "Meeting")
  = true.
Proof.
  intros Hc. destruct (truthy (meetingCode m)); rewrite ?lacks_append, ?Hc; reflexivity.
Qed.

End CrossFacts.

(** X18.  The two tags do not match each other's entries: the description
    the script writes for a meeting does not contain the worker's tag of that
    meeting, and the description the worker writes does not contain the
    script's tag, when the code, the identifier and the printed times of the
    meeting have no opening bracket. *)
Theorem paths_do_not_see_each_other `{Runtime} (m : GoogleMeet.MeetingSession) :
  lacks "[" (GoogleMeet.meetingCode m) = true ->
  lacks "[" (GoogleMeet.meetingId m) = true ->
  lacks "[" (toISOString (GoogleMeet.startTime m)) = true ->
  lacks "[" (toLocaleTimeString (GoogleMeet.startTime m)) = true ->
  includes (SyncScript.describe m) (SyncWorker.meetingIdentifier m) = false
  /\ includes (SyncWorker.describe m) (SyncScript.meetingIdentifier m) = false.
Proof.
  intros Hc Hi Ht Hl. split.
  - unfold SyncScript.describe, SyncWorker.meetingIdentifier. cbv zeta.
    rewrite (append_cons "[" "Meet:").
    rewrite 7 includes_skip;
      try reflexivity; try apply String_of_Z_lacks; try now apply script_display_lacks.
    unfold SyncScript.meetingIdentifier.
    rewrite (append_cons "[" "Meet:" (GoogleMeet.meetingId m +:+ _)), includes_cons.
    rewrite <- !append_cons. rewrite 2 startsWith_cancel.
    rewrite append_cons. cbn [startsWith Ascii.eqb Bool.eqb].
    rewrite append_cons. apply includes_lacks.
    repeat rewrite ?lacks_cons, ?lacks_append. rewrite Hi, Ht. reflexivity.
  - unfold SyncWorker.describe, SyncScript.meetingIdentifier. cbv zeta.
    rewrite (append_cons "[" "Meet:").
    rewrite 7 includes_skip;
      try reflexivity; try apply String_of_Z_lacks; try now apply worker_display_lacks.
    unfold SyncWorker.meetingIdentifier.
    rewrite (append_cons "[" "Meet:" (GoogleMeet.meetingId m +:+ _)), includes_cons.
    rewrite <- !append_cons. rewrite 2 startsWith_cancel.
    rewrite append_cons. cbn [startsWith Ascii.eqb Bool.eqb].
    rewrite append_cons. apply includes_lacks.
    repeat rewrite ?lacks_cons, ?lacks_append. rewrite Hi. reflexivity.
Qed.

Section CrossExample.
#[local] Existing Instance Host.runtime.

Lemma paths_do_not_see_each_other_witness :
  lacks "[" (GoogleMeet.meetingCode Fixture.meeting_a) = true
  /\ lacks "[" (GoogleMeet.meetingId Fixture.meeting_a) = true
  /\ lacks "[" (toISOString (GoogleMeet.startTime Fixture.meeting_a)) = true
  /\ lacks "[" (toLocaleTimeString (GoogleMeet.startTime Fixture.meeting_a)) = true
  /\ includes (SyncScript.describe Fixture.meeting_a)
              (SyncWorker.meetingIdentifier Fixture.meeting_a) = false
  /\ includes (SyncWorker.describe Fixture.meeting_a)
              (SyncScript.meetingIdentifier Fixture.meeting_a) = false.
Proof.
  do 4 (split; [vm_compute; reflexivity|]).
  apply (paths_do_not_see_each_other Fixture.meeting_a); vm_compute; reflexivity.
Defined.

End CrossExample.

(* ===================================================================== *)
(** ** The investigation script reads the tags back *)
(* ===================================================================== *)

Section ParseFacts.

Import Investigate.

Lemma match_meet_cons (a : ascii) (s : string) :
  match_meet (String a s)
  = match match_here (String a s) with
    | Some id => Some id
    | None => match_meet s
    end.
Proof. reflexivity. Qed.

Lemma match_here_lacks (s : string) : lacks "[" s = true -> match_here s = None.
Proof.
  destruct s as [|a s]; [reflexivity|]. cbn [lacks]. intros Hs.
  apply andb_true_iff in Hs as [Ha _]. apply negb_true_iff in Ha.
  unfold match_here. cbn [after_prefix]. now rewrite Ha.
Qed.

Lemma match_meet_skip (p s : string) :
  lacks "[" p = true -> match_meet (p +:+ s) = match_meet s.
Proof.
  induction p as [|a p IH]; intros Hp; [reflexivity|].
  rewrite append_cons, match_meet_cons.
  cbn [lacks] in Hp. apply andb_true_iff in Hp as [Ha Hp].
  apply negb_true_iff in Ha.
  unfold match_here. cbn [after_prefix]. rewrite Ha. now apply IH.
Qed.

Lemma until_bracket_lacks (id rest : string) :
  lacks "]" id = true -> until_bracket (id +:+ String "]" rest) = Some id.
Proof.
  induction id as [|a id IH]; intros Hid; [reflexivity|].
  rewrite append_cons. cbn [lacks] in Hid. apply andb_true_iff in Hid as [Ha Hid].
  apply negb_true_iff in Ha. cbn [until_bracket]. rewrite Ha, IH by exact Hid.
  reflexivity.
Qed.

(** The pattern on a string that starts with a well-formed tag. *)
Lemma match_meet_tag (id rest : string) :
  truthy id = true -> lacks "]" id = true ->
  match_meet ("[Meet:" +:+ id +:+ String "]" rest) = Some id.
Proof.
  intros Hne Hid.
  assert (match_here ("[Meet:" +:+ id +:+ String "]" rest) = Some id) as Hhere.
  { unfold match_here.
    change (after_prefix "[Meet:" ("[Meet:" +:+ id +:+ String "]" rest))
      with (Some (id +:+ String "]" rest)).
    cbv beta iota. now rewrite until_bracket_lacks, Hne. }
  change ("[Meet:" +:+ id +:+ String "]" rest)
    with (String "[" ("Meet:" +:+ id +:+ String "]" rest)) in *.
  now rewrite match_meet_cons, Hhere.
Qed.

End ParseFacts.

(** X19.  The investigation script reads back from an entry of the worker
    the identifier of its meeting, when that identifier is not empty and has
    no closing bracket and neither the code nor the printed time of the
    meeting has an opening bracket. *)
Theorem investigation_reads_the_meeting_back `{Runtime} (m : GoogleMeet.MeetingSession) :
  truthy (GoogleMeet.meetingId m) = true ->
  lacks "]" (GoogleMeet.meetingId m) = true ->
  lacks "[" (GoogleMeet.meetingCode m) = true ->
  lacks "[" (toLocaleTimeString (GoogleMeet.startTime m)) = true ->
  Investigate.match_meet (SyncWorker.describe m) = Some (GoogleMeet.meetingId m).
Proof.
  intros Hne Hid Hc Hl.
  unfold SyncWorker.describe, SyncWorker.meetingIdentifier. cbv zeta.
  rewrite 7 match_meet_skip;
    try reflexivity; try apply String_of_Z_lacks; try now apply worker_display_lacks.
  now apply (match_meet_tag (GoogleMeet.meetingId m) "").
Qed.

Section ParseExample.
#[local] Existing Instance Host.runtime.

Lemma investigation_reads_the_meeting_back_witness :
  truthy (GoogleMeet.meetingId Fixture.meeting_a) = true
  /\ lacks "]" (GoogleMeet.meetingId Fixture.meeting_a) = true
  /\ lacks "[" (GoogleMeet.meetingCode Fixture.meeting_a) = true
  /\ lacks "[" (toLocaleTimeString (GoogleMeet.startTime Fixture.meeting_a)) = true
  /\ Investigate.match_meet (SyncWorker.describe Fixture.meeting_a)
     = Some (GoogleMeet.meetingId Fixture.meeting_a).
Proof.
  do 4 (split; [vm_compute; reflexivity|]).
  apply (investigation_reads_the_meeting_back Fixture.meeting_a); vm_compute; reflexivity.
Defined.

End ParseExample.

Section GroupFacts.

Import Investigate.

Lemma push_keys (id : string) (entry : ClockifyTimeEntry) (groups : Groups) :
  (In id (map fst groups) /\ map fst (push id entry groups) = map fst groups)
  \/ (~ In id (map fst groups) /\ map fst (push id entry groups) = map fst groups ++ [id]).
Proof.
  induction groups as [|[key entries] rest IH]; cbn.
  - right. split; [tauto | reflexivity].
  - destruct (String.eqb key id) eqn:E.
    + apply String.eqb_eq in E. left. split; [now left | reflexivity].
    + apply String.eqb_neq in E. destruct IH as [[Hin Hk]|[Hnin Hk]].
      * left. split; [now right | cbn; now rewrite Hk].
      * right. split; [intros [?|?]; tauto | cbn; now rewrite Hk].
Qed.

Lemma push_members (id : string) (entry : ClockifyTimeEntry) (groups : Groups)
    (key : string) (entries : list ClockifyTimeEntry) :
  In (key, entries) (push id entry groups) ->
  (In (key, entries) groups)
  \/ (key = id /\ (entries = [entry]
                   \/ exists before, In (key, before) groups /\ entries = before ++ [entry])).
Proof.
  induction groups as [|[k es] rest IH]; cbn.
  - intros [E|[]]. inversion E; subst. right. split; [reflexivity | now left].
  - destruct (String.eqb k id) eqn:E.
    + apply String.eqb_eq in E. subst k. intros [E'|Hin].
      * inversion E'; subst. right. split; [reflexivity|]. right. exists es.
        split; [now left | reflexivity].
      * left. now right.
    + intros [E'|Hin].
      * left. now left.
      * destruct (IH Hin) as [Hold|[-> [->|(before & Hb & ->)]]].
        -- left. now right.
        -- right. split; [reflexivity | now left].
        -- right. split; [reflexivity|]. right. exists before. split; [now right | reflexivity].
Qed.

Lemma push_grouped (id : string) (entry : ClockifyTimeEntry) (groups : Groups) :
  grouped (push id entry groups) = S (grouped groups).
Proof.
  induction groups as [|[key entries] rest IH]; [reflexivity|]. cbn [push].
  destruct (String.eqb key id); unfold grouped in *; cbn.
  - rewrite length_app. cbn. lia.
  - rewrite IH. lia.
Qed.

Lemma push_well_grouped (from : list ClockifyTimeEntry) (entry : ClockifyTimeEntry)
    (id : string) (groups : Groups) :
  In entry from -> match_meet (entry_description entry) = Some id ->
  well_grouped from groups -> well_grouped from (push id entry groups).
Proof.
  intros Hfrom Hid [Hnd Hall]. split.
  - destruct (push_keys id entry groups) as [[_ ->]|[Hnin ->]]; [exact Hnd|].
    apply List.NoDup_app; [exact Hnd | apply List.NoDup_cons; [intros [] | constructor] |].
    intros x Hx [<-|[]]. contradiction.
  - intros key entries Hin.
    destruct (push_members id entry groups key entries Hin)
      as [Hold|[-> [->|(before & Hb & ->)]]].
    + now apply Hall.
    + split; [discriminate|]. intros e [<-|[]]. now split.
    + destruct (Hall id before Hb) as [_ Hbefore]. split.
      * destruct before; discriminate.
      * intros e He. apply in_app_or in He as [He|[<-|[]]]; [now apply Hbefore | now split].
Qed.

Lemma well_grouped_size (from : list ClockifyTimeEntry) (groups : Groups) :
  well_grouped from groups -> (length groups <= grouped groups)%nat.
Proof.
  intros [_ Hall]. induction groups as [|[key entries] rest IH]; [cbn; lia|].
  unfold grouped in *. cbn.
  assert (entries <> []) as Hne by (apply (Hall key entries); now left).
  assert (length rest <= fold_right (fun g n => length (snd g) + n) 0 rest)%nat as Hrest.
  { apply IH. intros k es Hin. apply (Hall k es). now right. }
  destruct entries; [contradiction | cbn; lia].
Qed.

Lemma fold_groupEntry (from : list ClockifyTimeEntry) (entries : list ClockifyTimeEntry) :
  forall groups : Groups,
    (forall entry, In entry entries -> In entry from) ->
    well_grouped from groups ->
    well_grouped from (fold_left groupEntry entries groups)
    /\ (grouped (fold_left groupEntry entries groups) + length (unparsed entries)
        = grouped groups + length entries)%nat.
Proof.
  induction entries as [|entry entries IH]; intros groups Hfrom Hwell.
  - split; [exact Hwell | reflexivity].
  - cbn [fold_left]. unfold unparsed. cbn [List.filter]. unfold groupEntry at 2 4.
    destruct (match_meet (entry_description entry)) as [id|] eqn:E.
    + destruct (IH (push id entry groups)) as [Hw Hn].
      * intros e He. apply Hfrom. now right.
      * apply push_well_grouped; [apply Hfrom; now left | exact E | exact Hwell].
      * split; [exact Hw|]. fold (unparsed entries).
        rewrite Hn, push_grouped. cbn [length]. lia.
    + destruct (IH groups) as [Hw Hn].
      * intros e He. apply Hfrom. now right.
      * exact Hwell.
      * split; [exact Hw|]. fold (unparsed entries). cbn [length]. lia.
Qed.

End GroupFacts.

(** X20.  The groups of the investigation script have distinct keys and no
    empty group, and every entry of a group is a tagged entry whose tag
    reads as the key.  The number printed as duplicates counts the entries
    of the groups beyond one for each group, and every tagged entry whose
    tag cannot be read. *)
Theorem investigation_counts (entries : list ClockifyTimeEntry) :
  well_grouped (Investigate.meetEntries entries) (Investigate.groupedByMeeting entries)
  /\ (length (Investigate.groupedByMeeting entries)
      <= grouped (Investigate.groupedByMeeting entries))%nat
  /\ Investigate.duplicateEntries entries
     = (Z.of_nat (grouped (Investigate.groupedByMeeting entries)
                  - length (Investigate.groupedByMeeting entries))
        + Z.of_nat (length (unparsed (Investigate.meetEntries entries))))%Z.
Proof.
  destruct (fold_groupEntry (Investigate.meetEntries entries)
              (Investigate.meetEntries entries) [])
    as [Hw Hn].
  - auto.
  - split; [constructor | intros key es []].
  - fold (Investigate.groupedByMeeting entries) in Hw, Hn.
    pose proof (well_grouped_size _ _ Hw) as Hle.
    split; [exact Hw|]. split; [exact Hle|].
    unfold Investigate.duplicateEntries. cbn in Hn. lia.
Qed.

(* ===================================================================== *)
(** ** The cleanup script *)
(* ===================================================================== *)

Section CleanupFacts.
Context `{Runtime}.
Variable env : Environment.
Variable deleter : Cleanup.Deleter.

Import Cleanup.

Lemma deletions_app (l1 l2 : list Step) : deletions (l1 ++ l2) = deletions l2 ++ deletions l1.
Proof. unfold deletions. now rewrite rev_app_distr, flat_map_app. Qed.

Lemma deletions_cons (step : Step) (log : list Step) :
  deletions (step :: log) = deletions log ++ deletions [step].
Proof. apply (deletions_app [step] log). Qed.

(** The loop: one request for each entry, in order, each counted once, and a
    pause after each but the last. *)
Lemma deleteAll_spec (entries : list ClockifyTimeEntry) :
  forall (d f : nat) (log : list Step),
  exists d' f' log',
    deleteAll env deleter entries d f log = (d', f', log')
    /\ (d' + f' = d + f + length entries)%nat
    /\ deletions log' = deletions log ++ map (deletion_of env) entries
    /\ pauses log' = repeat (CLOCKIFY_API_DELAY env) (length entries - 1) ++ pauses log
    /\ rev log' = rev log ++ separated (Pause (CLOCKIFY_API_DELAY env))
                                       (map (delete_step env) entries).
Proof.
  induction entries as [|entry rest IH]; intros d f log.
  - exists d, f, log. cbn. repeat split; [lia | now rewrite app_nil_r..].
  - cbn [deleteAll]. unfold deleteTimeEntry.
    set (log1 := Delete (entry_workspaceId entry) (entry_id entry)
                   (CLOCKIFY_API_TOKEN env) :: log).
    set (log2 := match rest with [] => log1 | _ :: _ => Pause (CLOCKIFY_API_DELAY env) :: log1 end).
    assert (deletions log2 = deletions log ++ [deletion_of env entry]) as Hd2.
    { unfold log2, log1. destruct rest;
        [|rewrite (deletions_cons (Pause _))]; rewrite (deletions_cons (Delete _ _ _));
        cbn; now rewrite ?app_nil_r. }
    assert (pauses log2
            = match rest with [] => [] | _ :: _ => [CLOCKIFY_API_DELAY env] end ++ pauses log)
      as Hp2.
    { unfold log2, log1. destruct rest; reflexivity. }
    assert (rev log2 ++ separated (Pause (CLOCKIFY_API_DELAY env))
                                  (map (delete_step env) rest)
            = rev log ++ separated (Pause (CLOCKIFY_API_DELAY env))
                                   (map (delete_step env) (entry :: rest))) as Hr2.
    { unfold log2, log1. destruct rest as [|next rest'].
      - cbn [rev map separated]. now rewrite app_nil_r.
      - cbn [rev map]. rewrite separated_cons, <- !app_assoc. reflexivity. }
    destruct (match deleter log _ _ _ with NetworkError _ => false | Response ok _ _ _ => ok end).
    + destruct (IH (S d) f log2) as (d' & f' & log' & Hrun & Hn & Hd & Hp & Hrev).
      exists d', f', log'. split; [exact Hrun|]. split; [cbn; lia|].
      split; [rewrite Hd, Hd2, <- app_assoc; reflexivity|].
      split; [|now rewrite Hrev].
      rewrite Hp, Hp2. destruct rest as [|e rest']; [reflexivity|].
      cbn [length]. replace (S (S (length rest')) - 1)%nat with (S (length rest')) by lia.
      replace (S (length rest') - 1)%nat with (length rest') by lia.
      rewrite app_assoc. f_equal. symmetry. apply (repeat_cons (length rest')).
    + destruct (IH d (S f) log2) as (d' & f' & log' & Hrun & Hn & Hd & Hp & Hrev).
      exists d', f', log'. split; [exact Hrun|]. split; [cbn; lia|].
      split; [rewrite Hd, Hd2, <- app_assoc; reflexivity|].
      split; [|now rewrite Hrev].
      rewrite Hp, Hp2. destruct rest as [|e rest']; [reflexivity|].
      cbn [length]. replace (S (S (length rest')) - 1)%nat with (S (length rest')) by lia.
      replace (S (length rest') - 1)%nat with (length rest') by lia.
      rewrite app_assoc. f_equal. symmetry. apply (repeat_cons (length rest')).
Qed.

End CleanupFacts.

(** X21.  The cleanup script sends a [DELETE] request only after both
    confirmations were given as asked, and then only for entries it has read
    whose description contains ["[Meet:"]. *)
Theorem cleanup_deletes_only_confirmed_tagged `{Runtime} (env : Environment) (world : World)
    (deleter : Cleanup.Deleter) (confirmation1 confirmation2 : string) (s : Store)
    (request : string * string * string) :
  In request
     (deletions (snd (Cleanup.cleanupGoogleMeetEntries env world deleter
                        confirmation1 confirmation2 s))) ->
  exists allEntries s1 entry,
    Cleanup.scan env world s = (Return allEntries, s1)
    /\ confirmation1
       = String_of_Z (Z.of_nat (length (Cleanup.meetEntries allEntries)))
    /\ confirmation2 = "DELETE GOOGLE MEET ENTRIES"
    /\ In entry allEntries
    /\ includes (entry_description entry) "[Meet:" = true
    /\ request = deletion_of env entry.
Proof.
  unfold Cleanup.cleanupGoogleMeetEntries.
  destruct (Cleanup.scan env world s) as [[allEntries|e] s1]; [|intros []].
  unfold Cleanup.purge.
  destruct (length (Cleanup.meetEntries allEntries) =? 0)%nat; [intros []|].
  destruct (String.eqb confirmation1 _) eqn:E1; [|intros []].
  destruct (String.eqb confirmation2 _) eqn:E2; [|intros []].
  apply String.eqb_eq in E1, E2. cbn [negb].
  destruct (deleteAll_spec env deleter (Cleanup.meetEntries allEntries) 0 0 [])
    as (d & f & log & Hrun & _ & Hd & _).
  rewrite Hrun.
  assert (In request (deletions log) ->
          exists entry, In entry allEntries
                        /\ includes (entry_description entry) "[Meet:" = true
                        /\ request = deletion_of env entry) as Hlog.
  { rewrite Hd. cbn. intros Hin. apply in_map_iff in Hin as (entry & <- & Hin).
    apply filter_In in Hin as [Hin Htag]. now exists entry. }
  destruct (Cleanup.verify env world s1) as [[v|e] s2]; cbn [snd]; intros Hin;
    destruct (Hlog Hin) as (entry & He & Htag & Hreq);
    exists allEntries, s1, entry; repeat split; assumption.
Qed.

Section CleanupExample.
#[local] Existing Instance Host.runtime.

Lemma cleanup_deletes_only_confirmed_tagged_witness :
  let world := Fixture.world_of (Return []) (Fixture.tracker Samples.three_entries
                                               Fixture.always) in
  let request := ("workspace-1", "entry", "token") in
  In request
     (deletions (snd (Cleanup.cleanupGoogleMeetEntries Fixture.env_live world
                        Samples.deleter "2" "DELETE GOOGLE MEET ENTRIES" Fixture.store0)))
  /\ exists allEntries s1 entry,
       Cleanup.scan Fixture.env_live world Fixture.store0 = (Return allEntries, s1)
       /\ "2" = String_of_Z (Z.of_nat (length (Cleanup.meetEntries allEntries)))
       /\ "DELETE GOOGLE MEET ENTRIES" = "DELETE GOOGLE MEET ENTRIES"
       /\ In entry allEntries
       /\ includes (entry_description entry) "[Meet:" = true
       /\ request = deletion_of Fixture.env_live entry.
Proof.
  intros world request.
  assert (In request
            (deletions (snd (Cleanup.cleanupGoogleMeetEntries Fixture.env_live world
                               Samples.deleter "2" "DELETE GOOGLE MEET ENTRIES"
                               Fixture.store0)))) as Hin
    by (vm_compute; left; reflexivity).
  split; [exact Hin|].
  exact (cleanup_deletes_only_confirmed_tagged Fixture.env_live world Samples.deleter
           "2" "DELETE GOOGLE MEET ENTRIES" Fixture.store0 request Hin).
Defined.

End CleanupExample.

(** X22.  Once both confirmations are given, what the cleanup script does,
    in order, is one deletion request for every tagged entry in the order
    read, with a pause of the configured delay between every two requests
    and nowhere else, so not after the last; it counts each request as
    deleted or failed. *)
Theorem confirmed_cleanup_requests_every_tagged_entry `{Runtime} (env : Environment)
    (deleter : Cleanup.Deleter) (confirmation1 confirmation2 : string)
    (allEntries : list ClockifyTimeEntry) :
  Cleanup.meetEntries allEntries <> [] ->
  confirmation1 = String_of_Z (Z.of_nat (length (Cleanup.meetEntries allEntries))) ->
  confirmation2 = "DELETE GOOGLE MEET ENTRIES" ->
  exists deletedCount failedCount log,
    Cleanup.purge env deleter confirmation1 confirmation2 allEntries
    = (Cleanup.Cleaned deletedCount failedCount, log)
    /\ (deletedCount + failedCount = length (Cleanup.meetEntries allEntries))%nat
    /\ deletions log = map (deletion_of env) (Cleanup.meetEntries allEntries)
    /\ pauses log
       = repeat (CLOCKIFY_API_DELAY env) (length (Cleanup.meetEntries allEntries) - 1)
    /\ rev log = separated (Cleanup.Pause (CLOCKIFY_API_DELAY env))
                           (map (delete_step env) (Cleanup.meetEntries allEntries)).
Proof.
  intros Hne -> ->. unfold Cleanup.purge.
  destruct (Cleanup.meetEntries allEntries) as [|entry rest] eqn:E; [contradiction|].
  cbn [length Nat.eqb]. rewrite !String.eqb_refl. cbn [negb].
  destruct (deleteAll_spec env deleter (entry :: rest) 0 0 [])
    as (d & f & log & Hrun & Hn & Hd & Hp & Hrev).
  rewrite Hrun. exists d, f, log. split; [reflexivity|].
  split; [exact Hn|]. split; [exact Hd|].
  split; [now rewrite Hp, app_nil_r | exact Hrev].
Qed.

Section PurgeExample.
#[local] Existing Instance Host.runtime.

Lemma confirmed_cleanup_requests_every_tagged_entry_witness :
  Cleanup.meetEntries Samples.three_entries <> []
  /\ exists deletedCount failedCount log,
       Cleanup.purge Fixture.env_live Samples.deleter "2" "DELETE GOOGLE MEET ENTRIES"
         Samples.three_entries
       = (Cleanup.Cleaned deletedCount failedCount, log)
       /\ (deletedCount + failedCount
           = length (Cleanup.meetEntries Samples.three_entries))%nat
       /\ deletions log
          = map (deletion_of Fixture.env_live) (Cleanup.meetEntries Samples.three_entries)
       /\ pauses log
          = repeat (CLOCKIFY_API_DELAY Fixture.env_live)
                   (length (Cleanup.meetEntries Samples.three_entries) - 1)
       /\ rev log = [Cleanup.Delete "workspace-1" "entry" "token";
                     Cleanup.Pause 50;
                     Cleanup.Delete "workspace-1" "entry" "token"].
Proof.
  assert (Cleanup.meetEntries Samples.three_entries <> []) as Hne
    by (vm_compute; discriminate).
  split; [exact Hne|].
  exact (confirmed_cleanup_requests_every_tagged_entry Fixture.env_live Samples.deleter
           "2" "DELETE GOOGLE MEET ENTRIES" Samples.three_entries Hne eq_refl eq_refl).
Defined.

End PurgeExample.

(* ===================================================================== *)
(** ** The other callers of the pass *)
(* ===================================================================== *)

Section PathFacts.
Context `{Runtime}.
Variable env : Environment.
Variable world : World.

Import GoogleMeet.

Lemma endpoint_syncMeetings (ex : list ClockifyTimeEntry) (ms : list MeetingSession) :
  forall (c : Counters) (s : Store),
    Endpoint.syncMeetings env world ex ms c s = SyncWorker.syncMeetings env world ex ms c s.
Proof.
  induction ms as [|m ms IH]; intros c s; [reflexivity|].
  cbn [Endpoint.syncMeetings SyncWorker.syncMeetings]. unfold bind.
  change (Endpoint.syncMeeting env world ex m c s)
    with (SyncWorker.syncMeeting env world ex m c s).
  destruct (SyncWorker.syncMeeting env world ex m c s) as [[c'|e] s1];
    [apply IH | reflexivity].
Qed.

Lemma cli_syncMeetings (ex : list ClockifyTimeEntry) (ms : list MeetingSession) :
  forall (c : Counters) (s : Store),
    Cli.syncMeetings env world ex ms c s = SyncWorker.syncMeetings env world ex ms c s.
Proof.
  induction ms as [|m ms IH]; intros c s; [reflexivity|].
  cbn [Cli.syncMeetings SyncWorker.syncMeetings]. unfold bind.
  change (Cli.syncMeeting env world ex m c s)
    with (SyncWorker.syncMeeting env world ex m c s).
  destruct (SyncWorker.syncMeeting env world ex m c s) as [[c'|e] s1];
    [apply IH | reflexivity].
Qed.

End PathFacts.

Ltac run_cases :=
  repeat (cbv beta iota zeta;
          rewrite ?endpoint_syncMeetings, ?cli_syncMeetings;
          match goal with
          | |- context [match ?x with _ => _ end] =>
              lazymatch x with
              | context [match _ with _ => _ end] => fail
              | _ => destruct x
              end
          end);
  cbv beta iota zeta; try reflexivity.

(** X23.  The [/sync] endpoint that runs the pass never throws: it makes the
    calls of the worker's pass, and replies with the result of that pass and
    the code 200, or, when the pass throws, with the status ["error"], the
    message of the error and the code 500. *)
Theorem endpoint_wraps_the_pass `{Runtime} (env : Environment) (world : World) (s : Store) :
  Endpoint.sync env world s
  = match SyncWorker.processSyncJob env world s with
    | (Return result, s') =>
        (Return {| Endpoint.code := 200; Endpoint.body := Endpoint.Result result |}, s')
    | (Throw e, s') =>
        (Return {| Endpoint.code := 500; Endpoint.body := Endpoint.Failure "error" e |}, s')
    end.
Proof.
  unfold Endpoint.sync, SyncWorker.processSyncJob, SyncWorker.initializeServices,
    SyncWorker.fetchMeetings, SyncWorker.fetchExistingEntries, SyncWorker.reconcile,
    SyncWorker.noMeetingsResult, SyncWorker.startDate, SyncWorker.endDate,
    Common.getErrorMessage.
  unfold try_catch, bind, await, emit, set_state, ret, throw.
  run_cases.
Qed.

Section CliFacts.
Context `{Runtime}.
Variable env : Environment.
Variable world : World.

Lemma free_of_cons (p : Event -> bool) (ev : Event) (t : list Event) :
  p ev = false -> free_of p t -> free_of p (ev :: t).
Proof. intros Hev Ht ev' [<-|Hin]; [exact Hev | now apply Ht]. Qed.

(** A run of the pass of the command line that throws has not entered
    [createTimeEntry]. *)
Lemma cli_throw_creates_nothing (s s1 : Store) (e : string) :
  Cli.syncMeetToClockify env world s = (Throw e, s1) ->
  exists t, events s1 = t ++ events s /\ free_of is_creation t.
Proof.
  unfold Cli.syncMeetToClockify. unfold try_catch, bind, await, emit, ret, throw.
  cbv beta iota zeta.
  destruct (meet_initialize world) as [[]|e0]; cbv beta iota zeta.
  2: { intros Hrun. inversion Hrun; subst. exists [MeetInitialize].
       split; [reflexivity|]. apply free_of_cons; [reflexivity | apply free_of_nil]. }
  destruct (initialize_creates_nothing env world (record MeetInitialize s))
    as (t1 & Ht1 & Hf1).
  destruct (initialize env (clockify world) (record MeetInitialize s)) as [[[]|e1] s2].
  2: { intros Hrun. inversion Hrun; subst. cbn [snd] in Ht1.
       exists (t1 ++ [MeetInitialize]). rewrite Ht1, <- app_assoc.
       split; [reflexivity|].
       apply free_of_app; [exact Hf1|].
       apply free_of_cons; [reflexivity | apply free_of_nil]. }
  cbn [snd] in Ht1.
  assert (free_of is_creation
            (GetConferenceRecords (minusDays (now world) (SYNC_DAYS env)) (now world)
             :: t1 ++ [MeetInitialize])) as Hf2.
  { apply free_of_cons; [reflexivity|]. apply free_of_app; [exact Hf1|].
    apply free_of_cons; [reflexivity | apply free_of_nil]. }
  destruct (meet_getConferenceRecords world _ _) as [meetings|e2]; cbv beta iota zeta.
  2: { intros Hrun. inversion Hrun; subst.
       exists (GetConferenceRecords (minusDays (now world) (SYNC_DAYS env)) (now world)
               :: t1 ++ [MeetInitialize]).
       split; [|exact Hf2].
       cbn [events record]. rewrite Ht1. cbn [events record app].
       now rewrite <- app_assoc. }
  destruct (length meetings =? 0)%nat; [discriminate|].
  match goal with
  | |- context [getTimeEntriesForDateRange ?r ?a ?b ?st] =>
      destruct (fetchExistingEntries_creates_nothing env world st) as (t3 & Ht3 & Hf3);
      change (SyncWorker.fetchExistingEntries env world st)
        with (getTimeEntriesForDateRange r a b st) in Ht3;
      destruct (getTimeEntriesForDateRange r a b st) as [[ex|e3] s3]
  end.
  2: { intros Hrun. inversion Hrun; subst. cbn [snd] in Ht3.
       exists (t3 ++ GetConferenceRecords (minusDays (now world) (SYNC_DAYS env))
                       (now world)
               :: t1 ++ [MeetInitialize]).
       split; [|apply free_of_app; [exact Hf3 | exact Hf2]].
       rewrite Ht3. cbn [events record]. rewrite Ht1. cbn [events record].
       rewrite <- !app_assoc. cbn [app]. now rewrite <- app_assoc. }
  rewrite cli_syncMeetings.
  destruct (syncMeetings_spec env world ex meetings zeroCounters s3)
    as (c & s4 & t & Hrun & _).
  rewrite Hrun. discriminate.
Qed.

End CliFacts.

(** X24.  The entry point of the command line runs the pass a second time
    only after a run that threw, and a run of the pass that throws has not
    entered [createTimeEntry].  After a run that returns, and after an error
    that does not mention missing credentials, the entry point ends as that
    run did. *)
Theorem main_creates_in_one_run `{Runtime} (env : Environment) (world : World)
    (authentication : Outcome unit) (retry : World) (s : Store) :
  let fresh := {| service := createClockifyService (CLOCKIFY_API_TOKEN env);
                  heap := heap s; events := events s |} in
  let first := Cli.syncMeetToClockify env world fresh in
  (forall counters, fst first = Return counters ->
     Cli.main env world authentication retry s = first)
  /\ (forall e, fst first = Throw e ->
        (exists t, events (snd first) = t ++ events s /\ free_of is_creation t)
        /\ (includes e "No saved credentials found" = false ->
            Cli.main env world authentication retry s = first)).
Proof.
  intros fresh first.
  assert (Cli.main env world authentication retry s
          = match first with
            | (Return counters, s') => (Return counters, s')
            | (Throw e, s') =>
                (if includes e "No saved credentials found"
                 then try_catch (await authentication ;;; Cli.syncMeetToClockify env retry)
                                (fun authError => throw authError)
                 else throw e) s'
            end) as Hmain by reflexivity.
  rewrite Hmain.
  destruct first as [[counters|e] s1] eqn:Hfirst; cbn [fst snd]; split.
  - reflexivity.
  - discriminate.
  - discriminate.
  - intros e' He'. inversion He'; subst e'. split.
    + apply (cli_throw_creates_nothing env world fresh s1 e Hfirst).
    + intros Hno. now rewrite Hno.
Qed.

Section CliExample.
#[local] Existing Instance Host.runtime.

Lemma main_creates_in_one_run_witness :
  let world := {| now := 0; meet_initialize := Throw "No valid tokens";
                  meet_getConferenceRecords := fun _ _ => Return [Fixture.meeting_a];
                  clockify := Fixture.tracker [] Fixture.always |} in
  let first := Cli.syncMeetToClockify Fixture.env_live world Fixture.store0 in
  fst first = Throw "No valid tokens"
  /\ includes "No valid tokens" "No saved credentials found" = false
  /\ (exists t, events (snd first) = t ++ events Fixture.store0 /\ free_of is_creation t)
  /\ Cli.main Fixture.env_live world (Return tt) world Fixture.store0 = first.
Proof.
  intros world first.
  assert (fst first = Throw "No valid tokens") as Hfirst by (vm_compute; reflexivity).
  split; [exact Hfirst|]. split; [reflexivity|].
  destruct (main_creates_in_one_run Fixture.env_live world (Return tt) world Fixture.store0)
    as [_ Hthrow].
  destruct (Hthrow "No valid tokens" Hfirst) as [Hquiet Hsame].
  split; [exact Hquiet | exact (Hsame eq_refl)].
Defined.

End CliExample.

(* ===================================================================== *)
(** ** Token storage *)
(* ===================================================================== *)

Section TokenFacts.

Lemma or_null_idem (o : option string) : or_null (or_null o) = or_null o.
Proof. destruct o as [[|a s]|]; reflexivity. Qed.

Lemma load_after_save (now : Z) (tokenData : TokenStorage.TokenData)
    (db : gmap string TokenStorage.Row) :
  TokenStorage.loadTokens (TokenStorage.saveTokens now tokenData db)
  = Some {| TokenStorage.access_token := TokenStorage.access_token tokenData;
            TokenStorage.refresh_token := TokenStorage.refresh_token tokenData;
            TokenStorage.expires_at := TokenStorage.expires_at tokenData;
            TokenStorage.token_type := TokenStorage.token_type tokenData;
            TokenStorage.scope := or_null (TokenStorage.scope tokenData) |}.
Proof.
  unfold TokenStorage.loadTokens, TokenStorage.saveTokens.
  rewrite lookup_insert_eq. cbn. now rewrite or_null_idem.
Qed.

End TokenFacts.

(** X25.  Saved tokens are loaded back as they were saved, whatever the
    table held before, except that an empty scope comes back as no scope.
    After [deleteTokens] nothing is loaded, and neither function touches the
    row of another provider. *)
Theorem tokens_round_trip (now : Z) (tokenData : TokenStorage.TokenData)
    (db : gmap string TokenStorage.Row) :
  TokenStorage.loadTokens (TokenStorage.saveTokens now tokenData db)
  = Some {| TokenStorage.access_token := TokenStorage.access_token tokenData;
            TokenStorage.refresh_token := TokenStorage.refresh_token tokenData;
            TokenStorage.expires_at := TokenStorage.expires_at tokenData;
            TokenStorage.token_type := TokenStorage.token_type tokenData;
            TokenStorage.scope := or_null (TokenStorage.scope tokenData) |}
  /\ (TokenStorage.scope tokenData <> Some "" ->
      TokenStorage.loadTokens (TokenStorage.saveTokens now tokenData db) = Some tokenData)
  /\ TokenStorage.loadTokens
       (TokenStorage.deleteTokens (TokenStorage.saveTokens now tokenData db)) = None
  /\ (forall provider, provider <> "google" ->
        TokenStorage.saveTokens now tokenData db !! provider = db !! provider
        /\ TokenStorage.deleteTokens db !! provider = db !! provider).
Proof.
  pose proof (load_after_save now tokenData db) as Hload.
  split; [exact Hload|]. split; [|split].
  - intros Hscope. rewrite Hload. destruct tokenData as [a r e t [[|c sc]|]]; cbn in *;
      [contradiction | reflexivity | reflexivity].
  - unfold TokenStorage.loadTokens, TokenStorage.deleteTokens.
    now rewrite lookup_delete_eq.
  - intros provider Hp. unfold TokenStorage.saveTokens, TokenStorage.deleteTokens.
    split; [apply lookup_insert_ne | apply lookup_delete_ne]; congruence.
Qed.

Lemma tokens_round_trip_witness :
  let tokenData := {| TokenStorage.access_token := "ya29.a0";
                      TokenStorage.refresh_token := "1//0g";
                      TokenStorage.expires_at := 1760785200000;
                      TokenStorage.token_type := "Bearer";
                      TokenStorage.scope := Some "meetings.space.readonly" |} in
  TokenStorage.scope tokenData <> Some ""
  /\ TokenStorage.loadTokens (TokenStorage.saveTokens 0 tokenData ∅) = Some tokenData.
Proof.
  intros tokenData.
  assert (TokenStorage.scope tokenData <> Some "") as Hscope by discriminate.
  split; [exact Hscope|].
  exact (proj1 (proj2 (tokens_round_trip 0 tokenData ∅)) Hscope).
Defined.

(* ===================================================================== *)
(** ** The credentials of the Meet service *)
(* ===================================================================== *)

(** X26.  The handler of a token refresh stores, field by field, the
    refreshed value when there is one and otherwise the value loaded when the
    client was initialised.  An earlier refresh leaves no trace: a refresh
    token that only the earlier refresh brought is not kept. *)
Theorem refresh_merges_with_loaded_tokens (now now' : Z)
    (tokenData : TokenStorage.TokenData) (tokens tokens' : Auth.Credentials)
    (db : gmap string TokenStorage.Row) :
  TokenStorage.loadTokens (Auth.onTokens now tokenData tokens db)
  = Some {| TokenStorage.access_token :=
              Auth.or_string (Auth.c_access_token tokens)
                             (TokenStorage.access_token tokenData);
            TokenStorage.refresh_token :=
              Auth.or_string (Auth.c_refresh_token tokens)
                             (TokenStorage.refresh_token tokenData);
            TokenStorage.expires_at :=
              Auth.or_number (Auth.c_expiry_date tokens)
                             (TokenStorage.expires_at tokenData);
            TokenStorage.token_type :=
              Auth.or_string (Auth.c_token_type tokens)
                             (TokenStorage.token_type tokenData);
            TokenStorage.scope :=
              or_null (Auth.or_optional (Auth.c_scope tokens)
                                        (TokenStorage.scope tokenData)) |}
  /\ Auth.onTokens now' tokenData tokens' (Auth.onTokens now tokenData tokens db)
     = Auth.onTokens now' tokenData tokens' db.
Proof.
  split.
  - unfold Auth.onTokens. cbv zeta. apply load_after_save.
  - unfold Auth.onTokens, TokenStorage.saveTokens. cbv zeta.
    apply insert_insert_eq.
Qed.

(** X27.  After a code exchange the client can be initialised from the
    table: it is given the exchanged tokens, with an empty string for a
    missing access or refresh token, an expiry one hour after the exchange
    when none was given, and the type ["Bearer"] when none was given.  On a
    table without tokens [initializeAuth] throws an error whose message
    contains ["No saved credentials found"]. *)
Theorem code_exchange_enables_initialisation (now : Z) (tokens : Auth.Credentials)
    (db : gmap string TokenStorage.Row) :
  fst (Auth.saveCredentialsFromCode now (Return tokens) db) = Return tt
  /\ Auth.initializeAuth (snd (Auth.saveCredentialsFromCode now (Return tokens) db))
     = Return {| Auth.c_access_token := Some (Auth.or_string (Auth.c_access_token tokens) "");
                 Auth.c_refresh_token :=
                   Some (Auth.or_string (Auth.c_refresh_token tokens) "");
                 Auth.c_expiry_date :=
                   Some (Auth.or_number (Auth.c_expiry_date tokens) (now + 3600000));
                 Auth.c_token_type :=
                   Some (Auth.or_string (Auth.c_token_type tokens) "Bearer");
                 Auth.c_scope := or_null (Auth.c_scope tokens) |}
  /\ Auth.initializeAuth (TokenStorage.deleteTokens db) = Throw Auth.noCredentials
  /\ includes Auth.noCredentials "No saved credentials found" = true.
Proof.
  split; [reflexivity|]. split; [|split].
  - unfold Auth.saveCredentialsFromCode, Auth.initializeAuth. cbv zeta. cbn [snd].
    now rewrite load_after_save.
  - unfold Auth.initializeAuth, TokenStorage.loadTokens, TokenStorage.deleteTokens.
    now rewrite lookup_delete_eq.
  - vm_compute. reflexivity.
Qed.
